(** * Terminology mapping between NAMASTE and ICD-11: a shallow embedding

    The development follows [app/services/mapping_service.py] and the two
    services it calls, [app/services/namaste_service.py] and
    [app/services/icd11_service.py].

    - Python [str] is [string]; [lower] and [strip] act on the ASCII range.
    - Python [float] is the kernel's binary64 [float]: literals, [+], [*] and
      the comparisons round and compare exactly as CPython's do.
    - A dict with a fixed set of keys is a record; the predefined mapping
      table, whose iteration order is observable, is an association list.
    - A call that may raise returns [result]; [try ... except] is
      [try_except].
    - What the code takes from outside the repository is a parameter:
      [difflib.SequenceMatcher(None, a, b).ratio()] is [ratio], the iteration
      order of [list(set(terms))] is [list_set], the WHO ICD-11 service behind
      [ICD11Service] is a record of its two methods, and [uuid.uuid4()] and
      [datetime.now()] are explicit inputs of [generate_concept_map]. *)

From Stdlib Require Import Bool Ascii String List ZArith Lia Floats.
From Stdlib Require Import DecimalString Permutation Sorted.
Import ListNotations.

Set Warnings "-inexact-float".
Set Implicit Arguments.

Open Scope string_scope.
Open Scope list_scope.

(** ** Python runtime *)

Module Py.

(** [c.lower()] for one character of the ASCII range. *)
Definition lower_ascii (c : ascii) : ascii :=
  let n := nat_of_ascii c in
  if (65 <=? n)%nat && (n <=? 90)%nat then ascii_of_nat (n + 32) else c.

(** [s.lower()] *)
Fixpoint lower (s : string) : string :=
  match s with
  | EmptyString => EmptyString
  | String c s' => String (lower_ascii c) (lower s')
  end.

(** [sub in s] *)
Fixpoint contains (sub s : string) : bool :=
  if prefix sub s then true
  else match s with
       | EmptyString => false
       | String _ s' => contains sub s'
       end.

(** The ASCII characters [str.strip()] removes. *)
Definition is_space (c : ascii) : bool :=
  let n := nat_of_ascii c in
  ((9 <=? n)%nat && (n <=? 13)%nat) || ((28 <=? n)%nat && (n <=? 32)%nat).

Fixpoint lstrip (s : string) : string :=
  match s with
  | EmptyString => EmptyString
  | String c s' => if is_space c then lstrip s' else s
  end.

Fixpoint rstrip (s : string) : string :=
  match s with
  | EmptyString => EmptyString
  | String c s' =>
      match rstrip s' with
      | EmptyString => if is_space c then EmptyString else String c EmptyString
      | r => String c r
      end
  end.

(** [s.strip()] *)
Definition strip (s : string) : string := rstrip (lstrip s).

(** [re.split(r'[\(\)]', s)[0]]: the text before the first parenthesis. *)
Fixpoint split_parens_first (s : string) : string :=
  match s with
  | EmptyString => EmptyString
  | String c s' =>
      if (c =? "(")%char || (c =? ")")%char then EmptyString
      else String c (split_parens_first s')
  end.

(** [s.replace(old, new)]; [skip] counts the characters of a match still to
    be dropped. *)
Fixpoint replace_from (old new s : string) (skip : nat) : string :=
  match s with
  | EmptyString => EmptyString
  | String c s' =>
      match skip with
      | S k => replace_from old new s' k
      | O =>
          if prefix old s
          then new ++ replace_from old new s' (String.length old - 1)
          else String c (replace_from old new s' 0)
      end
  end.

Definition replace (old new s : string) : string :=
  match old with
  | EmptyString => s
  | _ => replace_from old new s 0
  end.

(** [s[:n]] *)
Definition take (n : nat) (s : string) : string := substring 0 n s.

(** [min(a, b)] on floats: the first argument unless the second is smaller. *)
Definition min (a b : float) : float := if (b <? a)%float then b else a.

(** [str(n)] for a natural number. *)
Definition str_of_N (n : N) : string := NilZero.string_of_uint (N.to_uint n).

(** Two decimal digits, zero padded. *)
Definition two_digits (n : N) : string :=
  (if (n <? 10)%N then "0" else "") ++ str_of_N n.

(** [m * 2^e * 100] rounded to the nearest integer, ties to even. *)
Definition hundredths (m : positive) (e : Z) : N :=
  match e with
  | Z0 => Npos m * 100
  | Zpos p => Npos m * 100 * 2 ^ Npos p
  | Zneg p =>
      let num := (Npos m * 100)%N in
      let den := (2 ^ Npos p)%N in
      let q := (num / den)%N in
      let r := (num mod den)%N in
      match (2 * r ?= den)%N with
      | Lt => q
      | Gt => (q + 1)%N
      | Eq => if N.even q then q else (q + 1)%N
      end
  end.

(** [f"{x:.2f}"] *)
Definition format_2f (x : float) : string :=
  match Prim2SF x with
  | S754_nan => "nan"
  | S754_infinity s => if s then "-inf" else "inf"
  | S754_zero s => (if s then "-" else "") ++ "0.00"
  | S754_finite s m e =>
      let h := hundredths m e in
      (if s then "-" else "") ++ str_of_N (h / 100) ++ "." ++ two_digits (h mod 100)
  end.

(** Exceptions: [Ok] is a normal return, [Raise] an exception with its
    message. *)
Inductive result (A : Type) : Type :=
| Ok (a : A)
| Raise (e : string).
Arguments Ok {A} a.
Arguments Raise {A} e.

Definition bind {A B : Type} (m : result A) (k : A -> result B) : result B :=
  match m with
  | Ok a => k a
  | Raise e => Raise e
  end.

(** [try: body except Exception as e: handler(e)] *)
Definition try_except {A : Type} (body : result A) (handler : string -> result A)
  : result A :=
  match body with
  | Ok a => Ok a
  | Raise e => handler e
  end.

(** [sorted(l, key=key, reverse=True)]: the stable sort by decreasing key.
    An element moves left only past strictly smaller keys, so elements with
    equal keys keep their order. The keys sorted here are never NaN, and on
    such keys every stable sort returns this list. *)
Section Sorted.
Variable A : Type.
Variable key : A -> float.

Fixpoint insert_desc (x : A) (l : list A) : list A :=
  match l with
  | [] => [x]
  | y :: l' =>
      if (key x <? key y)%float then y :: insert_desc x l' else x :: l
  end.

Definition sorted_desc (l : list A) : list A := fold_right insert_desc [] l.
End Sorted.

End Py.

Notation "x <- m ;; k" := (Py.bind m (fun x => k))
  (at level 61, m at next level, right associativity).

(** ** Data model *)

(** The relation a mapping asserts between source and target concept. *)
Inductive Equivalence : Type := equivalent | wider | narrower | related.

(** How a candidate was found: the value of its ['mappingMethod'] key. *)
Inductive MappingMethod : Type := predefined | automatic | automatic_reverse.

Definition Equivalence_value (e : Equivalence) : string :=
  match e with
  | equivalent => "equivalent"
  | wider => "wider"
  | narrower => "narrower"
  | related => "related"
  end.

Definition MappingMethod_value (m : MappingMethod) : string :=
  match m with
  | predefined => "predefined"
  | automatic => "automatic"
  | automatic_reverse => "automatic_reverse"
  end.

(** The two text fields every entry carries; the scorer reads nothing else
    ([d.get('display', '')], [d.get('definition', '')]). *)
Class TextEntry (A : Type) : Type := {
  display_of : A -> string;
  definition_of : A -> string
}.

(** A row of the NAMASTE table as [create_sample_namaste_data] builds it.
    The keys read with [row.get(key, default)] are optional. *)
Module Row.
Record t : Type := mk {
  code : string;
  display : string;
  definition : option string;
  system : option string;
  category : option string;
  body_system : option string
}.
End Row.

(** The dict [get_namaste_code_details] and [search_namaste_codes] return;
    only the former sets ['version']. *)
Module Details.
Record t : Type := mk {
  code : string;
  display : string;
  definition : string;
  system : string;
  category : string;
  bodySystem : string;
  codeSystem : string;
  version : option string
}.
End Details.

(** The dict [search_icd11_codes] returns for one entity.
    [get_icd11_code_details] returns the same keys and the hierarchy lists,
    which the mapping service never reads. *)
Module Icd.
Record t : Type := mk {
  id : string;
  code : string;
  display : string;
  definition : string;
  system : string;
  systemName : string;
  isLeaf : bool
}.
End Icd.

#[global] Instance Details_text : TextEntry Details.t :=
  {| display_of := Details.display; definition_of := Details.definition |}.

#[global] Instance Icd_text : TextEntry Icd.t :=
  {| display_of := Icd.display; definition_of := Icd.definition |}.

(** An entry with the three keys a translation adds to it. *)
Module Mapped.
Record t (A : Type) : Type := mk {
  entry : A;
  equivalence : Equivalence;
  mappingMethod : MappingMethod;
  confidence : float
}.
End Mapped.

(** ** [namaste_service.py] *)

(** The service object. The table [create_sample_namaste_data] returns is a
    field, so that what is proved of a service holds for every table;
    [Namaste.init] holds the table of the repository. The methods below
    re-raise what they catch, and nothing in them can raise on rows whose
    values are strings. *)
Record NAMASTEService : Type := {
  code_system_url : string;
  code_system_version : string;
  (** what [create_sample_namaste_data()] returns *)
  create_sample_namaste_data : list Row.t
}.

Module Namaste.

Definition sample_data : list Row.t :=
  [ Row.mk "NAM001" "Ama (Undigested food toxins)"
      (Some "Accumulation of undigested food particles leading to toxicity")
      (Some "Ayurveda") (Some "Digestive Disorders") (Some "Gastrointestinal");
    Row.mk "NAM002" "Vata Dosha Imbalance"
      (Some "Constitutional imbalance of Vata dosha affecting movement and nervous system")
      (Some "Ayurveda") (Some "Constitutional Disorders") (Some "Nervous System");
    Row.mk "NAM003" "Pitta Dosha Imbalance"
      (Some "Constitutional imbalance of Pitta dosha affecting metabolism and heat")
      (Some "Ayurveda") (Some "Constitutional Disorders") (Some "Metabolic System");
    Row.mk "NAM004" "Kapha Dosha Imbalance"
      (Some "Constitutional imbalance of Kapha dosha affecting structure and immunity")
      (Some "Ayurveda") (Some "Constitutional Disorders") (Some "Immune System");
    Row.mk "NAM005" "Ajirna (Indigestion)"
      (Some "Impaired digestion leading to various gastrointestinal symptoms")
      (Some "Ayurveda") (Some "Digestive Disorders") (Some "Gastrointestinal");
    Row.mk "SID001" "Vatham Imbalance"
      (Some "Vatham dosha imbalance in Siddha system")
      (Some "Siddha") (Some "Constitutional Disorders") (Some "Nervous System");
    Row.mk "SID002" "Pitham Imbalance"
      (Some "Pitham dosha imbalance in Siddha system")
      (Some "Siddha") (Some "Constitutional Disorders") (Some "Metabolic System");
    Row.mk "UNA001" "Su-i-Mizaj (Temperament Disorder)"
      (Some "Imbalance in temperament according to Unani medicine")
      (Some "Unani") (Some "Temperament Disorders") (Some "Constitutional");
    Row.mk "UNA002" "Soo-i-Hazm (Dyspepsia)"
      (Some "Digestive disorder characterized by impaired digestion")
      (Some "Unani") (Some "Digestive Disorders") (Some "Gastrointestinal");
    Row.mk "NAM006" "Shirahshula (Headache)"
      (Some "Head pain due to various doshic imbalances")
      (Some "Ayurveda") (Some "Neurological Disorders") (Some "Nervous System") ].

(** [NAMASTEService()] *)
Definition init : NAMASTEService :=
  {| code_system_url := "http://terminology.mohayush.gov.in/namaste";
     code_system_version := "1.0.0";
     create_sample_namaste_data := sample_data |}.

Definition get_or (o : option string) (default : string) : string :=
  match o with
  | Some v => v
  | None => default
  end.

Definition get_namaste_code_details (self : NAMASTEService) (code : string)
    (namaste_data : list Row.t) : option Details.t :=
  match find (fun item => Row.code item =? code) namaste_data with
  | None => None
  | Some row =>
      Some (Details.mk (Row.code row) (Row.display row)
              (get_or (Row.definition row) (Row.display row))
              (get_or (Row.system row) "Unknown")
              (get_or (Row.category row) "General")
              (get_or (Row.body_system row) "Unknown")
              (code_system_url self)
              (Some (code_system_version self)))
  end.

(** The first loop of [search_namaste_codes]: rows are collected until
    their number reaches [limit]. *)
Fixpoint matching_rows (search_term : string) (namaste_data : list Row.t)
    (limit : Z) (matching_results : list Row.t) : list Row.t :=
  match namaste_data with
  | [] => matching_results
  | row :: rest =>
      let code_lower := Py.lower (Row.code row) in
      let display_lower := Py.lower (Row.display row) in
      let definition_lower := Py.lower (get_or (Row.definition row) "") in
      if Py.contains search_term code_lower
         || Py.contains search_term display_lower
         || Py.contains search_term definition_lower
      then
        let matching_results := matching_results ++ [row] in
        if (Z.of_nat (length matching_results) >=? limit)%Z
        then matching_results
        else matching_rows search_term rest limit matching_results
      else matching_rows search_term rest limit matching_results
  end.

Definition search_namaste_codes (self : NAMASTEService) (search_term : string)
    (namaste_data : list Row.t) (limit : Z) : list Details.t :=
  let search_term := Py.strip (Py.lower search_term) in
  map (fun row =>
         Details.mk (Row.code row) (Row.display row)
           (get_or (Row.definition row) (Row.display row))
           (get_or (Row.system row) "Unknown")
           (get_or (Row.category row) "General")
           (get_or (Row.body_system row) "Unknown")
           (code_system_url self)
           None)
      (matching_rows search_term namaste_data limit []).

End Namaste.

(** ** [icd11_service.py] *)

(** The service as the mapping service sees it. [search_icd11_codes] re-raises
    what it catches; [get_icd11_code_details] is given the same type, so that
    a stand-in that raises is covered as well. *)
Record ICD11Service : Type := {
  icd11_biomedicine_url : string;
  icd11_tm2_url : string;
  search_icd11_codes : string -> string -> Z -> Py.result (list Icd.t);
  get_icd11_code_details : string -> Py.result (option Icd.t)
}.

Module ICD11.

(** An entity of the WHO response, reduced to the keys the service reads. *)
Record Entity : Type := {
  at_id : string;
  ent_code : string;
  title_value : string;
  definition_value : string;
  ent_isLeaf : bool
}.

Definition base_url : string := "https://id.who.int".
Definition biomedicine_url : string := "http://id.who.int/icd/release/11/2023-01/mms".
Definition tm2_url : string := "http://id.who.int/icd/release/11/2023-01/tm2".

(** [_get_mock_icd11_data(endpoint)['entities']] *)
Definition _get_mock_icd11_data (endpoint : string) : list Entity :=
  if Py.contains "tm2" (Py.lower endpoint) || Py.contains "traditional" (Py.lower endpoint)
  then
    [ {| at_id := "http://id.who.int/icd/release/11/2023-01/tm2/1234567890";
         ent_code := "TM2.01";
         title_value := "Traditional Medicine Pattern - Constitutional Type";
         definition_value := "Traditional medicine constitutional pattern disorders";
         ent_isLeaf := true |};
      {| at_id := "http://id.who.int/icd/release/11/2023-01/tm2/1234567891";
         ent_code := "TM2.02";
         title_value := "Traditional Medicine Pattern - Digestive Disorders";
         definition_value := "Traditional medicine digestive pattern disorders";
         ent_isLeaf := true |};
      {| at_id := "http://id.who.int/icd/release/11/2023-01/tm2/1234567892";
         ent_code := "TM2.03";
         title_value := "Traditional Medicine Pattern - Neurological Disorders";
         definition_value := "Traditional medicine neurological pattern disorders";
         ent_isLeaf := true |} ]
  else
    [ {| at_id := "http://id.who.int/icd/release/11/2023-01/mms/1234567890";
         ent_code := "K59.0";
         title_value := "Constipation";
         definition_value := "Difficulty in passing stools or infrequent bowel movements";
         ent_isLeaf := true |};
      {| at_id := "http://id.who.int/icd/release/11/2023-01/mms/1234567891";
         ent_code := "G44.2";
         title_value := "Tension-type headache";
         definition_value := "Primary headache disorder characterized by bilateral pain";
         ent_isLeaf := true |} ].

(** Demo mode (no credentials): [_make_api_request] answers every request
    with the mock data, whether the HTTP call returns or fails. *)
Definition _make_api_request (endpoint : string) : list Entity :=
  _get_mock_icd11_data endpoint.

Definition _search_tm2_codes (search_term : string) (limit : Z) : list Icd.t :=
  map (fun entity =>
         Icd.mk (at_id entity) (ent_code entity) (title_value entity)
           (definition_value entity) tm2_url
           "ICD-11 Traditional Medicine Module 2" (ent_isLeaf entity))
      (_make_api_request "/release/11/2023-01/tm2").

Definition _search_biomedicine_codes (search_term : string) (limit : Z) : list Icd.t :=
  map (fun entity =>
         Icd.mk (at_id entity) (ent_code entity) (title_value entity)
           (definition_value entity) biomedicine_url
           "ICD-11 Biomedicine" (ent_isLeaf entity))
      (_make_api_request "/release/11/2023-01/mms").

Definition demo_search_icd11_codes (search_term system : string) (limit : Z)
  : Py.result (list Icd.t) :=
  let results := [] in
  let results :=
    if (system =? "tm2") || (system =? "both")
    then results ++ _search_tm2_codes search_term limit else results in
  let results :=
    if (system =? "biomedicine") || (system =? "both")
    then results ++ _search_biomedicine_codes search_term limit else results in
  Py.Ok results.

(** In demo mode the answer to a details request is the mock search
    document, which has none of the keys read here: every text field is the
    default [''] . *)
Definition demo_get_icd11_code_details (code_id : string) : Py.result (option Icd.t) :=
  if Py.contains "tm2" code_id || Py.contains "mms" code_id then
    let endpoint := Py.replace base_url "" code_id in
    let data := _make_api_request endpoint in
    let system_url := if Py.contains "tm2" code_id then tm2_url else biomedicine_url in
    let system_name :=
      if Py.contains "tm2" code_id
      then "ICD-11 Traditional Medicine Module 2" else "ICD-11 Biomedicine" in
    Py.Ok (Some (Icd.mk "" "" "" "" system_url system_name false))
  else Py.Ok None.

(** [ICD11Service()] without credentials. *)
Definition demo : ICD11Service :=
  {| icd11_biomedicine_url := biomedicine_url;
     icd11_tm2_url := tm2_url;
     search_icd11_codes := demo_search_icd11_codes;
     get_icd11_code_details := demo_get_icd11_code_details |}.

End ICD11.

(** ** [mapping_service.py] *)

(** One entry of a predefined mapping: [{'system', 'code', 'equivalence'}]. *)
Record PredefinedMapping : Type := {
  pm_system : string;
  pm_code : string;
  pm_equivalence : Equivalence
}.

(** The state [MappingService.__init__] sets up. *)
Record MappingService : Type := {
  namaste_service : NAMASTEService;
  icd11_service : ICD11Service;
  concept_map_url : string;
  predefined_mappings : list (string * list PredefinedMapping)
}.

(** The result of [validate_mapping]. *)
Module Validation.
Record report : Type := {
  valid : bool;
  confidence : float;
  equivalence : Equivalence;
  recommendation : string;
  namaste_details : Details.t;
  icd11_details : Icd.t
}.
Inductive t : Type :=
| Rejected (reason : string)
| Report (r : report).
End Validation.

(** The parts of the ConceptMap resource [generate_concept_map] fills in. *)
Module Target.
Record t : Type := {
  code : string;
  display : string;
  equivalence : string;
  comment : string
}.
End Target.

Module Element.
Record t : Type := {
  code : string;
  display : string;
  target : list Target.t
}.
End Element.

Module Group.
Record t : Type := {
  source : string;
  sourceVersion : string;
  target : string;
  targetVersion : string;
  element : list Element.t
}.
End Group.

Module ConceptMap.
Record t : Type := {
  id : string;
  url : string;
  version : string;
  name : string;
  title : string;
  status : string;
  experimental : bool;
  date : Z;
  publisher : string;
  description : string;
  purpose : string;
  copyright : string;
  sourceCanonical : string;
  group : list Group.t;
  contact : list (string * list (string * string));
  jurisdiction : list (string * string * string)
}.
End ConceptMap.

Module Mapping.

(** [key in d] and [d[key]] on a dict written as its list of items. *)
Fixpoint dict_get (V : Type) (key : string) (d : list (string * V)) : option V :=
  match d with
  | [] => None
  | (k, v) :: rest => if k =? key then Some v else dict_get key rest
  end.

(** [self.mapping_patterns]: category, then its keywords, TM2 patterns and
    Biomedicine patterns. No method reads it. *)
Definition mapping_patterns : list (string * (list string * list string * list string)) :=
  [ ("digestive",
     (["indigestion"; "dyspepsia"; "ajirna"; "ama"; "agni"; "constipation"],
      ["digestive"; "gastrointestinal"; "stomach"],
      ["K59"; "K30"; "dyspepsia"; "constipation"]));
    ("constitutional",
     (["vata"; "pitta"; "kapha"; "vatham"; "pitham"; "dosha"; "mizaj"],
      ["constitutional"; "pattern"; "temperament"],
      ["Z73"; "general"; "constitutional"]));
    ("neurological",
     (["headache"; "shirahshula"; "migraine"; "nervous"; "brain"],
      ["neurological"; "nervous"; "head"],
      ["G44"; "G43"; "headache"; "migraine"]));
    ("pain",
     (["pain"; "ache"; "shula"; "vedana"],
      ["pain"; "ache"],
      ["R52"; "M79"; "pain"])) ].

Definition pm (system code : string) (equivalence : Equivalence) : PredefinedMapping :=
  {| pm_system := system; pm_code := code; pm_equivalence := equivalence |}.

(** [self.predefined_mappings] as [_init_mapping_rules] sets it. *)
Definition predefined_mappings_init : list (string * list PredefinedMapping) :=
  [ ("NAM001", [pm "tm2" "TM2.02" equivalent; pm "biomedicine" "K30" wider]);
    ("NAM002", [pm "tm2" "TM2.01" equivalent; pm "biomedicine" "Z73.3" wider]);
    ("NAM003", [pm "tm2" "TM2.01" equivalent; pm "biomedicine" "Z73.3" wider]);
    ("NAM004", [pm "tm2" "TM2.01" equivalent; pm "biomedicine" "Z73.3" wider]);
    ("NAM005", [pm "tm2" "TM2.02" equivalent; pm "biomedicine" "K30" equivalent]);
    ("NAM006", [pm "tm2" "TM2.03" equivalent; pm "biomedicine" "G44.2" equivalent]);
    ("SID001", [pm "tm2" "TM2.01" equivalent; pm "biomedicine" "Z73.3" wider]);
    ("SID002", [pm "tm2" "TM2.01" equivalent; pm "biomedicine" "Z73.3" wider]);
    ("UNA001", [pm "tm2" "TM2.01" equivalent; pm "biomedicine" "Z73.3" wider]);
    ("UNA002", [pm "tm2" "TM2.02" equivalent; pm "biomedicine" "K30" equivalent]) ].

(** [MappingService()], with the two services it creates as arguments. *)
Definition init (ns : NAMASTEService) (icd : ICD11Service) : MappingService :=
  {| namaste_service := ns;
     icd11_service := icd;
     concept_map_url := "http://terminology.mohayush.gov.in/ConceptMap/namaste-to-icd11";
     predefined_mappings := predefined_mappings_init |}.

Definition common_terms : list string :=
  [ "pain"; "disorder"; "syndrome"; "disease"; "condition";
    "digestive"; "neurological"; "constitutional"; "headache";
    "indigestion"; "imbalance" ].

Definition _determine_equivalence (confidence : float) : Equivalence :=
  if (0.8 <=? confidence)%float then equivalent
  else if (0.6 <=? confidence)%float then wider
  else if (0.4 <=? confidence)%float then narrower
  else related.

(** The key of the duplicate filter: [f"{result['system']}:{result['code']}"]. *)
Definition result_key (result : Mapped.t Icd.t) : string :=
  Icd.system (Mapped.entry result) ++ ":" ++ Icd.code (Mapped.entry result).

(** The loop that fills [unique_results]; [seen_codes] is the set of keys met
    so far. *)
Fixpoint unique_results (seen_codes : list string) (results : list (Mapped.t Icd.t))
  : list (Mapped.t Icd.t) :=
  match results with
  | [] => []
  | result :: rest =>
      let key := result_key result in
      if existsb (String.eqb key) seen_codes
      then unique_results seen_codes rest
      else result :: unique_results (key :: seen_codes) rest
  end.

Section Service.

(** [SequenceMatcher(None, a, b).ratio()] *)
Variable ratio : string -> string -> float.
(** [list(set(terms))] *)
Variable list_set : list string -> list string.

Definition _calculate_keyword_bonus (A B : Type) `{TextEntry A} `{TextEntry B}
    (namaste_details : A) (icd_match : B) : float :=
  let namaste_text :=
    Py.lower (display_of namaste_details ++ " " ++ definition_of namaste_details) in
  let icd_text := Py.lower (display_of icd_match ++ " " ++ definition_of icd_match) in
  let bonus :=
    fold_left
      (fun bonus term =>
         if Py.contains term namaste_text && Py.contains term icd_text
         then (bonus + 0.1)%float else bonus)
      common_terms 0%float in
  Py.min bonus 1.0.

(** The [except] branch of the source, [return 0.0], cannot be reached when
    both text fields are strings, as they are here. *)
Definition _calculate_similarity (A B : Type) `{TextEntry A} `{TextEntry B}
    (namaste_details : A) (icd_match : B) : float :=
  let namaste_display := Py.lower (display_of namaste_details) in
  let icd_display := Py.lower (display_of icd_match) in
  let display_similarity := ratio namaste_display icd_display in
  let namaste_def := Py.lower (definition_of namaste_details) in
  let icd_def := Py.lower (definition_of icd_match) in
  let def_similarity := ratio namaste_def icd_def in
  let keyword_bonus := _calculate_keyword_bonus namaste_details icd_match in
  let final_score :=
    (display_similarity * 0.4 + def_similarity * 0.4 + keyword_bonus * 0.2)%float in
  Py.min final_score 1.0.

Definition _extract_search_terms (namaste_details : Details.t) : list string :=
  let terms := [] in
  let display := Py.lower (Details.display namaste_details) in
  let main_term := Py.strip (Py.split_parens_first display) in
  let terms := if main_term =? "" then terms else terms ++ [main_term] in
  let category := Py.lower (Details.category namaste_details) in
  let body_system := Py.lower (Details.bodySystem namaste_details) in
  let terms :=
    if Py.contains "digestive" category
    then terms ++ ["digestion"; "stomach"; "gastric"]
    else if Py.contains "constitutional" category
    then terms ++ ["constitutional"; "temperament"; "pattern"]
    else if Py.contains "neurological" category
    then terms ++ ["neurological"; "nervous"; "brain"]
    else terms in
  let terms :=
    if Py.contains "gastrointestinal" body_system
    then terms ++ ["gastrointestinal"; "digestive"]
    else if Py.contains "nervous" body_system
    then terms ++ ["nervous"; "neurological"]
    else terms in
  let terms :=
    if Py.contains "headache" display
    then terms ++ ["headache"; "cephalgia"]
    else if Py.contains "indigestion" display
    then terms ++ ["indigestion"; "dyspepsia"]
    else if Py.contains "dosha" display
    then terms ++ ["constitutional"; "pattern"]
    else terms in
  list_set terms.

Variable self : MappingService.

(** The loop over the entries of a predefined mapping. *)
Fixpoint predefined_loop (target_system : string) (mappings : list PredefinedMapping)
    (results : list (Mapped.t Icd.t)) : Py.result (list (Mapped.t Icd.t)) :=
  match mappings with
  | [] => Py.Ok results
  | mapping :: rest =>
      if (target_system =? "both") || (target_system =? pm_system mapping) then
        icd_results <-
          (if pm_system mapping =? "tm2"
           then search_icd11_codes (icd11_service self) (pm_code mapping) "tm2" 1
           else search_icd11_codes (icd11_service self) (pm_code mapping) "biomedicine" 1) ;;
        match icd_results with
        | result :: _ =>
            predefined_loop target_system rest
              (results ++ [Mapped.mk result (pm_equivalence mapping) predefined 0.9])
        | [] => predefined_loop target_system rest results
        end
      else predefined_loop target_system rest results
  end.

(** The loop over the matches of one search: a match scored above 0.3 is
    appended with its three new keys. *)
Definition score_matches (namaste_details : Details.t) (matches : list Icd.t)
    (results : list (Mapped.t Icd.t)) : list (Mapped.t Icd.t) :=
  fold_left
    (fun results match_ =>
       let confidence := _calculate_similarity namaste_details match_ in
       if (0.3 <? confidence)%float
       then results ++ [Mapped.mk match_ (_determine_equivalence confidence) automatic confidence]
       else results)
    matches results.

(** The loop over the search terms: [results] before duplicates are removed. *)
Fixpoint search_loop (namaste_details : Details.t) (target_system : string)
    (search_terms : list string) (results : list (Mapped.t Icd.t))
  : Py.result (list (Mapped.t Icd.t)) :=
  match search_terms with
  | [] => Py.Ok results
  | search_term :: rest =>
      results <-
        (if (target_system =? "tm2") || (target_system =? "both") then
           tm2_matches <- search_icd11_codes (icd11_service self) search_term "tm2" 3 ;;
           Py.Ok (score_matches namaste_details tm2_matches results)
         else Py.Ok results) ;;
      results <-
        (if (target_system =? "biomedicine") || (target_system =? "both") then
           bio_matches <- search_icd11_codes (icd11_service self) search_term "biomedicine" 3 ;;
           Py.Ok (score_matches namaste_details bio_matches results)
         else Py.Ok results) ;;
      search_loop namaste_details target_system rest results
  end.

Definition _perform_automatic_mapping (namaste_code target_system : string)
  : Py.result (list (Mapped.t Icd.t)) :=
  Py.try_except
    (let sample_data := create_sample_namaste_data (namaste_service self) in
     match Namaste.get_namaste_code_details (namaste_service self) namaste_code sample_data with
     | None => Py.Ok []
     | Some namaste_details =>
         let search_terms := _extract_search_terms namaste_details in
         results <- search_loop namaste_details target_system search_terms [] ;;
         let unique := unique_results [] (Py.sorted_desc (@Mapped.confidence _) results) in
         Py.Ok (firstn 5 unique)
     end)
    (fun _ => Py.Ok []).

Definition translate_namaste_to_icd11 (namaste_code target_system : string)
  : Py.result (list (Mapped.t Icd.t)) :=
  Py.try_except
    (match dict_get namaste_code (predefined_mappings self) with
     | Some mappings => predefined_loop target_system mappings []
     | None => _perform_automatic_mapping namaste_code target_system
     end)
    (fun _ => Py.Ok []).

(** The scan of the predefined table in [reverse_translate_icd11_to_namaste]. *)
Definition reverse_predefined (icd11_code icd11_system : string) (sample_data : list Row.t)
  : list (Mapped.t Details.t) :=
  flat_map
    (fun item : string * list PredefinedMapping =>
       let (namaste_code, mappings) := item in
       flat_map
         (fun mapping =>
            if (pm_system mapping =? icd11_system) && (pm_code mapping =? icd11_code) then
              match Namaste.get_namaste_code_details (namaste_service self) namaste_code sample_data with
              | Some namaste_details =>
                  [Mapped.mk namaste_details (pm_equivalence mapping) predefined 0.9]
              | None => []
              end
            else [])
         mappings)
    (predefined_mappings self).

(** The automatic reverse mapping: each non-empty search term is looked up in
    the NAMASTE table and every match scored above 0.3 is appended. *)
Definition reverse_automatic (icd_details : Icd.t) (sample_data : list Row.t)
    (results : list (Mapped.t Details.t)) : list (Mapped.t Details.t) :=
  let search_terms := [Icd.display icd_details; Icd.definition icd_details] in
  fold_left
    (fun results search_term =>
       if search_term =? "" then results
       else
         let namaste_matches :=
           Namaste.search_namaste_codes (namaste_service self) search_term sample_data 5 in
         fold_left
           (fun results match_ =>
              let confidence := _calculate_similarity match_ icd_details in
              if (0.3 <? confidence)%float
              then results ++
                   [Mapped.mk match_ (_determine_equivalence confidence) automatic_reverse confidence]
              else results)
           namaste_matches results)
    search_terms results.

Definition reverse_translate_icd11_to_namaste (icd11_code icd11_system : string)
  : Py.result (list (Mapped.t Details.t)) :=
  Py.try_except
    (let sample_data := create_sample_namaste_data (namaste_service self) in
     let results := reverse_predefined icd11_code icd11_system sample_data in
     results <-
       (match results with
        | [] =>
            icd_details <- get_icd11_code_details (icd11_service self) icd11_code ;;
            match icd_details with
            | Some icd_details => Py.Ok (reverse_automatic icd_details sample_data results)
            | None => Py.Ok results
            end
        | _ => Py.Ok results
        end) ;;
     Py.Ok (Py.sorted_desc (@Mapped.confidence _) results))
    (fun _ => Py.Ok []).

(** One entry of [element['target']]. *)
Definition target_of (mapping : Mapped.t Icd.t) : Target.t :=
  {| Target.code := Icd.code (Mapped.entry mapping);
     Target.display := Icd.display (Mapped.entry mapping);
     Target.equivalence := Equivalence_value (Mapped.equivalence mapping);
     Target.comment :=
       "Mapped via " ++ MappingMethod_value (Mapped.mappingMethod mapping)
       ++ " method with confidence " ++ Py.format_2f (Mapped.confidence mapping) |}.

Definition element_of (row : Row.t) (mappings : list (Mapped.t Icd.t)) : Element.t :=
  {| Element.code := Row.code row;
     Element.display := Row.display row;
     Element.target := map target_of mappings |}.

(** The loop over the rows: the elements of the TM2 group and of the
    Biomedicine group. *)
Fixpoint elements_loop (namaste_data : list Row.t) (tm2_elements bio_elements : list Element.t)
  : Py.result (list Element.t * list Element.t) :=
  match namaste_data with
  | [] => Py.Ok (tm2_elements, bio_elements)
  | row :: rest =>
      let namaste_code := Row.code row in
      tm2_mappings <- translate_namaste_to_icd11 namaste_code "tm2" ;;
      let tm2_elements :=
        match tm2_mappings with
        | [] => tm2_elements
        | _ => tm2_elements ++ [element_of row tm2_mappings]
        end in
      bio_mappings <- translate_namaste_to_icd11 namaste_code "biomedicine" ;;
      let bio_elements :=
        match bio_mappings with
        | [] => bio_elements
        | _ => bio_elements ++ [element_of row bio_mappings]
        end in
      elements_loop rest tm2_elements bio_elements
  end.

(** [uuid_hex] is [uuid.uuid4().hex] and [now] is [datetime.now()]. *)
Definition generate_concept_map (uuid_hex : string) (now : Z) (namaste_data : list Row.t)
  : Py.result ConceptMap.t :=
  Py.try_except
    (groups <- elements_loop namaste_data [] [] ;;
     let tm2_group :=
       {| Group.source := code_system_url (namaste_service self);
          Group.sourceVersion := code_system_version (namaste_service self);
          Group.target := icd11_tm2_url (icd11_service self);
          Group.targetVersion := "2023-01";
          Group.element := fst groups |} in
     let bio_group :=
       {| Group.source := code_system_url (namaste_service self);
          Group.sourceVersion := code_system_version (namaste_service self);
          Group.target := icd11_biomedicine_url (icd11_service self);
          Group.targetVersion := "2023-01";
          Group.element := snd groups |} in
     Py.Ok
       {| ConceptMap.id := "namaste-icd11-map-" ++ Py.take 8 uuid_hex;
          ConceptMap.url := concept_map_url self;
          ConceptMap.version := "1.0.0";
          ConceptMap.name := "NAMASTEToICD11ConceptMap";
          ConceptMap.title := "NAMASTE to ICD-11 Concept Map";
          ConceptMap.status := "active";
          ConceptMap.experimental := false;
          ConceptMap.date := now;
          ConceptMap.publisher := "Ministry of AYUSH, Government of India";
          ConceptMap.description :=
            "Mapping from NAMASTE terminology to WHO ICD-11 Traditional Medicine Module 2 and Biomedicine";
          ConceptMap.purpose :=
            "Enable interoperability between traditional medicine and international classification systems";
          ConceptMap.copyright := "© Ministry of AYUSH, Government of India";
          ConceptMap.sourceCanonical := code_system_url (namaste_service self);
          ConceptMap.group := [tm2_group; bio_group];
          ConceptMap.contact := [("Ministry of AYUSH", [("url", "https://www.ayush.gov.in")])];
          ConceptMap.jurisdiction := [("urn:iso:std:iso:3166", "IN", "India")] |})
    (fun e => Py.Raise e).

Definition validate_mapping (namaste_code icd11_code icd11_system : string)
  : Py.result Validation.t :=
  Py.try_except
    (let sample_data := create_sample_namaste_data (namaste_service self) in
     match Namaste.get_namaste_code_details (namaste_service self) namaste_code sample_data with
     | None => Py.Ok (Validation.Rejected "NAMASTE code not found")
     | Some namaste_details =>
         icd_results <- search_icd11_codes (icd11_service self) icd11_code icd11_system 1 ;;
         match icd_results with
         | [] => Py.Ok (Validation.Rejected "ICD-11 code not found")
         | icd_details :: _ =>
             let confidence := _calculate_similarity namaste_details icd_details in
             let equivalence := _determine_equivalence confidence in
             Py.Ok (Validation.Report
                      {| Validation.valid := (0.3 <? confidence)%float;
                         Validation.confidence := confidence;
                         Validation.equivalence := equivalence;
                         Validation.recommendation :=
                           if (0.6 <? confidence)%float then "Accept"
                           else if (0.3 <? confidence)%float then "Review"
                           else "Reject";
                         Validation.namaste_details := namaste_details;
                         Validation.icd11_details := icd_details |})
         end
     end)
    (fun e => Py.Ok (Validation.Rejected ("Validation error: " ++ e))).

End Service.

End Mapping.

(** ** Floats read through their specification *)

Module SF.

(** Not a NaN: the comparisons are a total preorder on these. *)
Definition ordered (s : spec_float) : Prop :=
  match s with
  | S754_nan => False
  | _ => True
  end.

(** Zero of either sign, or positive. *)
Definition nonneg (s : spec_float) : Prop :=
  match s with
  | S754_zero _ => True
  | S754_infinity sign | S754_finite sign _ _ => sign = false
  | S754_nan => False
  end.

Definition finite (s : spec_float) : Prop :=
  match s with
  | S754_zero _ | S754_finite _ _ _ => True
  | _ => False
  end.

End SF.

(** [x] is not a NaN. *)
Definition is_number (x : float) : Prop := SF.ordered (Prim2SF x).

(** ** Stand-ins for what the service takes from outside *)

Module Fixture.

(** A sequence ratio in the sense of the contract: 1 on equal strings, 0
    otherwise. *)
Definition exact_ratio (a b : string) : float :=
  if a =? b then 1%float else 0%float.

(** A set order: the distinct elements in the order of their last
    occurrence. *)
Definition last_seen (l : list string) : list string := nodup string_dec l.

(** A service whose every call raises. *)
Definition failing : ICD11Service :=
  {| icd11_biomedicine_url := ICD11.biomedicine_url;
     icd11_tm2_url := ICD11.tm2_url;
     search_icd11_codes := fun _ _ _ => Py.Raise "ConnectionError";
     get_icd11_code_details := fun _ => Py.Raise "ConnectionError" |}.

(** A service that knows one TM2 entity, worded as the NAMASTE row SID001. *)
Definition vatham_entity : Icd.t :=
  Icd.mk "http://id.who.int/icd/release/11/2023-01/tm2/999" "TM2.99"
    "Vatham Imbalance" "Vatham dosha imbalance in Siddha system"
    ICD11.tm2_url "ICD-11 Traditional Medicine Module 2" true.

Definition vatham : ICD11Service :=
  {| icd11_biomedicine_url := ICD11.biomedicine_url;
     icd11_tm2_url := ICD11.tm2_url;
     search_icd11_codes := fun _ _ _ => Py.Ok [];
     get_icd11_code_details := fun _ => Py.Ok (Some vatham_entity) |}.

(** A NAMASTE entry whose display names a headache and a dosha. *)
Definition headache_dosha : Details.t :=
  Details.mk "X001" "Headache from Dosha Imbalance" "Head pain of doshic origin"
    "Ayurveda" "General" "Unknown" "http://terminology.mohayush.gov.in/namaste" None.

(** The service as the application builds it, in demo mode. *)
Definition demo_service : MappingService := Mapping.init Namaste.init ICD11.demo.

(** The same service when every lookup fails, and when the only entity is
    [vatham_entity]. *)
Definition failing_service : MappingService := Mapping.init Namaste.init failing.
Definition vatham_service : MappingService := Mapping.init Namaste.init vatham.

(** A ratio that finds every two strings alike. *)
Definition full_ratio (a b : string) : float := 1%float.

(** The demo service with an empty predefined table: every code takes the
    heuristic path. *)
Definition heuristic_service : MappingService :=
  {| namaste_service := Namaste.init;
     icd11_service := ICD11.demo;
     concept_map_url := "http://terminology.mohayush.gov.in/ConceptMap/namaste-to-icd11";
     predefined_mappings := [] |}.

(** A service whose table knows one code, with a TM2 target only. *)
Definition partial_service : MappingService :=
  {| namaste_service := Namaste.init;
     icd11_service := ICD11.demo;
     concept_map_url := "http://terminology.mohayush.gov.in/ConceptMap/namaste-to-icd11";
     predefined_mappings := [("NAM006", [Mapping.pm "tm2" "TM2.03" equivalent])] |}.

(** The details of NAM006 and the candidates the heuristic search collects
    for it, before duplicates are removed. *)
Definition nam006 : Details.t :=
  Details.mk "NAM006" "Shirahshula (Headache)" "Head pain due to various doshic imbalances"
    "Ayurveda" "Neurological Disorders" "Nervous System"
    "http://terminology.mohayush.gov.in/namaste" (Some "1.0.0").

Definition nam006_candidates : list (Mapped.t Icd.t) :=
  match Mapping.search_loop full_ratio heuristic_service nam006 "both"
          (Mapping._extract_search_terms last_seen nam006) [] with
  | Py.Ok results => results
  | Py.Raise _ => []
  end.

End Fixture.

(** ** Auxiliary definitions *)

(** The bonus after [k] of the common terms were found in both texts. *)
Definition bonus_after (k : nat) : float :=
  Nat.iter k (fun bonus => (bonus + 0.1)%float) 0%float.

(** Every value [_calculate_keyword_bonus] can return. *)
Definition bonus_values : list float :=
  map (fun k => Py.min (bonus_after k) 1) (seq 0 (S (length Mapping.common_terms))).

(** The key of [a] is at least the key of [b]. *)
Definition key_ge (A : Type) (key : A -> float) (a b : A) : Prop :=
  (key b <=? key a)%float = true.

(** [a] ranks at least as high as [b]. *)
Definition by_confidence (A : Type) (a b : Mapped.t A) : Prop :=
  key_ge (@Mapped.confidence A) a b.

(** The pair that identifies a target: its system and its code. *)
Definition result_pair (c : Mapped.t Icd.t) : string * string :=
  (Icd.system (Mapped.entry c), Icd.code (Mapped.entry c)).

(** A candidate scored above the threshold by the heuristic search. *)
Definition scored_automatic (c : Mapped.t Icd.t) : Prop :=
  (0.3 <? Mapped.confidence c)%float = true /\ Mapped.mappingMethod c = automatic.

(** The exact lookup [translate_namaste_to_icd11] makes for one entry of a
    predefined mapping. *)
Definition predefined_lookup (self : MappingService) (mapping : PredefinedMapping)
  : Py.result (list Icd.t) :=
  if pm_system mapping =? "tm2"
  then search_icd11_codes (icd11_service self) (pm_code mapping) "tm2" 1
  else search_icd11_codes (icd11_service self) (pm_code mapping) "biomedicine" 1.

(** [c] is what one of the curated [mappings] yields for [target_system]. *)
Definition curated (self : MappingService) (target_system : string)
    (mappings : list PredefinedMapping) (c : Mapped.t Icd.t) : Prop :=
  Mapped.mappingMethod c = predefined /\
  Mapped.confidence c = 0.9%float /\
  exists mapping,
    In mapping mappings /\
    Mapped.equivalence c = pm_equivalence mapping /\
    (target_system = "both" \/ target_system = pm_system mapping) /\
    exists rest, predefined_lookup self mapping = Py.Ok (Mapped.entry c :: rest).

(** The service with another NAMASTE service in place. *)
Definition with_namaste_service (self : MappingService) (ns : NAMASTEService)
  : MappingService :=
  {| namaste_service := ns;
     icd11_service := icd11_service self;
     concept_map_url := concept_map_url self;
     predefined_mappings := predefined_mappings self |}.

(** The service with another predefined table in place. *)
Definition with_predefined_mappings (self : MappingService)
    (table : list (string * list PredefinedMapping)) : MappingService :=
  {| namaste_service := namaste_service self;
     icd11_service := icd11_service self;
     concept_map_url := concept_map_url self;
     predefined_mappings := table |}.

(** The terms each group of rules of [_extract_search_terms] adds. *)
Definition main_terms (display : string) : list string :=
  let main_term := Py.strip (Py.split_parens_first display) in
  if main_term =? "" then [] else [main_term].

Definition category_terms (category : string) : list string :=
  if Py.contains "digestive" category then ["digestion"; "stomach"; "gastric"]
  else if Py.contains "constitutional" category then ["constitutional"; "temperament"; "pattern"]
  else if Py.contains "neurological" category then ["neurological"; "nervous"; "brain"]
  else [].

Definition body_system_terms (body_system : string) : list string :=
  if Py.contains "gastrointestinal" body_system then ["gastrointestinal"; "digestive"]
  else if Py.contains "nervous" body_system then ["nervous"; "neurological"]
  else [].

Definition display_terms (display : string) : list string :=
  if Py.contains "headache" display then ["headache"; "cephalgia"]
  else if Py.contains "indigestion" display then ["indigestion"; "dyspepsia"]
  else if Py.contains "dosha" display then ["constitutional"; "pattern"]
  else [].

(** Every code of the NAMASTE table has a predefined entry, as in the
    service the repository builds. *)
Definition covered (self : MappingService) : bool :=
  forallb
    (fun row => existsb (String.eqb (Row.code row)) (map fst (predefined_mappings self)))
    (create_sample_namaste_data (namaste_service self)).

(** A lookup of the provider: the search term, the sub-system and the limit. *)
Definition lookup (self : MappingService) (query : string * string * Z)
  : Py.result (list Icd.t) :=
  let '(search_term, system, limit) := query in
  search_icd11_codes (icd11_service self) search_term system limit.

(** The lookups one search term asks for. *)
Definition term_lookups (target_system search_term : string) : list (string * string * Z) :=
  (if (target_system =? "tm2") || (target_system =? "both")
   then [(search_term, "tm2", 3%Z)] else [])
  ++ (if (target_system =? "biomedicine") || (target_system =? "both")
      then [(search_term, "biomedicine", 3%Z)] else []).

(** The lookups a forward translation asks of the provider, in order; it
    makes them up to the first that raises. *)
Definition forward_lookups (list_set : list string -> list string) (self : MappingService)
    (namaste_code target_system : string) : list (string * string * Z) :=
  match Mapping.dict_get namaste_code (predefined_mappings self) with
  | Some mappings =>
      map (fun mapping =>
             (pm_code mapping,
              if pm_system mapping =? "tm2" then "tm2" else "biomedicine",
              1%Z))
          (filter (fun mapping =>
                     (target_system =? "both") || (target_system =? pm_system mapping))
                  mappings)
  | None =>
      match Namaste.get_namaste_code_details (namaste_service self) namaste_code
              (create_sample_namaste_data (namaste_service self)) with
      | Some namaste_details =>
          flat_map (term_lookups target_system)
            (Mapping._extract_search_terms list_set namaste_details)
      | None => []
      end
  end.

(** ** More of [namaste_service.py] *)

(** The dict [get_codes_by_system] builds for a row. *)
Module SystemCode.
Record t : Type := mk {
  code : string;
  display : string;
  definition : string;
  category : string;
  bodySystem : string
}.
End SystemCode.

Module NamasteQueries.

(** [any(str(item.get('code')) == code for item in namaste_data)]; the
    [except] branch, [return False], cannot be reached on rows of strings. *)
Definition validate_namaste_code (self : NAMASTEService) (code : string)
    (namaste_data : list Row.t) : bool :=
  existsb (fun item => Row.code item =? code) namaste_data.

Definition get_codes_by_system (self : NAMASTEService) (system : string)
    (namaste_data : list Row.t) : list SystemCode.t :=
  map (fun row =>
         SystemCode.mk (Row.code row) (Row.display row)
           (Namaste.get_or (Row.definition row) (Row.display row))
           (Namaste.get_or (Row.category row) "General")
           (Namaste.get_or (Row.body_system row) "Unknown"))
      (filter (fun row => Py.lower (Namaste.get_or (Row.system row) "") =? Py.lower system)
              namaste_data).

End NamasteQueries.

(** ** Further auxiliary definitions *)

(** The strength of an equivalence: related, narrower, wider, equivalent. *)
Definition Equivalence_rank (e : Equivalence) : nat :=
  match e with
  | related => 0
  | narrower => 1
  | wider => 2
  | equivalent => 3
  end.

(** The service with another ICD-11 service in place. *)
Definition with_icd11_service (self : MappingService) (icd : ICD11Service)
  : MappingService :=
  {| namaste_service := namaste_service self;
     icd11_service := icd;
     concept_map_url := concept_map_url self;
     predefined_mappings := predefined_mappings self |}.

(** The test a row passes in [search_namaste_codes]: the search term occurs
    in its code, display or definition, all lower-cased. *)
Definition row_matches (search_term : string) (row : Row.t) : bool :=
  Py.contains search_term (Py.lower (Row.code row))
  || Py.contains search_term (Py.lower (Row.display row))
  || Py.contains search_term (Py.lower (Namaste.get_or (Row.definition row) "")).

(** What [search_namaste_codes] makes of a row. *)
Definition search_entry (self : NAMASTEService) (row : Row.t) : Details.t :=
  Details.mk (Row.code row) (Row.display row)
    (Namaste.get_or (Row.definition row) (Row.display row))
    (Namaste.get_or (Row.system row) "Unknown")
    (Namaste.get_or (Row.category row) "General")
    (Namaste.get_or (Row.body_system row) "Unknown")
    (code_system_url self)
    None.

(** The candidates the scan of the predefined table finds in
    [reverse_translate_icd11_to_namaste]. *)
Definition reverse_found (self : MappingService) (icd11_code icd11_system : string)
  : list (Mapped.t Details.t) :=
  Mapping.reverse_predefined self icd11_code icd11_system
    (create_sample_namaste_data (namaste_service self)).

(** [d] carries the code and the text of a row of the table. *)
Definition entry_of_row (self : NAMASTEService) (namaste_data : list Row.t)
    (d : Details.t) : Prop :=
  exists row,
    In row namaste_data /\
    Details.code d = Row.code row /\
    Details.display d = Row.display row /\
    Details.definition d = Namaste.get_or (Row.definition row) (Row.display row) /\
    Details.system d = Namaste.get_or (Row.system row) "Unknown" /\
    Details.codeSystem d = code_system_url self.

(** A candidate of reverse translation is an entry of the table. *)
Definition from_table (self : MappingService) (c : Mapped.t Details.t) : Prop :=
  entry_of_row (namaste_service self) (create_sample_namaste_data (namaste_service self))
    (Mapped.entry c).

(** The details of NAM002 in the table of the repository. *)
Definition nam002 : Details.t :=
  Details.mk "NAM002" "Vata Dosha Imbalance"
    "Constitutional imbalance of Vata dosha affecting movement and nervous system"
    "Ayurveda" "Constitutional Disorders" "Nervous System"
    "http://terminology.mohayush.gov.in/namaste" (Some "1.0.0").

(** A candidate of the automatic reverse mapping: scored above the threshold
    and classified by its score. *)
Definition scored_reverse (c : Mapped.t Details.t) : Prop :=
  Mapped.mappingMethod c = automatic_reverse /\
  (0.3 <? Mapped.confidence c)%float = true /\
  Mapped.equivalence c = Mapping._determine_equivalence (Mapped.confidence c).

(** [c] is a match the provider returned for one of [terms] in a sub-system
    the target allows, scored against [nd] and classified by its score. *)
Definition found_for (ratio : string -> string -> float) (self : MappingService)
    (nd : Details.t) (target_system : string) (terms : list string)
    (c : Mapped.t Icd.t) : Prop :=
  exists search_term system matches,
    In search_term terms /\
    (system = "tm2" \/ system = "biomedicine") /\
    (target_system = system \/ target_system = "both") /\
    search_icd11_codes (icd11_service self) search_term system 3 = Py.Ok matches /\
    In (Mapped.entry c) matches /\
    Mapped.confidence c = Mapping._calculate_similarity ratio nd (Mapped.entry c) /\
    Mapped.equivalence c = Mapping._determine_equivalence (Mapped.confidence c).

(** The elements [generate_concept_map] puts in the group of one target
    system: one for each row with a translation, in the order of the rows. *)
Definition group_elements (ratio : string -> string -> float)
    (list_set : list string -> list string) (self : MappingService)
    (target_system : string) (namaste_data : list Row.t) : list Element.t :=
  flat_map
    (fun row =>
       match Mapping.translate_namaste_to_icd11 ratio list_set self (Row.code row)
               target_system with
       | Py.Ok (c :: l) => [Mapping.element_of row (c :: l)]
       | _ => []
       end)
    namaste_data.

(** ** More of [icd11_service.py] *)

Module ICD11Queries.

(** [validate_icd11_code]: what the search raises is caught and answered
    with [False]. *)
Definition validate_icd11_code (self : ICD11Service) (code system : string)
  : Py.result bool :=
  Py.try_except
    (search_results <- search_icd11_codes self code system 1 ;;
     Py.Ok ((0 <? length search_results)%nat
            && existsb (fun r => Icd.code r =? code) search_results))
    (fun _ => Py.Ok false).

End ICD11Queries.

(** The code and the equivalence of a candidate. *)
Definition code_and_equivalence (c : Mapped.t Icd.t) : string * Equivalence :=
  (Icd.code (Mapped.entry c), Mapped.equivalence c).

(** The entries of a predefined mapping that apply to a target system. *)
Definition applicable (target_system : string) (mappings : list PredefinedMapping)
  : list PredefinedMapping :=
  filter (fun mapping => (target_system =? "both") || (target_system =? pm_system mapping))
         mappings.

(** ** [endpoints.py]: the [$translate] operation *)

(** What [result.get('system', result.get('codeSystem', ''))] and
    [result['code']] read of a candidate. Both kinds of candidate have the
    key ['system']: for an ICD-11 entry it holds the URL of its code system,
    for a NAMASTE entry the name of its AYUSH system. *)
Class Coded (A : Type) : Type := {
  system_of : A -> string;
  code_of : A -> string
}.

#[global] Instance Icd_coded : Coded Icd.t :=
  {| system_of := Icd.system; code_of := Icd.code |}.

#[global] Instance Details_coded : Coded Details.t :=
  {| system_of := Details.system; code_of := Details.code |}.

(** A [valueCoding]. *)
Module Coding.
Record t : Type := mk {
  system : string;
  code : string;
  display : string
}.
End Coding.

Module Endpoints.

(** The parts of a [match] parameter, each with its value. *)
Inductive Part : Type :=
| equivalence_part (valueCode : string)
| concept_part (valueCoding : Coding.t)
| confidence_part (valueDecimal : float)
| method_part (valueString : string).

(** The parameters of the response: [result], [message] and [match]. *)
Inductive Param : Type :=
| result_param (valueBoolean : bool)
| message_param (valueString : string)
| match_param (part : list Part).

(** The Parameters resource of the response; only a translation has an id. *)
Record Resource : Type := {
  id : option string;
  parameter : list Param
}.

(** The service object of the resource. *)
Record TerminologyTranslate : Type := {
  mapping_service : MappingService
}.

(** [request.args.get(key, default)]: the first value given for the key. *)
Definition args_get (args : list (string * string)) (key default : string) : string :=
  match Mapping.dict_get key args with
  | Some value => value
  | None => default
  end.

Definition _create_error_response (message : string) : Resource :=
  {| id := None;
     parameter := [result_param false; message_param message] |}.

(** The [match] parameter of one candidate. Every candidate of the mapping
    service has the keys ['equivalence'], ['confidence'] and
    ['mappingMethod'], so all four parts are present. *)
Definition match_of (A : Type) `{Coded A} `{TextEntry A} (result : Mapped.t A) : Param :=
  match_param
    [ equivalence_part (Equivalence_value (Mapped.equivalence result));
      concept_part
        (Coding.mk (system_of (Mapped.entry result)) (code_of (Mapped.entry result))
           (display_of (Mapped.entry result)));
      confidence_part (Mapped.confidence result);
      method_part (MappingMethod_value (Mapped.mappingMethod result)) ].

(** The response built from the candidates. *)
Definition translation_response (A : Type) `{Coded A} `{TextEntry A}
    (system code uuid_hex : string) (results : list (Mapped.t A)) : Resource :=
  let parameters := [result_param (0 <? length results)%nat] in
  let parameters :=
    match results with
    | [] =>
        parameters ++
        [message_param ("No translation found for " ++ system ++ "#" ++ code)]
    | _ => parameters ++ map (fun result => match_of result) results
    end in
  {| id := Some ("translate-" ++ Py.take 8 uuid_hex)%string;
     parameter := parameters |}.

Section Translate.

Variable ratio : string -> string -> float.
Variable list_set : list string -> list string.
Variable self : TerminologyTranslate.

(** [_translate_code] on a GET request with the query parameters [args];
    [uuid_hex] is [uuid.uuid4().hex]. The result is the resource and the
    status of the response, 200 where the source returns the resource
    alone. *)
Definition _translate_code (args : list (string * string)) (uuid_hex : string)
  : Resource * Z :=
  let body :=
    let system := Py.strip (args_get args "system" "") in
    let code := Py.strip (args_get args "code" "") in
    let target := Py.strip (args_get args "target" "both") in
    if (system =? "") || (code =? "") then
      Py.Ok ({| id := None;
                parameter :=
                  [result_param false;
                   message_param "Both system and code parameters are required"] |},
             400%Z)
    else if Py.contains "namaste" (Py.lower system) then
      if target =? "namaste" then
        Py.Ok (_create_error_response "Cannot translate NAMASTE to NAMASTE", 200%Z)
      else
        results <-
          Mapping.translate_namaste_to_icd11 ratio list_set (mapping_service self)
            code target ;;
        Py.Ok (translation_response system code uuid_hex results, 200%Z)
    else if Py.contains "icd" (Py.lower system) then
      if Py.contains "tm2" (Py.lower system) then
        results <-
          Mapping.reverse_translate_icd11_to_namaste ratio (mapping_service self)
            code "tm2" ;;
        Py.Ok (translation_response system code uuid_hex results, 200%Z)
      else if Py.contains "mms" (Py.lower system) then
        results <-
          Mapping.reverse_translate_icd11_to_namaste ratio (mapping_service self)
            code "biomedicine" ;;
        Py.Ok (translation_response system code uuid_hex results, 200%Z)
      else Py.Ok (_create_error_response "Invalid ICD-11 system URI", 200%Z)
    else Py.Ok (_create_error_response "Unsupported source system", 200%Z) in
  match body with
  | Py.Ok response => response
  | Py.Raise _ => (_create_error_response "Internal server error", 500%Z)
  end.

(** [TerminologyTranslate.get] *)
Definition get (args : list (string * string)) (uuid_hex : string) : Resource * Z :=
  _translate_code args uuid_hex.

End Translate.

(** A [match] parameter. *)
Definition is_match (p : Param) : bool :=
  match p with
  | match_param _ => true
  | _ => false
  end.

(** The codings of the concepts a response names. *)
Definition concepts (response : Resource) : list Coding.t :=
  flat_map
    (fun p =>
       match p with
       | match_param part =>
           flat_map (fun x => match x with concept_part c => [c] | _ => [] end) part
       | _ => []
       end)
    (parameter response).

End Endpoints.

(** * Proofs *)

Unset Implicit Arguments.

(** ** Order and sign of binary64 values *)

Ltac compare_cases :=
  repeat match goal with
    | |- context [PosDef.Pos.compare_cont Eq ?a ?b] =>
        change (PosDef.Pos.compare_cont Eq a b) with (Pos.compare a b)
    | |- context [Z.compare ?a ?b] => destruct (Z.compare_spec a b); subst
    | |- context [Pos.compare ?a ?b] => destruct (Pos.compare_spec a b); subst
    end;
  simpl; try congruence; try lia.

Ltac by_float_cases x y :=
  destruct x as [?s|?s| |?s ?m ?e], y as [?s|?s| |?s ?m ?e];
  repeat match goal with b : bool |- _ => destruct b end;
  try easy; compare_cases.

Lemma SFleb_trans x y z : SFleb x y = true -> SFleb y z = true -> SFleb x z = true.
Proof.
  unfold SFleb, SFcompare.
  destruct x as [sx|sx| |sx mx ex], y as [sy|sy| |sy my ey], z as [sz|sz| |sz mz ez];
    try destruct sx; try destruct sy; try destruct sz; try easy; compare_cases.
Qed.

Lemma SFleb_refl x : SF.ordered x -> SFleb x x = true.
Proof.
  unfold SFleb, SFcompare. destruct x as [sx|sx| |sx mx ex]; try destruct sx; try easy;
    intros _; compare_cases.
Qed.

Lemma SFcompare_refl x : SF.ordered x -> SFcompare x x = Some Eq.
Proof.
  unfold SFcompare. destruct x as [sx|sx| |sx mx ex]; try destruct sx; try easy;
    intros _; compare_cases.
Qed.

Lemma SFltb_false_leb x y :
  SF.ordered x -> SF.ordered y -> SFltb x y = false -> SFleb y x = true.
Proof. unfold SFleb, SFltb, SFcompare. by_float_cases x y. Qed.

Lemma SFleb_false_ltb x y :
  SF.ordered x -> SF.ordered y -> SFleb x y = false -> SFltb y x = true.
Proof. unfold SFleb, SFltb, SFcompare. by_float_cases x y. Qed.

Lemma SFltb_leb_false x y : SFltb x y = true -> SFleb y x = false.
Proof. unfold SFleb, SFltb, SFcompare. by_float_cases x y. Qed.

Lemma SFltb_leb x y : SFltb x y = true -> SFleb x y = true.
Proof. unfold SFltb, SFleb. destruct (SFcompare x y) as [[]|]; easy. Qed.

Lemma SFltb_ordered_r x y : SFltb x y = true -> SF.ordered y.
Proof. unfold SFltb. destruct x, y; simpl; easy. Qed.

Lemma SFleb_nan_r x : SFleb x S754_nan = false.
Proof. unfold SFleb. destruct x; reflexivity. Qed.

Lemma SFleb_zero_nonneg sign x : SFleb (S754_zero sign) x = true <-> SF.nonneg x.
Proof.
  unfold SFleb. destruct x as [sx|sx| |sx mx ex]; simpl; try destruct sx; easy.
Qed.

(** *** Rounding keeps the sign *)

Lemma iter_pos_invariant (A : Type) (P : A -> Prop) (f : A -> A) :
  (forall a, P a -> P (f a)) -> forall p a, P a -> P (SpecFloat.iter_pos f p a).
Proof. intros Hf p. induction p; simpl; intros a Ha; auto. Qed.

Lemma shr_1_nonneg mrs : (0 <= shr_m mrs)%Z -> (0 <= shr_m (shr_1 mrs))%Z.
Proof.
  destruct mrs as [m r s]. simpl. intros Hm.
  destruct m as [|p|p]; [simpl; lia | destruct p; simpl; lia | lia].
Qed.

Lemma shr_nonneg mrs e n : (0 <= shr_m mrs)%Z -> (0 <= shr_m (fst (shr mrs e n)))%Z.
Proof.
  intros H. unfold shr. destruct n; simpl; auto.
  apply iter_pos_invariant; auto using shr_1_nonneg.
Qed.

Lemma shr_fexp_nonneg m e l :
  (0 <= m)%Z -> (0 <= shr_m (fst (shr_fexp prec emax m e l)))%Z.
Proof.
  intros H. unfold shr_fexp. apply shr_nonneg.
  destruct l as [|[]]; simpl; exact H.
Qed.

Lemma round_nearest_even_nonneg m l : (0 <= m)%Z -> (0 <= round_nearest_even m l)%Z.
Proof.
  intros H. unfold round_nearest_even. destruct l as [|[]]; try lia.
  destruct (Z.even m); lia.
Qed.

Lemma binary_round_aux_nonneg mx ex lx :
  (0 <= mx)%Z -> SF.nonneg (binary_round_aux prec emax false mx ex lx).
Proof.
  intros H. unfold binary_round_aux.
  pose proof (shr_fexp_nonneg mx ex lx H) as H1.
  destruct (shr_fexp prec emax mx ex lx) as [mrs' e']. simpl in H1.
  pose proof (shr_fexp_nonneg _ e' loc_Exact
                (round_nearest_even_nonneg _ (loc_of_shr_record mrs') H1)) as H2.
  destruct (shr_fexp prec emax (round_nearest_even (shr_m mrs') (loc_of_shr_record mrs')) e' loc_Exact)
    as [mrs'' e'']. simpl in H2.
  destruct (shr_m mrs'') as [|p|p]; [exact I | | lia].
  destruct (e'' <=? emax - prec)%Z; reflexivity.
Qed.

Lemma SF64add_nonneg x y : SF.nonneg x -> SF.nonneg y -> SF.nonneg (SF64add x y).
Proof.
  unfold SF64add, SFadd.
  destruct x as [sx|sx| |sx mx ex], y as [sy|sy| |sy my ey]; simpl; try easy.
  - destruct sx, sy; simpl; easy.
  - intros -> ->. reflexivity.
  - intros -> ->. simpl. unfold binary_round.
    destruct (shl_align _ _ _) as [mz ez].
    apply binary_round_aux_nonneg. lia.
Qed.

Lemma SF64mul_nonneg x y :
  SF.nonneg x -> SF.nonneg y -> SF.finite x -> SF.finite y -> SF.nonneg (SF64mul x y).
Proof.
  unfold SF64mul, SFmul.
  destruct x as [sx|sx| |sx mx ex], y as [sy|sy| |sy my ey]; simpl; try easy.
  intros -> -> _ _. apply binary_round_aux_nonneg. lia.
Qed.

(** *** The same facts on [float] *)

Lemma leb_trans (x y z : float) :
  (x <=? y)%float = true -> (y <=? z)%float = true -> (x <=? z)%float = true.
Proof. rewrite !leb_spec. apply SFleb_trans. Qed.

Lemma leb_refl (x : float) : is_number x -> (x <=? x)%float = true.
Proof. rewrite leb_spec. apply SFleb_refl. Qed.

Lemma ltb_false_leb (x y : float) :
  is_number x -> is_number y -> (x <? y)%float = false -> (y <=? x)%float = true.
Proof. rewrite ltb_spec, leb_spec. apply SFltb_false_leb. Qed.

Lemma leb_false_ltb (x y : float) :
  is_number x -> is_number y -> (x <=? y)%float = false -> (y <? x)%float = true.
Proof. rewrite ltb_spec, leb_spec. apply SFleb_false_ltb. Qed.

Lemma ltb_leb_false (x y : float) : (x <? y)%float = true -> (y <=? x)%float = false.
Proof. rewrite ltb_spec, leb_spec. apply SFltb_leb_false. Qed.

Lemma ltb_leb (x y : float) : (x <? y)%float = true -> (x <=? y)%float = true.
Proof. rewrite ltb_spec, leb_spec. apply SFltb_leb. Qed.

Lemma ltb_number_r (x y : float) : (x <? y)%float = true -> is_number y.
Proof. rewrite ltb_spec. apply SFltb_ordered_r. Qed.

Lemma is_nan_spec (x : float) : is_nan x = true <-> ~ is_number x.
Proof.
  unfold is_nan, is_number. rewrite eqb_spec. unfold SFeqb.
  destruct (Prim2SF x) as [s|s| |s m e] eqn:E.
  4: rewrite (SFcompare_refl (S754_finite s m e) I).
  all: simpl; try destruct s; simpl;
    (split; [try discriminate; intros _ H; exact H | intros H; try reflexivity; elim H; exact I]).
Qed.

Lemma leb_nan_r (x y : float) : is_nan y = true -> (x <=? y)%float = false.
Proof.
  intros H. apply is_nan_spec in H. rewrite leb_spec. unfold is_number in H.
  destruct (Prim2SF y); try (elim H; exact I). apply SFleb_nan_r.
Qed.

Lemma zero_leb_iff (x : float) : (0 <=? x)%float = true <-> SF.nonneg (Prim2SF x).
Proof. rewrite leb_spec. apply (SFleb_zero_nonneg false). Qed.

Lemma add_nonneg (x y : float) :
  SF.nonneg (Prim2SF x) -> SF.nonneg (Prim2SF y) -> SF.nonneg (Prim2SF (x + y)).
Proof. rewrite add_spec. apply SF64add_nonneg. Qed.

Lemma mul_nonneg (x y : float) :
  SF.nonneg (Prim2SF x) -> SF.nonneg (Prim2SF y) ->
  SF.finite (Prim2SF x) -> SF.finite (Prim2SF y) ->
  SF.nonneg (Prim2SF (x * y)).
Proof. rewrite mul_spec. apply SF64mul_nonneg. Qed.

Lemma leb_one_finite (x : float) :
  SF.nonneg (Prim2SF x) -> (x <=? 1)%float = true -> SF.finite (Prim2SF x).
Proof.
  rewrite leb_spec. change (Prim2SF 1) with (S754_finite false 4503599627370496 (-52)).
  destruct (Prim2SF x) as [s|s| |s m e]; simpl; try easy.
  intros ->. discriminate.
Qed.

Lemma nonneg_number (x : float) : SF.nonneg (Prim2SF x) -> is_number x.
Proof. unfold is_number. destruct (Prim2SF x); simpl; easy. Qed.

(** [min(x, 1.0)] of a number is at most 1. *)
Lemma min_one_le (x : float) : is_number x -> (Py.min x 1 <=? 1)%float = true.
Proof.
  intros Hx. unfold Py.min. destruct (1 <? x)%float eqn:E.
  - reflexivity.
  - apply ltb_false_leb; [exact I | exact Hx | exact E].
Qed.

Lemma min_one_nonneg (x : float) :
  SF.nonneg (Prim2SF x) -> SF.nonneg (Prim2SF (Py.min x 1)).
Proof. intros Hx. unfold Py.min. destruct (1 <? x)%float; [reflexivity | exact Hx]. Qed.

(** ** The equivalence classifier *)

Lemma is_nan_false (c : float) : is_nan c = false -> is_number c.
Proof.
  intros N.
  assert (D : is_number c \/ ~ is_number c).
  { unfold is_number. destruct (Prim2SF c); simpl; auto. }
  destruct D as [D | D]; [exact D |]. apply is_nan_spec in D. congruence.
Qed.

Lemma leb_false_iff (a c : float) :
  is_number a ->
  (a <=? c)%float = false <-> (c <? a)%float = true \/ is_nan c = true.
Proof.
  intros Ha. split.
  - intros H. destruct (is_nan c) eqn:N; [right; reflexivity | left].
    apply leb_false_ltb; [exact Ha | apply is_nan_false; exact N | exact H].
  - intros [H | H]; [apply ltb_leb_false; exact H | apply leb_nan_r; exact H].
Qed.

(** C7, as amended: the classifier is total; it answers 'equivalent' iff
    c >= 0.8, 'wider' iff 0.6 <= c < 0.8, 'narrower' iff 0.4 <= c < 0.6, and
    'related' iff c < 0.4 or c is a NaN. *)
Theorem determine_equivalence_thresholds (c : float) :
  (Mapping._determine_equivalence c = equivalent <-> (0.8 <=? c)%float = true) /\
  (Mapping._determine_equivalence c = wider <->
     (0.6 <=? c)%float = true /\ (c <? 0.8)%float = true) /\
  (Mapping._determine_equivalence c = narrower <->
     (0.4 <=? c)%float = true /\ (c <? 0.6)%float = true) /\
  (Mapping._determine_equivalence c = related <->
     (c <? 0.4)%float = true \/ is_nan c = true).
Proof.
  assert (below : forall a, (c <? a)%float = true \/ is_nan c = true ->
                            (a <=? c)%float = false).
  { intros a [H | H]; [apply ltb_leb_false | apply leb_nan_r]; exact H. }
  assert (above : forall a b, is_number a -> (a <=? c)%float = false ->
                              (b <=? c)%float = true -> (c <? a)%float = true).
  { intros a b Ha Ea Eb. destruct (proj1 (leb_false_iff a c Ha) Ea) as [H | H]; [exact H |].
    apply (leb_nan_r b) in H. congruence. }
  unfold Mapping._determine_equivalence.
  destruct (0.8 <=? c)%float eqn:E8; [| destruct (0.6 <=? c)%float eqn:E6;
                                        [| destruct (0.4 <=? c)%float eqn:E4]].
  - pose proof (leb_trans 0.6 0.8 c eq_refl E8) as E6.
    pose proof (leb_trans 0.4 0.6 c eq_refl E6) as E4.
    split; [| split; [| split]]; (split; [try discriminate; try reflexivity |]); intros K.
    + reflexivity.
    + pose proof (below 0.8%float (or_introl (proj2 K))). congruence.
    + pose proof (below 0.6%float (or_introl (proj2 K))). congruence.
    + pose proof (below 0.4%float K). congruence.
  - pose proof (leb_trans 0.4 0.6 c eq_refl E6) as E4.
    split; [| split; [| split]]; (split; [try discriminate |]); intros K.
    + discriminate.
    + split; [reflexivity | exact (above 0.8%float 0.6%float I E8 E6)].
    + reflexivity.
    + pose proof (below 0.6%float (or_introl (proj2 K))). congruence.
    + pose proof (below 0.4%float K). congruence.
  - split; [| split; [| split]]; (split; [try discriminate |]); intros K.
    + discriminate.
    + destruct K; discriminate.
    + split; [reflexivity | exact (above 0.6%float 0.4%float I E6 E4)].
    + reflexivity.
    + pose proof (below 0.4%float K). congruence.
  - split; [| split; [| split]]; (split; [try discriminate |]); intros K.
    + discriminate.
    + destruct K; discriminate.
    + destruct K; discriminate.
    + apply (leb_false_iff 0.4 c I). exact E4.
    + reflexivity.
Qed.

(** C7, counterexample: a NaN is classified 'related' although it is not
    below 0.4. *)
Lemma determine_equivalence_nan :
  Mapping._determine_equivalence nan = related /\ (nan <? 0.4)%float = false.
Proof. split; reflexivity. Qed.

(** ** The similarity scorer *)

Lemma lower_nonempty (s : string) : s <> "" -> Py.lower s <> "".
Proof. destruct s; simpl; [intros H; elim H; reflexivity | discriminate]. Qed.

Lemma fold_bonus (p : string -> bool) (l : list string) (b : float) :
  fold_left (fun bonus term => if p term then (bonus + 0.1)%float else bonus) l b
  = Nat.iter (length (filter p l)) (fun bonus => (bonus + 0.1)%float) b.
Proof.
  revert b. induction l as [|t l IH]; intros b; simpl; [reflexivity |].
  destruct (p t); simpl; rewrite IH; [| reflexivity].
  symmetry. exact (Nat.iter_succ_r (length (filter p l)) float (fun bonus => (bonus + 0.1)%float) b).
Qed.

Lemma keyword_bonus_values (A B : Type) (TA : TextEntry A) (TB : TextEntry B) (a : A) (b : B) :
  In (Mapping._calculate_keyword_bonus a b) bonus_values.
Proof.
  unfold Mapping._calculate_keyword_bonus, bonus_values.
  rewrite fold_bonus.
  apply (in_map (fun k => Py.min (bonus_after k) 1)).
  apply in_seq. split; [lia |].
  match goal with |- context [filter ?p ?l] => pose proof (filter_length_le p l) as L end.
  lia.
Qed.

Lemma bonus_values_unit :
  forallb (fun v => (0 <=? v)%float && (v <=? 1)%float) bonus_values = true.
Proof. vm_compute. reflexivity. Qed.

Lemma bonus_values_self :
  forallb (fun v => (0.8 <=? Py.min (1 * 0.4 + 1 * 0.4 + v * 0.2) 1)%float) bonus_values = true.
Proof. vm_compute. reflexivity. Qed.

Section Scorer.

Variable ratio : string -> string -> float.
Hypothesis ratio_range :
  forall a b, (0 <=? ratio a b)%float = true /\ (ratio a b <=? 1)%float = true.
Hypothesis ratio_same : forall s, s <> "" -> ratio s s = 1%float.

Lemma weighted_nonneg (x w : float) :
  (0 <=? x)%float = true -> (x <=? 1)%float = true ->
  (0 <=? w)%float = true -> (w <=? 1)%float = true ->
  SF.nonneg (Prim2SF (x * w)).
Proof.
  intros X0 X1 W0 W1. apply zero_leb_iff in X0. apply zero_leb_iff in W0.
  apply mul_nonneg; auto using leb_one_finite.
Qed.

Lemma similarity_range (A B : Type) (TA : TextEntry A) (TB : TextEntry B) (a : A) (b : B) :
  (0 <=? Mapping._calculate_similarity ratio a b)%float = true /\
  (Mapping._calculate_similarity ratio a b <=? 1)%float = true.
Proof.
  unfold Mapping._calculate_similarity.
  pose proof (keyword_bonus_values A B TA TB a b) as K.
  pose proof (proj1 (forallb_forall _ _) bonus_values_unit _ K) as U.
  apply andb_prop in U. destruct U as [U0 U1].
  set (ds := ratio _ _). set (df := ratio (Py.lower (definition_of a)) _).
  set (kb := Mapping._calculate_keyword_bonus a b) in *.
  assert (N : SF.nonneg (Prim2SF (ds * 0.4 + df * 0.4 + kb * 0.2))).
  { apply add_nonneg; [apply add_nonneg |].
    - apply weighted_nonneg; try reflexivity; apply ratio_range.
    - apply weighted_nonneg; try reflexivity; apply ratio_range.
    - apply weighted_nonneg; try reflexivity; assumption. }
  split.
  - apply zero_leb_iff. apply min_one_nonneg. exact N.
  - apply min_one_le. apply nonneg_number. exact N.
Qed.

Lemma similarity_self (A : Type) (TA : TextEntry A) (e : A) :
  display_of e <> "" -> definition_of e <> "" ->
  (0.8 <=? Mapping._calculate_similarity ratio e e)%float = true.
Proof.
  intros D F. unfold Mapping._calculate_similarity.
  rewrite (ratio_same _ (lower_nonempty _ D)), (ratio_same _ (lower_nonempty _ F)).
  pose proof (keyword_bonus_values A A TA TA e e) as K.
  exact (proj1 (forallb_forall _ _) bonus_values_self _ K).
Qed.

(** C8: an entry with non-empty display and definition scores at least 0.8
    against itself, and every score lies in [0, 1]. *)
Theorem similarity_self_and_range :
  (forall (A : Type) (TA : TextEntry A) (e : A),
      display_of e <> "" -> definition_of e <> "" ->
      (0.8 <=? Mapping._calculate_similarity ratio e e)%float = true) /\
  (forall (A B : Type) (TA : TextEntry A) (TB : TextEntry B) (a : A) (b : B),
      (0 <=? Mapping._calculate_similarity ratio a b)%float = true /\
      (Mapping._calculate_similarity ratio a b <=? 1)%float = true).
Proof. split; [exact similarity_self | exact similarity_range]. Qed.

End Scorer.

Lemma exact_ratio_range (a b : string) :
  (0 <=? Fixture.exact_ratio a b)%float = true /\ (Fixture.exact_ratio a b <=? 1)%float = true.
Proof. unfold Fixture.exact_ratio. destruct (a =? b); split; reflexivity. Qed.

Lemma exact_ratio_same (s : string) : s <> "" -> Fixture.exact_ratio s s = 1%float.
Proof. intros _. unfold Fixture.exact_ratio. rewrite String.eqb_refl. reflexivity. Qed.

Lemma similarity_self_and_range_witness :
  (0.8 <=? Mapping._calculate_similarity Fixture.exact_ratio
             Fixture.vatham_entity Fixture.vatham_entity)%float = true /\
  (Mapping._calculate_similarity Fixture.exact_ratio
     Fixture.headache_dosha Fixture.vatham_entity <=? 1)%float = true.
Proof.
  pose proof (similarity_self_and_range Fixture.exact_ratio exact_ratio_range exact_ratio_same)
    as [S R].
  split.
  - apply S; discriminate.
  - apply R.
Defined.

(** ** Sorting by decreasing confidence *)

Section SortFacts.

Variable A : Type.
Variable key : A -> float.

Lemma insert_desc_in (x y : A) (l : list A) :
  In y (Py.insert_desc key x l) <-> y = x \/ In y l.
Proof.
  induction l as [|z l IH]; simpl.
  - intuition.
  - destruct (key x <? key z)%float; simpl; rewrite ?IH; intuition.
Qed.

Lemma sorted_desc_in (y : A) (l : list A) : In y (Py.sorted_desc key l) <-> In y l.
Proof.
  induction l as [|x l IH]; simpl; [reflexivity |].
  rewrite insert_desc_in, IH. intuition.
Qed.

Lemma insert_desc_sorted (x : A) (l : list A) :
  is_number (key x) -> Forall (fun y => is_number (key y)) l ->
  StronglySorted (key_ge key) l -> StronglySorted (key_ge key) (Py.insert_desc key x l).
Proof.
  intros Nx Nl S. induction S as [|z l S IH Hz]; simpl.
  - constructor; constructor.
  - inversion Nl as [|? ? Nz Nl']; subst.
    destruct (key x <? key z)%float eqn:E.
    + constructor; [apply IH; exact Nl' |].
      apply Forall_forall. intros y Hy. apply (proj1 (insert_desc_in x y l)) in Hy.
      destruct Hy as [-> | Hy].
      * apply ltb_leb. exact E.
      * exact (proj1 (Forall_forall _ _) Hz y Hy).
    + assert (Gz : key_ge key x z) by (apply ltb_false_leb; assumption).
      constructor; [constructor; assumption |].
      constructor; [exact Gz |].
      apply Forall_forall. intros y Hy.
      pose proof (proj1 (Forall_forall _ _) Hz y Hy) as Gy.
      exact (leb_trans _ _ _ Gy Gz).
Qed.

Lemma sorted_desc_sorted (l : list A) :
  Forall (fun y => is_number (key y)) l -> StronglySorted (key_ge key) (Py.sorted_desc key l).
Proof.
  induction l as [|x l IH]; intros N; simpl; [constructor |].
  inversion N as [|? ? Nx Nl]; subst.
  apply insert_desc_sorted; [exact Nx | | apply IH; exact Nl].
  apply Forall_forall. intros y Hy. apply (proj1 (sorted_desc_in y l)) in Hy.
  exact (proj1 (Forall_forall _ _) Nl y Hy).
Qed.

Lemma firstn_strongly_sorted (R : A -> A -> Prop) (n : nat) (l : list A) :
  StronglySorted R l -> StronglySorted R (firstn n l).
Proof.
  intros S. revert n. induction S as [|x l S IH Hx]; intros [|n]; simpl; try constructor.
  - apply IH.
  - apply Forall_forall. intros y Hy.
    apply (proj1 (Forall_forall _ _) Hx). revert Hy. clear.
    revert n. induction l as [|z l IH]; intros [|n]; simpl; intuition eauto.
Qed.

End SortFacts.

Lemma firstn_in (A : Type) (n : nat) (l : list A) (x : A) : In x (firstn n l) -> In x l.
Proof.
  revert n. induction l as [|z l IH]; intros [|n]; simpl; intuition eauto.
Qed.

Lemma firstn_nodup (A : Type) (n : nat) (l : list A) : NoDup l -> NoDup (firstn n l).
Proof.
  intros H. rewrite <- (firstn_skipn n l) in H. exact (NoDup_app_remove_r _ _ H).
Qed.

(** ** Removing duplicates *)

Lemma seen_spec (key : string) (seen : list string) :
  existsb (String.eqb key) seen = true <-> In key seen.
Proof.
  rewrite existsb_exists. split.
  - intros [k [Hk E]]. apply String.eqb_eq in E. subst. exact Hk.
  - intros H. exists key. split; [exact H | apply String.eqb_refl].
Qed.

Lemma unique_results_in (seen : list string) (l : list (Mapped.t Icd.t)) (c : Mapped.t Icd.t) :
  In c (Mapping.unique_results seen l) -> In c l /\ ~ In (Mapping.result_key c) seen.
Proof.
  revert seen. induction l as [|r l IH]; intros seen; simpl; [easy |].
  destruct (existsb (String.eqb (Mapping.result_key r)) seen) eqn:E.
  - intros H. destruct (IH _ H). auto.
  - intros [<- | H].
    + split; [auto |]. intros K. apply seen_spec in K. congruence.
    + destruct (IH _ H) as [H1 H2]. split; [auto |]. intros K. apply H2. right. exact K.
Qed.

Lemma unique_results_nodup (seen : list string) (l : list (Mapped.t Icd.t)) :
  NoDup (map Mapping.result_key (Mapping.unique_results seen l)).
Proof.
  revert seen. induction l as [|r l IH]; intros seen; simpl; [constructor |].
  destruct (existsb (String.eqb (Mapping.result_key r)) seen); [apply IH |].
  simpl. constructor; [| apply IH].
  intros K. apply in_map_iff in K. destruct K as [c [Kc Hc]].
  apply unique_results_in in Hc. destruct Hc as [_ Hc]. apply Hc. left. symmetry. exact Kc.
Qed.

Lemma unique_results_sorted (R : Mapped.t Icd.t -> Mapped.t Icd.t -> Prop)
    (seen : list string) (l : list (Mapped.t Icd.t)) :
  StronglySorted R l -> StronglySorted R (Mapping.unique_results seen l).
Proof.
  intros S. revert seen. induction S as [|r l S IH Hr]; intros seen; simpl; [constructor |].
  destruct (existsb (String.eqb (Mapping.result_key r)) seen); [apply IH |].
  constructor; [apply IH |]. apply Forall_forall. intros c Hc.
  apply unique_results_in in Hc. exact (proj1 (Forall_forall _ _) Hr c (proj1 Hc)).
Qed.

(** The copy that survives is the first of its key, hence a best one. *)
Lemma unique_results_best (seen : list string) (l : list (Mapped.t Icd.t))
    (c c' : Mapped.t Icd.t) :
  StronglySorted (@by_confidence Icd.t) l ->
  Forall (fun r => is_number (Mapped.confidence r)) l ->
  In c (Mapping.unique_results seen l) -> In c' l ->
  Mapping.result_key c' = Mapping.result_key c ->
  by_confidence c c'.
Proof.
  intros S. revert seen. induction S as [|r l S IH Hr]; intros seen N Hc Hc' K; [easy |].
  inversion N as [|? ? Nr Nl]; subst. simpl in Hc.
  destruct (existsb (String.eqb (Mapping.result_key r)) seen) eqn:E.
  - destruct Hc' as [<- | Hc']; [| exact (IH seen Nl Hc Hc' K)].
    apply unique_results_in in Hc. destruct Hc as [_ Hc]. elim Hc.
    rewrite <- K. apply seen_spec. exact E.
  - destruct Hc as [<- | Hc].
    + destruct Hc' as [<- | Hc'].
      * apply leb_refl. exact Nr.
      * exact (proj1 (Forall_forall _ _) Hr c' Hc').
    + destruct Hc' as [<- | Hc']; [| exact (IH _ Nl Hc Hc' K)].
      apply unique_results_in in Hc. destruct Hc as [_ Hc]. elim Hc. left. exact K.
Qed.

(** ** The heuristic search *)

Section Automatic.

Variable ratio : string -> string -> float.
Variable list_set : list string -> list string.
Variable self : MappingService.

Lemma score_matches_scored (nd : Details.t) (matches : list Icd.t)
    (results : list (Mapped.t Icd.t)) :
  Forall scored_automatic results ->
  Forall scored_automatic (Mapping.score_matches ratio nd matches results).
Proof.
  unfold Mapping.score_matches. revert results.
  induction matches as [|m matches IH]; intros results H; simpl; [exact H |].
  apply IH. destruct (0.3 <? Mapping._calculate_similarity ratio nd m)%float eqn:E; [| exact H].
  apply Forall_app. split; [exact H |]. constructor; [| constructor].
  split; [exact E | reflexivity].
Qed.

Lemma search_loop_scored (nd : Details.t) (target : string) (terms : list string)
    (results l : list (Mapped.t Icd.t)) :
  Mapping.search_loop ratio self nd target terms results = Py.Ok l ->
  Forall scored_automatic results -> Forall scored_automatic l.
Proof.
  revert results. induction terms as [|t terms IH]; intros results; simpl.
  - intros [= <-] H. exact H.
  - destruct ((target =? "tm2") || (target =? "both"))%bool;
      [destruct (search_icd11_codes (icd11_service self) t "tm2" 3) as [tm2|]; simpl;
       [| discriminate] | simpl];
      (destruct ((target =? "biomedicine") || (target =? "both"))%bool;
       [destruct (search_icd11_codes (icd11_service self) t "biomedicine" 3) as [bio|]; simpl;
        [| discriminate] | simpl]);
      intros L H; apply (IH _ L); auto using score_matches_scored.
Qed.

(** What the duplicate filter and the cut leave of the scored candidates. *)
Lemma ranked_results (results : list (Mapped.t Icd.t)) :
  Forall scored_automatic results ->
  let l := firstn 5 (Mapping.unique_results []
                       (Py.sorted_desc (@Mapped.confidence Icd.t) results)) in
  Forall scored_automatic l /\
  StronglySorted (@by_confidence Icd.t) l /\
  (length l <= 5)%nat /\
  NoDup (map Mapping.result_key l) /\
  (forall c c', In c l -> In c' results ->
                Mapping.result_key c' = Mapping.result_key c -> by_confidence c c').
Proof.
  intros H l.
  assert (N : Forall (fun r => is_number (Mapped.confidence r)) results).
  { apply Forall_forall. intros r Hr.
    destruct (proj1 (Forall_forall _ _) H r Hr) as [E _].
    exact (ltb_number_r _ _ E). }
  assert (N' : Forall (fun r => is_number (Mapped.confidence r))
                 (Py.sorted_desc (@Mapped.confidence Icd.t) results)).
  { apply Forall_forall. intros r Hr. apply (proj1 (sorted_desc_in _ _ _ _)) in Hr.
    exact (proj1 (Forall_forall _ _) N r Hr). }
  pose proof (sorted_desc_sorted _ _ _ N) as S.
  assert (I : forall c, In c l -> In c (Mapping.unique_results []
                 (Py.sorted_desc (@Mapped.confidence Icd.t) results))).
  { intros c. apply firstn_in. }
  repeat split.
  - apply Forall_forall. intros c Hc. apply I, unique_results_in in Hc.
    destruct Hc as [Hc _]. apply (proj1 (sorted_desc_in _ _ _ _)) in Hc.
    exact (proj1 (Forall_forall _ _) H c Hc).
  - apply firstn_strongly_sorted, unique_results_sorted. exact S.
  - apply firstn_le_length.
  - unfold l. rewrite <- firstn_map. apply firstn_nodup, unique_results_nodup.
  - intros c c' Hc Hc' K.
    apply (unique_results_best [] _ c c' S N' (I c Hc)); [| exact K].
    apply sorted_desc_in. exact Hc'.
Qed.

End Automatic.

(** ** Forward translation *)

Lemma dict_get_in (V : Type) (key : string) (d : list (string * V)) (v : V) :
  Mapping.dict_get key d = Some v -> In (key, v) d.
Proof.
  induction d as [|[k w] d IH]; simpl; [discriminate |].
  destruct (k =? key) eqn:E.
  - intros [= ->]. apply String.eqb_eq in E. subst. left. reflexivity.
  - intros H. right. exact (IH H).
Qed.

Lemma dict_get_none (V : Type) (key : string) (d : list (string * V)) :
  Mapping.dict_get key d = None <-> ~ In key (map fst d).
Proof.
  induction d as [|[k w] d IH]; simpl; [intuition |].
  destruct (k =? key) eqn:E.
  - apply String.eqb_eq in E. subst. split; [discriminate | intros H; elim H; auto].
  - apply String.eqb_neq in E. rewrite IH. intuition.
Qed.

Lemma result_pair_key (c c' : Mapped.t Icd.t) :
  result_pair c' = result_pair c -> Mapping.result_key c' = Mapping.result_key c.
Proof. unfold result_pair, Mapping.result_key. intros [= -> ->]. reflexivity. Qed.

Lemma nodup_pairs (l : list (Mapped.t Icd.t)) :
  NoDup (map Mapping.result_key l) -> NoDup (map result_pair l).
Proof.
  induction l as [|c l IH]; simpl; intros N; [constructor |].
  inversion N as [|? ? Nc Nl]; subst. constructor; [| exact (IH Nl)].
  intros I. apply Nc. apply in_map_iff in I. destruct I as [c' [E I]].
  apply in_map_iff. exists c'. split; [apply result_pair_key; exact E | exact I].
Qed.

Section Forward.

Variable ratio : string -> string -> float.
Variable list_set : list string -> list string.
Variable self : MappingService.

Lemma automatic_mapping_result (code target : string) :
  Mapping._perform_automatic_mapping ratio list_set self code target = Py.Ok [] \/
  exists nd results,
    Namaste.get_namaste_code_details (namaste_service self) code
      (create_sample_namaste_data (namaste_service self)) = Some nd /\
    Mapping.search_loop ratio self nd target (Mapping._extract_search_terms list_set nd) []
      = Py.Ok results /\
    Mapping._perform_automatic_mapping ratio list_set self code target
      = Py.Ok (firstn 5 (Mapping.unique_results []
                           (Py.sorted_desc (@Mapped.confidence Icd.t) results))).
Proof.
  unfold Mapping._perform_automatic_mapping.
  destruct (Namaste.get_namaste_code_details _ _ _) as [nd|]; [| left; reflexivity].
  destruct (Mapping.search_loop _ _ _ _ _ _) as [results|e] eqn:E; [| left; reflexivity].
  right. exists nd, results. repeat split. exact E.
Qed.

Lemma translate_automatic (code target : string) :
  Mapping.dict_get code (predefined_mappings self) = None ->
  Mapping.translate_namaste_to_icd11 ratio list_set self code target
  = Mapping._perform_automatic_mapping ratio list_set self code target.
Proof.
  intros H. unfold Mapping.translate_namaste_to_icd11. rewrite H.
  destruct (automatic_mapping_result code target) as [-> | [nd [results [_ [_ ->]]]]];
    reflexivity.
Qed.

(** C5: without a predefined entry, forward translation returns at most five
    candidates, each found by the heuristic search with a confidence above
    0.3, in order of non-increasing confidence. *)
Theorem automatic_translation_ranked (code target : string) :
  Mapping.dict_get code (predefined_mappings self) = None ->
  exists l,
    Mapping.translate_namaste_to_icd11 ratio list_set self code target = Py.Ok l /\
    Forall (fun c => (0.3 <? Mapped.confidence c)%float = true /\
                     Mapped.mappingMethod c = automatic) l /\
    Sorted (fun a b => (Mapped.confidence b <=? Mapped.confidence a)%float = true) l /\
    (length l <= 5)%nat.
Proof.
  intros H. rewrite (translate_automatic code target H).
  destruct (automatic_mapping_result code target) as [-> | [nd [results [_ [L ->]]]]].
  - exists []. split; [reflexivity |]. split; [constructor |]. split; [constructor |].
    simpl. lia.
  - pose proof (search_loop_scored ratio self nd target _ [] results L (Forall_nil _)) as Sc.
    destruct (ranked_results results Sc) as [F [S [Len _]]].
    eexists. split; [reflexivity |]. split; [exact F |]. split; [| exact Len].
    apply StronglySorted_Sorted. exact S.
Qed.

(** C3, as amended: on the heuristic path of forward translation each
    (system, code) pair is returned at most once, and the copy returned has
    the highest confidence of all candidates found for its pair. *)
Theorem automatic_translation_deduplicated (code target : string)
    (nd : Details.t) (results : list (Mapped.t Icd.t)) :
  Mapping.dict_get code (predefined_mappings self) = None ->
  Namaste.get_namaste_code_details (namaste_service self) code
    (create_sample_namaste_data (namaste_service self)) = Some nd ->
  Mapping.search_loop ratio self nd target (Mapping._extract_search_terms list_set nd) []
    = Py.Ok results ->
  exists l,
    Mapping.translate_namaste_to_icd11 ratio list_set self code target = Py.Ok l /\
    NoDup (map result_pair l) /\
    forall c c', In c l -> In c' results -> result_pair c' = result_pair c ->
                 (Mapped.confidence c' <=? Mapped.confidence c)%float = true.
Proof.
  intros H G L. rewrite (translate_automatic code target H).
  assert (P : Mapping._perform_automatic_mapping ratio list_set self code target
              = Py.Ok (firstn 5 (Mapping.unique_results []
                                   (Py.sorted_desc (@Mapped.confidence Icd.t) results)))).
  { unfold Mapping._perform_automatic_mapping. rewrite G, L. reflexivity. }
  rewrite P.
  pose proof (search_loop_scored ratio self nd target _ [] results L (Forall_nil _)) as Sc.
  destruct (ranked_results results Sc) as [_ [_ [_ [N B]]]].
  eexists. split; [reflexivity |]. split.
  - apply nodup_pairs. exact N.
  - intros c c' Hc Hc' E. exact (B c c' Hc Hc' (result_pair_key c c' E)).
Qed.

End Forward.

(** ** The predefined path *)

Lemma predefined_loop_curated (self : MappingService) (target : string)
    (full mappings : list PredefinedMapping) (results l : list (Mapped.t Icd.t)) :
  incl mappings full ->
  Mapping.predefined_loop self target mappings results = Py.Ok l ->
  Forall (curated self target full) results -> Forall (curated self target full) l.
Proof.
  revert results. induction mappings as [|m mappings IH]; intros results I; simpl.
  - intros [= <-] H. exact H.
  - assert (Im : In m full) by (apply I; left; reflexivity).
    assert (I' : incl mappings full) by (intros x Hx; apply I; right; exact Hx).
    destruct ((target =? "both") || (target =? pm_system m))%bool eqn:F; [| apply IH; exact I'].
    change (if pm_system m =? "tm2"
            then search_icd11_codes (icd11_service self) (pm_code m) "tm2" 1
            else search_icd11_codes (icd11_service self) (pm_code m) "biomedicine" 1)
      with (predefined_lookup self m).
    destruct (predefined_lookup self m) as [[|r rest]|e] eqn:E; simpl;
      [apply IH; exact I' | | discriminate].
    intros L H. apply (IH _ I' L). apply Forall_app. split; [exact H |].
    constructor; [| constructor]. split; [reflexivity |]. split; [reflexivity |].
    exists m. split; [exact Im |]. split; [reflexivity |]. split.
    + apply orb_true_iff in F. destruct F as [F | F]; apply String.eqb_eq in F; auto.
    + exists rest. exact E.
Qed.

Lemma predefined_loop_service (self self' : MappingService) (target : string)
    (mappings : list PredefinedMapping) (results : list (Mapped.t Icd.t)) :
  icd11_service self' = icd11_service self ->
  Mapping.predefined_loop self' target mappings results
  = Mapping.predefined_loop self target mappings results.
Proof.
  intros E. revert results. induction mappings as [|m mappings IH]; intros results; simpl;
    [reflexivity |].
  rewrite E. destruct ((target =? "both") || (target =? pm_system m))%bool; [| apply IH].
  destruct (if pm_system m =? "tm2" then _ else _) as [[|r rest]|e]; simpl; auto.
Qed.

(** C2: when the source code has a predefined entry, every candidate
    returned is one of its curated mappings, with method 'predefined', the
    curated equivalence and confidence 0.9; the scorer, the search terms and
    the NAMASTE table play no part in the result, whatever the target
    system. *)
Theorem predefined_short_circuit (ratio : string -> string -> float)
    (list_set : list string -> list string) (self : MappingService)
    (code target : string) (mappings : list PredefinedMapping) :
  Mapping.dict_get code (predefined_mappings self) = Some mappings ->
  exists l,
    Mapping.translate_namaste_to_icd11 ratio list_set self code target = Py.Ok l /\
    Forall (curated self target mappings) l /\
    (forall c, In c l -> Mapped.mappingMethod c <> automatic) /\
    (forall ratio' list_set' ns',
        Mapping.translate_namaste_to_icd11 ratio' list_set'
          (with_namaste_service self ns') code target = Py.Ok l).
Proof.
  intros H.
  assert (T : forall ratio' list_set' ns',
             Mapping.translate_namaste_to_icd11 ratio' list_set'
               (with_namaste_service self ns') code target
             = Py.try_except (Mapping.predefined_loop self target mappings [])
                 (fun _ => Py.Ok [])).
  { intros. unfold Mapping.translate_namaste_to_icd11. simpl predefined_mappings.
    rewrite H. rewrite (predefined_loop_service self); reflexivity. }
  assert (T0 : Mapping.translate_namaste_to_icd11 ratio list_set self code target
               = Py.try_except (Mapping.predefined_loop self target mappings [])
                   (fun _ => Py.Ok [])).
  { unfold Mapping.translate_namaste_to_icd11. rewrite H. reflexivity. }
  destruct (Mapping.predefined_loop self target mappings []) as [l|e] eqn:L.
  - exists l. split; [exact T0 |].
    pose proof (predefined_loop_curated self target mappings mappings [] l
                  (incl_refl _) L (Forall_nil _)) as C.
    split; [exact C |]. split; [| exact T].
    intros c Hc. destruct (proj1 (Forall_forall _ _) C c Hc) as [M _]. congruence.
  - exists []. split; [exact T0 |]. split; [constructor |]. split; [| exact T].
    intros c [].
Qed.

Lemma predefined_short_circuit_witness :
  Mapping.dict_get "NAM005" (predefined_mappings Fixture.demo_service)
  = Some [Mapping.pm "tm2" "TM2.02" equivalent; Mapping.pm "biomedicine" "K30" equivalent] /\
  exists l,
    Mapping.translate_namaste_to_icd11 Fixture.exact_ratio Fixture.last_seen
      Fixture.demo_service "NAM005" "both" = Py.Ok l /\
    Forall (curated Fixture.demo_service "both"
              [Mapping.pm "tm2" "TM2.02" equivalent; Mapping.pm "biomedicine" "K30" equivalent]) l /\
    (forall c, In c l -> Mapped.mappingMethod c <> automatic) /\
    (forall ratio' list_set' ns',
        Mapping.translate_namaste_to_icd11 ratio' list_set'
          (with_namaste_service Fixture.demo_service ns') "NAM005" "both" = Py.Ok l).
Proof.
  split; [reflexivity |].
  apply (predefined_short_circuit Fixture.exact_ratio Fixture.last_seen
           Fixture.demo_service "NAM005" "both"). reflexivity.
Defined.

Lemma automatic_translation_ranked_witness :
  Mapping.dict_get "NAM006" (predefined_mappings Fixture.heuristic_service) = None /\
  exists l,
    Mapping.translate_namaste_to_icd11 Fixture.full_ratio Fixture.last_seen
      Fixture.heuristic_service "NAM006" "both" = Py.Ok l /\
    Forall (fun c => (0.3 <? Mapped.confidence c)%float = true /\
                     Mapped.mappingMethod c = automatic) l /\
    Sorted (fun a b => (Mapped.confidence b <=? Mapped.confidence a)%float = true) l /\
    (length l <= 5)%nat.
Proof.
  split; [reflexivity |].
  apply (automatic_translation_ranked Fixture.full_ratio Fixture.last_seen
           Fixture.heuristic_service "NAM006" "both"). reflexivity.
Defined.

Lemma automatic_translation_deduplicated_witness :
  Mapping.search_loop Fixture.full_ratio Fixture.heuristic_service Fixture.nam006 "both"
    (Mapping._extract_search_terms Fixture.last_seen Fixture.nam006) []
  = Py.Ok Fixture.nam006_candidates /\
  exists l,
    Mapping.translate_namaste_to_icd11 Fixture.full_ratio Fixture.last_seen
      Fixture.heuristic_service "NAM006" "both" = Py.Ok l /\
    NoDup (map result_pair l) /\
    forall c c', In c l -> In c' Fixture.nam006_candidates ->
                 result_pair c' = result_pair c ->
                 (Mapped.confidence c' <=? Mapped.confidence c)%float = true.
Proof.
  assert (L : Mapping.search_loop Fixture.full_ratio Fixture.heuristic_service
                Fixture.nam006 "both"
                (Mapping._extract_search_terms Fixture.last_seen Fixture.nam006) []
              = Py.Ok Fixture.nam006_candidates) by (vm_compute; reflexivity).
  split; [exact L |].
  apply (automatic_translation_deduplicated Fixture.full_ratio Fixture.last_seen
           Fixture.heuristic_service "NAM006" "both" Fixture.nam006
           Fixture.nam006_candidates); [reflexivity | reflexivity | exact L].
Defined.

(** ** An unrecognised target system *)

Lemma predefined_loop_no_match (self : MappingService) (target : string)
    (mappings : list PredefinedMapping) (results : list (Mapped.t Icd.t)) :
  target <> "both" ->
  Forall (fun m => pm_system m <> target) mappings ->
  Mapping.predefined_loop self target mappings results = Py.Ok results.
Proof.
  intros B F. induction F as [|m mappings Hm F IH]; simpl; [reflexivity |].
  apply String.eqb_neq in B. rewrite B. simpl.
  assert (E : (target =? pm_system m) = false).
  { apply String.eqb_neq. intros E. apply Hm. symmetry. exact E. }
  rewrite E. exact IH.
Qed.

Lemma search_loop_no_target (ratio : string -> string -> float) (self : MappingService)
    (nd : Details.t) (target : string) (terms : list string)
    (results : list (Mapped.t Icd.t)) :
  target <> "tm2" -> target <> "biomedicine" -> target <> "both" ->
  Mapping.search_loop ratio self nd target terms results = Py.Ok results.
Proof.
  intros T M B. apply String.eqb_neq in T, M, B.
  induction terms as [|t terms IH]; simpl; [reflexivity |].
  rewrite T, M, B. simpl. exact IH.
Qed.

Lemma init_systems (code : string) (mappings : list PredefinedMapping) :
  Mapping.dict_get code Mapping.predefined_mappings_init = Some mappings ->
  Forall (fun m => pm_system m = "tm2" \/ pm_system m = "biomedicine") mappings.
Proof.
  intros H. apply dict_get_in in H.
  assert (A : Forall (fun item : string * list PredefinedMapping =>
                        Forall (fun m => pm_system m = "tm2" \/ pm_system m = "biomedicine")
                          (snd item))
                Mapping.predefined_mappings_init).
  { unfold Mapping.predefined_mappings_init.
    repeat (constructor; [simpl; repeat (constructor; [simpl; auto |]); constructor |]).
    constructor. }
  exact (proj1 (Forall_forall _ _) A _ H).
Qed.

Lemma reverse_translate_total (ratio : string -> string -> float) (self : MappingService)
    (code system : string) :
  exists l, Mapping.reverse_translate_icd11_to_namaste ratio self code system = Py.Ok l.
Proof.
  unfold Mapping.reverse_translate_icd11_to_namaste.
  match goal with |- exists l, Py.try_except ?body _ = _ => destruct body as [l|e] end;
    simpl; eauto.
Qed.

(** C6, as amended: a target system other than tm2, biomedicine and both is
    not reported; forward translation answers it with the empty list, for
    every source code, and reverse translation answers it with a list as
    well. *)
Theorem unknown_target_yields_empty (ratio : string -> string -> float)
    (list_set : list string -> list string) (ns : NAMASTEService) (icd : ICD11Service)
    (code target : string) :
  target <> "tm2" -> target <> "biomedicine" -> target <> "both" ->
  Mapping.translate_namaste_to_icd11 ratio list_set (Mapping.init ns icd) code target
  = Py.Ok [] /\
  exists l,
    Mapping.reverse_translate_icd11_to_namaste ratio (Mapping.init ns icd) code target
    = Py.Ok l.
Proof.
  intros T M B. split; [| apply reverse_translate_total].
  unfold Mapping.translate_namaste_to_icd11.
  destruct (Mapping.dict_get code (predefined_mappings (Mapping.init ns icd)))
    as [mappings|] eqn:D.
  - rewrite predefined_loop_no_match; [reflexivity | exact B |].
    apply init_systems in D. apply Forall_forall. intros m Hm.
    destruct (proj1 (Forall_forall _ _) D m Hm) as [-> | ->]; congruence.
  - unfold Mapping._perform_automatic_mapping.
    destruct (Namaste.get_namaste_code_details _ _ _) as [nd|]; [| reflexivity].
    rewrite search_loop_no_target by assumption. reflexivity.
Qed.

Lemma unknown_target_yields_empty_witness :
  "icd10" <> "tm2" /\ "icd10" <> "biomedicine" /\ "icd10" <> "both" /\
  Mapping.translate_namaste_to_icd11 Fixture.exact_ratio Fixture.last_seen
    (Mapping.init Namaste.init ICD11.demo) "NAM001" "icd10" = Py.Ok [].
Proof.
  split; [discriminate |]. split; [discriminate |]. split; [discriminate |].
  apply (unknown_target_yields_empty Fixture.exact_ratio Fixture.last_seen
           Namaste.init ICD11.demo "NAM001" "icd10"); discriminate.
Defined.

(** C6, counterexample: the curated code NAM001 translated to the unknown
    system "icd10" returns the empty list, with no signal. *)
Lemma unknown_target_no_signal :
  Mapping.translate_namaste_to_icd11 Fixture.exact_ratio Fixture.last_seen
    Fixture.demo_service "NAM001" "icd10" = Py.Ok [] /\
  Mapping.translate_namaste_to_icd11 Fixture.exact_ratio Fixture.last_seen
    Fixture.demo_service "ZZZ999" "both" = Py.Ok [].
Proof. split; vm_compute; reflexivity. Qed.

(** ** A failing provider *)

Lemma predefined_loop_raises (self : MappingService) (target : string)
    (mappings : list PredefinedMapping) (results : list (Mapped.t Icd.t))
    (m : PredefinedMapping) (e : string) :
  In m mappings ->
  ((target =? "both") || (target =? pm_system m))%bool = true ->
  predefined_lookup self m = Py.Raise e ->
  exists e', Mapping.predefined_loop self target mappings results = Py.Raise e'.
Proof.
  intros I F R. revert results. induction mappings as [|m0 mappings IH]; intros results;
    [destruct I |].
  simpl.
  change (if pm_system m0 =? "tm2"
          then search_icd11_codes (icd11_service self) (pm_code m0) "tm2" 1
          else search_icd11_codes (icd11_service self) (pm_code m0) "biomedicine" 1)
    with (predefined_lookup self m0).
  destruct I as [-> | I].
  - rewrite F, R. exists e. reflexivity.
  - destruct ((target =? "both") || (target =? pm_system m0))%bool; [| apply IH; exact I].
    destruct (predefined_lookup self m0) as [[|r rest]|e0]; simpl.
    + apply IH. exact I.
    + apply IH. exact I.
    + exists e0. reflexivity.
Qed.

Lemma search_loop_raises (ratio : string -> string -> float) (self : MappingService)
    (nd : Details.t) (target : string) (terms : list string)
    (results : list (Mapped.t Icd.t)) (query : string * string * Z) (e : string) :
  In query (flat_map (term_lookups target) terms) ->
  lookup self query = Py.Raise e ->
  exists e', Mapping.search_loop ratio self nd target terms results = Py.Raise e'.
Proof.
  intros I R. revert results. induction terms as [|t terms IH]; intros results;
    [destruct I |].
  simpl in I. apply in_app_or in I. destruct I as [I | I].
  - unfold term_lookups in I. apply in_app_or in I. simpl.
    destruct ((target =? "tm2") || (target =? "both"))%bool.
    + destruct (search_icd11_codes (icd11_service self) t "tm2" 3) as [tm2|e0] eqn:E1; simpl;
        [| exists e0; reflexivity].
      destruct I as [[<- | []] | I]; [simpl in R; congruence |].
      destruct ((target =? "biomedicine") || (target =? "both"))%bool; [| destruct I].
      destruct I as [<- | []]. simpl in R. rewrite R. simpl. exists e. reflexivity.
    + simpl. destruct I as [[] | I].
      destruct ((target =? "biomedicine") || (target =? "both"))%bool; [| destruct I].
      destruct I as [<- | []]. simpl in R. rewrite R. simpl. exists e. reflexivity.
  - simpl.
    destruct ((target =? "tm2") || (target =? "both"))%bool;
      [destruct (search_icd11_codes (icd11_service self) t "tm2" 3) as [tm2|e0]; simpl;
       [| exists e0; reflexivity] | simpl];
      (destruct ((target =? "biomedicine") || (target =? "both"))%bool;
       [destruct (search_icd11_codes (icd11_service self) t "biomedicine" 3) as [bio|e0]; simpl;
        [| exists e0; reflexivity] | simpl]);
      apply IH; exact I.
Qed.

(** C1, as amended: a failure of the provider is caught, not propagated.
    When one of the lookups of a forward translation raises, the result is
    the empty list; when reverse translation finds no predefined match and
    the lookup of the target entry raises, the result is the empty list. *)
Theorem provider_failure_is_swallowed (ratio : string -> string -> float)
    (list_set : list string -> list string) (self : MappingService) (code system : string) :
  ((exists query e, In query (forward_lookups list_set self code system) /\
                    lookup self query = Py.Raise e) ->
   Mapping.translate_namaste_to_icd11 ratio list_set self code system = Py.Ok []) /\
  ((exists e, Mapping.reverse_predefined self code system
                (create_sample_namaste_data (namaste_service self)) = [] /\
              get_icd11_code_details (icd11_service self) code = Py.Raise e) ->
   Mapping.reverse_translate_icd11_to_namaste ratio self code system = Py.Ok []).
Proof.
  split.
  - intros [query [e [I R]]]. unfold forward_lookups in I.
    unfold Mapping.translate_namaste_to_icd11.
    destruct (Mapping.dict_get code (predefined_mappings self)) as [mappings|].
    + apply in_map_iff in I. destruct I as [m [<- I]]. apply filter_In in I.
      destruct I as [I F].
      assert (R' : predefined_lookup self m = Py.Raise e).
      { unfold predefined_lookup. simpl in R. destruct (pm_system m =? "tm2"); exact R. }
      destruct (predefined_loop_raises self system mappings [] m e I F R') as [e' ->].
      reflexivity.
    + unfold Mapping._perform_automatic_mapping.
      destruct (Namaste.get_namaste_code_details _ _ _) as [nd|]; [| reflexivity].
      destruct (search_loop_raises ratio self nd system _ [] query e I R) as [e' ->].
      reflexivity.
  - intros [e [P R]]. unfold Mapping.reverse_translate_icd11_to_namaste.
    rewrite P, R. reflexivity.
Qed.

Lemma provider_failure_is_swallowed_witness :
  Mapping.translate_namaste_to_icd11 Fixture.exact_ratio Fixture.last_seen
    Fixture.failing_service "NAM001" "both" = Py.Ok [] /\
  Mapping.reverse_translate_icd11_to_namaste Fixture.exact_ratio Fixture.failing_service
    "http://id.who.int/icd/release/11/2023-01/tm2/999" "tm2" = Py.Ok [].
Proof.
  split.
  - apply (provider_failure_is_swallowed Fixture.exact_ratio Fixture.last_seen
             Fixture.failing_service "NAM001" "both").
    exists ("TM2.02", "tm2", 1%Z), "ConnectionError". split; [left |]; reflexivity.
  - apply (provider_failure_is_swallowed Fixture.exact_ratio Fixture.last_seen
             Fixture.failing_service "http://id.who.int/icd/release/11/2023-01/tm2/999" "tm2").
    exists "ConnectionError". split; reflexivity.
Defined.

(** C1, counterexample: the lookup of the curated target of NAM001 raises,
    and forward translation returns the empty list; so does reverse
    translation of a code without predefined match. *)
Lemma provider_failure_returns_empty :
  search_icd11_codes (icd11_service Fixture.failing_service) "TM2.02" "tm2" 1
  = Py.Raise "ConnectionError" /\
  Mapping.translate_namaste_to_icd11 Fixture.exact_ratio Fixture.last_seen
    Fixture.failing_service "NAM001" "both" = Py.Ok [] /\
  get_icd11_code_details (icd11_service Fixture.failing_service)
    "http://id.who.int/icd/release/11/2023-01/tm2/999" = Py.Raise "ConnectionError" /\
  Mapping.reverse_translate_icd11_to_namaste Fixture.exact_ratio Fixture.failing_service
    "http://id.who.int/icd/release/11/2023-01/tm2/999" "tm2" = Py.Ok [].
Proof. repeat split; vm_compute; reflexivity. Qed.

(** ** Search terms *)

Lemma extract_search_terms_groups (list_set : list string -> list string) (nd : Details.t) :
  Mapping._extract_search_terms list_set nd
  = list_set (main_terms (Py.lower (Details.display nd))
              ++ category_terms (Py.lower (Details.category nd))
              ++ body_system_terms (Py.lower (Details.bodySystem nd))
              ++ display_terms (Py.lower (Details.display nd))).
Proof.
  unfold Mapping._extract_search_terms, main_terms, category_terms, body_system_terms,
    display_terms.
  f_equal. rewrite !app_assoc. simpl.
  repeat match goal with
    | |- context [if ?b then _ else _] => destruct b
    end; rewrite ?app_nil_r; reflexivity.
Qed.

Lemma main_terms_in (display x : string) :
  In x (main_terms display) <->
  Py.strip (Py.split_parens_first display) <> "" /\
  x = Py.strip (Py.split_parens_first display).
Proof.
  unfold main_terms. destruct (_ =? "") eqn:E; simpl.
  - apply String.eqb_eq in E. intuition.
  - apply String.eqb_neq in E. intuition.
Qed.

Lemma category_terms_in (category x : string) :
  In x (category_terms category) <->
  (Py.contains "digestive" category = true /\ In x ["digestion"; "stomach"; "gastric"]) \/
  (Py.contains "digestive" category = false /\
   Py.contains "constitutional" category = true /\
   In x ["constitutional"; "temperament"; "pattern"]) \/
  (Py.contains "digestive" category = false /\
   Py.contains "constitutional" category = false /\
   Py.contains "neurological" category = true /\
   In x ["neurological"; "nervous"; "brain"]).
Proof.
  unfold category_terms.
  destruct (Py.contains "digestive" category), (Py.contains "constitutional" category),
    (Py.contains "neurological" category); simpl; intuition discriminate.
Qed.

Lemma body_system_terms_in (body_system x : string) :
  In x (body_system_terms body_system) <->
  (Py.contains "gastrointestinal" body_system = true /\
   In x ["gastrointestinal"; "digestive"]) \/
  (Py.contains "gastrointestinal" body_system = false /\
   Py.contains "nervous" body_system = true /\
   In x ["nervous"; "neurological"]).
Proof.
  unfold body_system_terms.
  destruct (Py.contains "gastrointestinal" body_system), (Py.contains "nervous" body_system);
    simpl; intuition discriminate.
Qed.

Lemma display_terms_in (display x : string) :
  In x (display_terms display) <->
  (Py.contains "headache" display = true /\ In x ["headache"; "cephalgia"]) \/
  (Py.contains "headache" display = false /\
   Py.contains "indigestion" display = true /\
   In x ["indigestion"; "dyspepsia"]) \/
  (Py.contains "headache" display = false /\
   Py.contains "indigestion" display = false /\
   Py.contains "dosha" display = true /\
   In x ["constitutional"; "pattern"]).
Proof.
  unfold display_terms.
  destruct (Py.contains "headache" display), (Py.contains "indigestion" display),
    (Py.contains "dosha" display); simpl; intuition discriminate.
Qed.

Section SearchTerms.

Variable list_set : list string -> list string.
Hypothesis list_set_in : forall l x, In x (list_set l) <-> In x l.
Hypothesis list_set_nodup : forall l, NoDup (list_set l).

(** C4, as amended: the term set has no duplicates and is the union of the
    main term, when it is not empty, and of at most one rule of each group:
    the first that applies among digestive, constitutional and neurological
    for the category, among gastrointestinal and nervous for the body
    system, and among headache, indigestion and dosha for the display. *)
Theorem extract_search_terms_first_match (nd : Details.t) (x : string) :
  let display := Py.lower (Details.display nd) in
  let category := Py.lower (Details.category nd) in
  let body_system := Py.lower (Details.bodySystem nd) in
  let main_term := Py.strip (Py.split_parens_first display) in
  NoDup (Mapping._extract_search_terms list_set nd) /\
  (In x (Mapping._extract_search_terms list_set nd) <->
   (main_term <> "" /\ x = main_term) \/
   ((Py.contains "digestive" category = true /\ In x ["digestion"; "stomach"; "gastric"]) \/
    (Py.contains "digestive" category = false /\
     Py.contains "constitutional" category = true /\
     In x ["constitutional"; "temperament"; "pattern"]) \/
    (Py.contains "digestive" category = false /\
     Py.contains "constitutional" category = false /\
     Py.contains "neurological" category = true /\
     In x ["neurological"; "nervous"; "brain"])) \/
   ((Py.contains "gastrointestinal" body_system = true /\
     In x ["gastrointestinal"; "digestive"]) \/
    (Py.contains "gastrointestinal" body_system = false /\
     Py.contains "nervous" body_system = true /\
     In x ["nervous"; "neurological"])) \/
   ((Py.contains "headache" display = true /\ In x ["headache"; "cephalgia"]) \/
    (Py.contains "headache" display = false /\
     Py.contains "indigestion" display = true /\
     In x ["indigestion"; "dyspepsia"]) \/
    (Py.contains "headache" display = false /\
     Py.contains "indigestion" display = false /\
     Py.contains "dosha" display = true /\
     In x ["constitutional"; "pattern"]))).
Proof.
  intros display category body_system main_term.
  rewrite extract_search_terms_groups. split; [apply list_set_nodup |].
  rewrite list_set_in, !in_app_iff.
  rewrite main_terms_in, category_terms_in, body_system_terms_in, display_terms_in.
  reflexivity.
Qed.

End SearchTerms.

Lemma last_seen_in (l : list string) (x : string) : In x (Fixture.last_seen l) <-> In x l.
Proof. apply nodup_In. Qed.

Lemma last_seen_nodup (l : list string) : NoDup (Fixture.last_seen l).
Proof. apply NoDup_nodup. Qed.

Lemma extract_search_terms_first_match_witness :
  NoDup (Mapping._extract_search_terms Fixture.last_seen Fixture.nam006) /\
  In "cephalgia" (Mapping._extract_search_terms Fixture.last_seen Fixture.nam006).
Proof.
  pose proof (extract_search_terms_first_match Fixture.last_seen last_seen_in last_seen_nodup
                Fixture.nam006 "cephalgia") as [N I].
  split; [exact N |]. apply I.
  right. right. right. left. split; [reflexivity | simpl; auto].
Defined.

(** C4, counterexample: the display of [headache_dosha] contains both
    "headache" and "dosha", and its term set holds the headache terms only:
    "constitutional" and "pattern" are missing, under every set order. *)
Lemma extract_search_terms_not_cumulative :
  Py.contains "headache" (Py.lower (Details.display Fixture.headache_dosha)) = true /\
  Py.contains "dosha" (Py.lower (Details.display Fixture.headache_dosha)) = true /\
  Mapping._extract_search_terms Fixture.last_seen Fixture.headache_dosha
  = ["headache from dosha imbalance"; "headache"; "cephalgia"] /\
  (forall list_set : list string -> list string,
      (forall l x, In x (list_set l) <-> In x l) ->
      ~ In "constitutional" (Mapping._extract_search_terms list_set Fixture.headache_dosha) /\
      ~ In "pattern" (Mapping._extract_search_terms list_set Fixture.headache_dosha)).
Proof.
  split; [reflexivity |]. split; [reflexivity |]. split; [reflexivity |].
  intros list_set H. rewrite extract_search_terms_groups, !H.
  split; simpl; intros K; repeat (destruct K as [K | K]; [discriminate |]); exact K.
Qed.

(** ** The ConceptMap *)

Lemma translate_total (ratio : string -> string -> float)
    (list_set : list string -> list string) (self : MappingService) (code target : string) :
  exists l, Mapping.translate_namaste_to_icd11 ratio list_set self code target = Py.Ok l.
Proof.
  unfold Mapping.translate_namaste_to_icd11.
  destruct (match Mapping.dict_get code (predefined_mappings self) with
            | Some mappings => _
            | None => _
            end) as [l|e]; simpl; eauto.
Qed.

Lemma covered_details (self : MappingService) (code : string) :
  covered self = true ->
  Mapping.dict_get code (predefined_mappings self) = None ->
  Namaste.get_namaste_code_details (namaste_service self) code
    (create_sample_namaste_data (namaste_service self)) = None.
Proof.
  intros C D. unfold Namaste.get_namaste_code_details.
  destruct (find _ _) as [row|] eqn:F; [| reflexivity].
  apply find_some in F. destruct F as [I E]. apply String.eqb_eq in E.
  unfold covered in C. rewrite forallb_forall in C. specialize (C row I).
  apply seen_spec in C. rewrite E in C.
  apply dict_get_none in D. contradiction.
Qed.

Lemma translate_covered (self : MappingService) (code target : string)
    (ratio ratio' : string -> string -> float) (list_set list_set' : list string -> list string) :
  covered self = true ->
  Mapping.translate_namaste_to_icd11 ratio' list_set' self code target
  = Mapping.translate_namaste_to_icd11 ratio list_set self code target.
Proof.
  intros C. unfold Mapping.translate_namaste_to_icd11.
  destruct (Mapping.dict_get code (predefined_mappings self)) eqn:D; [reflexivity |].
  unfold Mapping._perform_automatic_mapping. rewrite (covered_details self code C D).
  reflexivity.
Qed.

Lemma elements_loop_total (ratio : string -> string -> float)
    (list_set : list string -> list string) (self : MappingService)
    (data : list Row.t) (tm2 bio : list Element.t) :
  exists groups, Mapping.elements_loop ratio list_set self data tm2 bio = Py.Ok groups.
Proof.
  revert tm2 bio. induction data as [|row data IH]; intros tm2 bio; simpl; [eauto |].
  destruct (translate_total ratio list_set self (Row.code row) "tm2") as [l1 ->].
  destruct (translate_total ratio list_set self (Row.code row) "biomedicine") as [l2 ->].
  simpl. apply IH.
Qed.

Lemma elements_loop_covered (self : MappingService)
    (ratio ratio' : string -> string -> float) (list_set list_set' : list string -> list string)
    (data : list Row.t) (tm2 bio : list Element.t) :
  covered self = true ->
  Mapping.elements_loop ratio' list_set' self data tm2 bio
  = Mapping.elements_loop ratio list_set self data tm2 bio.
Proof.
  intros C. revert tm2 bio. induction data as [|row data IH]; intros tm2 bio; simpl;
    [reflexivity |].
  rewrite (translate_covered self (Row.code row) "tm2" ratio ratio' list_set list_set' C).
  rewrite (translate_covered self (Row.code row) "biomedicine" ratio ratio' list_set list_set' C).
  destruct (Mapping.translate_namaste_to_icd11 ratio list_set self (Row.code row) "tm2");
    simpl; [| reflexivity].
  destruct (Mapping.translate_namaste_to_icd11 ratio list_set self (Row.code row) "biomedicine");
    simpl; [| reflexivity].
  apply IH.
Qed.

(** C9: the groups of the ConceptMap are determined by the service and the
    rows. They do not depend on the identifier drawn or on the clock; and
    when every code of the NAMASTE table has a predefined entry, as in the
    service the repository builds, they depend neither on the set order nor
    on the scorer. *)
Theorem concept_map_groups_deterministic (ratio : string -> string -> float)
    (list_set : list string -> list string) (self : MappingService) (data : list Row.t) :
  exists groups,
    (forall uuid_hex now,
        exists m, Mapping.generate_concept_map ratio list_set self uuid_hex now data = Py.Ok m /\
                  ConceptMap.group m = groups) /\
    (covered self = true ->
     forall ratio' list_set' uuid_hex now,
        exists m, Mapping.generate_concept_map ratio' list_set' self uuid_hex now data = Py.Ok m /\
                  ConceptMap.group m = groups).
Proof.
  destruct (elements_loop_total ratio list_set self data [] []) as [elements E].
  exists [ {| Group.source := code_system_url (namaste_service self);
              Group.sourceVersion := code_system_version (namaste_service self);
              Group.target := icd11_tm2_url (icd11_service self);
              Group.targetVersion := "2023-01";
              Group.element := fst elements |};
           {| Group.source := code_system_url (namaste_service self);
              Group.sourceVersion := code_system_version (namaste_service self);
              Group.target := icd11_biomedicine_url (icd11_service self);
              Group.targetVersion := "2023-01";
              Group.element := snd elements |} ].
  split.
  - intros uuid_hex now. unfold Mapping.generate_concept_map. rewrite E.
    eexists. split; reflexivity.
  - intros C ratio' list_set' uuid_hex now. unfold Mapping.generate_concept_map.
    rewrite (elements_loop_covered self ratio ratio' list_set list_set' data [] [] C), E.
    eexists. split; reflexivity.
Qed.

Lemma init_covered (icd : ICD11Service) : covered (Mapping.init Namaste.init icd) = true.
Proof. reflexivity. Qed.

Lemma concept_map_groups_deterministic_witness :
  covered Fixture.demo_service = true /\
  exists groups,
    forall ratio' list_set' uuid_hex now,
      exists m,
        Mapping.generate_concept_map ratio' list_set' Fixture.demo_service uuid_hex now
          Namaste.sample_data = Py.Ok m /\
        ConceptMap.group m = groups.
Proof.
  split; [reflexivity |].
  destruct (concept_map_groups_deterministic Fixture.exact_ratio Fixture.last_seen
              Fixture.demo_service Namaste.sample_data) as [groups [_ H]].
  exists groups. apply H. reflexivity.
Defined.

(** ** Validation *)

(** C10: when both codes resolve, the confidence reported is the similarity
    score of the two entries looked up, and the report is the same whatever
    the predefined table holds. *)
Theorem validation_ignores_predefined (ratio : string -> string -> float)
    (self : MappingService) (namaste_code icd11_code icd11_system : string)
    (namaste_details : Details.t) (icd_details : Icd.t) (rest : list Icd.t) :
  Namaste.get_namaste_code_details (namaste_service self) namaste_code
    (create_sample_namaste_data (namaste_service self)) = Some namaste_details ->
  search_icd11_codes (icd11_service self) icd11_code icd11_system 1
  = Py.Ok (icd_details :: rest) ->
  exists r,
    Mapping.validate_mapping ratio self namaste_code icd11_code icd11_system
    = Py.Ok (Validation.Report r) /\
    Validation.confidence r = Mapping._calculate_similarity ratio namaste_details icd_details /\
    Validation.valid r = (0.3 <? Validation.confidence r)%float /\
    (forall table,
        Mapping.validate_mapping ratio (with_predefined_mappings self table)
          namaste_code icd11_code icd11_system
        = Py.Ok (Validation.Report r)).
Proof.
  intros G S. unfold Mapping.validate_mapping. simpl namaste_service. simpl icd11_service.
  rewrite G, S. simpl. eexists. repeat split.
Qed.

(** The curated pair NAM002 and Z73.3 is rejected in demo mode. *)
Lemma validation_ignores_predefined_witness :
  Mapping.dict_get "NAM002" (predefined_mappings Fixture.demo_service)
  = Some [Mapping.pm "tm2" "TM2.01" equivalent; Mapping.pm "biomedicine" "Z73.3" wider] /\
  exists r,
    Mapping.validate_mapping Fixture.exact_ratio Fixture.demo_service
      "NAM002" "Z73.3" "biomedicine" = Py.Ok (Validation.Report r) /\
    Validation.recommendation r = "Reject" /\
    (forall table,
        Mapping.validate_mapping Fixture.exact_ratio
          (with_predefined_mappings Fixture.demo_service table) "NAM002" "Z73.3" "biomedicine"
        = Py.Ok (Validation.Report r)).
Proof.
  split; [reflexivity |].
  destruct (validation_ignores_predefined Fixture.exact_ratio Fixture.demo_service
              "NAM002" "Z73.3" "biomedicine" _ _ _ eq_refl eq_refl) as [r [V [_ [_ T]]]].
  exists r. split; [exact V |]. split; [| exact T].
  vm_compute in V. injection V as <-. reflexivity.
Defined.

(** ** Reverse translation *)

(** C3, counterexample: the display and the definition of the entity both
    find the row SID001, and reverse translation returns it twice. *)
Lemma reverse_translation_keeps_duplicates :
  exists c,
    Mapping.reverse_translate_icd11_to_namaste Fixture.exact_ratio Fixture.vatham_service
      "http://id.who.int/icd/release/11/2023-01/tm2/999" "tm2" = Py.Ok [c; c] /\
    Details.code (Mapped.entry c) = "SID001" /\
    Mapped.mappingMethod c = automatic_reverse.
Proof. eexists. split; [vm_compute; reflexivity | split; reflexivity]. Qed.

(** ** The service at work *)

Example lower_example : Py.lower "Ajirna (Indigestion)" = "ajirna (indigestion)".
Proof. reflexivity. Qed.

Example main_term_example :
  Py.strip (Py.split_parens_first (Py.lower "Ajirna (Indigestion)")) = "ajirna".
Proof. reflexivity. Qed.

Example format_2f_examples :
  Py.format_2f 0.9 = "0.90" /\ Py.format_2f 0.825 = "0.82" /\
  Py.format_2f 0.125 = "0.12" /\ Py.format_2f 0.375 = "0.38" /\
  Py.format_2f 1 = "1.00" /\ Py.format_2f 12.345 = "12.35" /\
  Py.format_2f 0.004 = "0.00" /\ Py.format_2f (-0.5) = "-0.50".
Proof. vm_compute. repeat split. Qed.

Example sorted_desc_is_stable :
  Py.sorted_desc (fun p : string * float => snd p)
    [("a", 0.5%float); ("b", 0.9%float); ("c", 0.5%float); ("d", 0.9%float)]
  = [("b", 0.9%float); ("d", 0.9%float); ("a", 0.5%float); ("c", 0.5%float)].
Proof. vm_compute. reflexivity. Qed.

(** In demo mode the provider answers every query with its whole mock list,
    so the entry attached to the curated mapping of NAM005 is the first mock
    entity of the sub-system. *)
Example demo_translate_nam005 :
  exists c,
    Mapping.translate_namaste_to_icd11 Fixture.exact_ratio Fixture.last_seen
      Fixture.demo_service "NAM005" "biomedicine" = Py.Ok [c] /\
    Icd.code (Mapped.entry c) = "K59.0" /\
    Mapped.equivalence c = equivalent /\
    Mapped.mappingMethod c = predefined /\
    Mapped.confidence c = 0.9%float.
Proof. eexists. split; [vm_compute; reflexivity | repeat split]. Qed.

(** A predefined entry that covers TM2 only still ends the translation to
    "both": no Biomedicine candidate is searched for. *)
Example partial_entry_short_circuits :
  exists c,
    Mapping.translate_namaste_to_icd11 Fixture.full_ratio Fixture.last_seen
      Fixture.partial_service "NAM006" "both" = Py.Ok [c] /\
    Mapped.mappingMethod c = predefined /\
    Icd.system (Mapped.entry c) = ICD11.tm2_url.
Proof. eexists. split; [vm_compute; reflexivity | split; reflexivity]. Qed.

Example heuristic_translate_nam006 :
  exists l,
    Mapping.translate_namaste_to_icd11 Fixture.full_ratio Fixture.last_seen
      Fixture.heuristic_service "NAM006" "both" = Py.Ok l /\
    map (fun c => Icd.code (Mapped.entry c)) l = ["G44.2"; "TM2.01"; "TM2.02"; "TM2.03"; "K59.0"] /\
    length Fixture.nam006_candidates = 30%nat.
Proof. eexists. split; [vm_compute; reflexivity | split; reflexivity]. Qed.

Example demo_concept_map_comment :
  exists m tm2_group bio_group element target,
    Mapping.generate_concept_map Fixture.exact_ratio Fixture.last_seen Fixture.demo_service
      "0123456789abcdef0123456789abcdef" 0 Namaste.sample_data = Py.Ok m /\
    ConceptMap.id m = "namaste-icd11-map-01234567" /\
    ConceptMap.group m = [tm2_group; bio_group] /\
    length (Group.element tm2_group) = 10%nat /\
    length (Group.element bio_group) = 10%nat /\
    hd_error (Group.element tm2_group) = Some element /\
    Element.target element = [target] /\
    Target.comment target = "Mapped via predefined method with confidence 0.90".
Proof.
  do 5 eexists. split; [vm_compute; reflexivity |].
  repeat split.
Qed.

(** With the two ratios [difflib] computes for NAM002 against the first
    Biomedicine entity of the demo data, the curated pair NAM002 and Z73.3 is
    scored 0.21 and rejected. *)
Example validate_curated_pair_difflib (ratio : string -> string -> float) :
  ratio "vata dosha imbalance" "constipation" = 0.25%float ->
  ratio "constitutional imbalance of vata dosha affecting movement and nervous system"
        "difficulty in passing stools or infrequent bowel movements"
  = 0.2835820895522388%float ->
  exists r,
    Mapping.validate_mapping ratio Fixture.demo_service "NAM002" "Z73.3" "biomedicine"
    = Py.Ok (Validation.Report r) /\
    Validation.confidence r = 0.21343283582089553%float /\
    Validation.valid r = false /\
    Validation.recommendation r = "Reject".
Proof.
  intros D F. eexists. split; [vm_compute; reflexivity |].
  vm_compute. rewrite D, F. vm_compute. repeat split.
Qed.

(** * Further properties of the services *)

(** ** Classification and validation *)

Lemma SFltb_leb_trans x y z : SFltb x y = true -> SFleb y z = true -> SFltb x z = true.
Proof.
  unfold SFleb, SFltb, SFcompare.
  destruct x as [sx|sx| |sx mx ex], y as [sy|sy| |sy my ey], z as [sz|sz| |sz mz ez];
    try destruct sx; try destruct sy; try destruct sz; try easy; compare_cases.
Qed.

Lemma ltb_leb_trans (x y z : float) :
  (x <? y)%float = true -> (y <=? z)%float = true -> (x <? z)%float = true.
Proof. rewrite !ltb_spec, leb_spec. apply SFltb_leb_trans. Qed.

(** X1: the classifier is monotone: a confidence at least as high never gets
    a weaker equivalence. *)
Theorem determine_equivalence_monotone (c1 c2 : float) :
  (c1 <=? c2)%float = true ->
  (Equivalence_rank (Mapping._determine_equivalence c1)
   <= Equivalence_rank (Mapping._determine_equivalence c2))%nat.
Proof.
  intros H. unfold Mapping._determine_equivalence.
  destruct (0.8 <=? c1)%float eqn:A1.
  { rewrite (leb_trans _ _ _ A1 H). simpl. lia. }
  destruct (0.6 <=? c1)%float eqn:B1.
  { pose proof (leb_trans _ _ _ B1 H) as B2. rewrite B2.
    destruct (0.8 <=? c2)%float; simpl; lia. }
  destruct (0.4 <=? c1)%float eqn:C1.
  { pose proof (leb_trans _ _ _ C1 H) as C2. rewrite C2.
    destruct (0.8 <=? c2)%float, (0.6 <=? c2)%float; simpl; lia. }
  simpl. lia.
Qed.

Lemma determine_equivalence_monotone_witness :
  (0.45 <=? 0.7)%float = true /\
  (Equivalence_rank (Mapping._determine_equivalence 0.45)
   <= Equivalence_rank (Mapping._determine_equivalence 0.7))%nat.
Proof.
  split; [reflexivity |]. apply (determine_equivalence_monotone 0.45 0.7). reflexivity.
Defined.

(** What a report of [validate_mapping] is made of. *)
Lemma validate_mapping_report (ratio : string -> string -> float) (self : MappingService)
    (namaste_code icd11_code icd11_system : string) (r : Validation.report) :
  Mapping.validate_mapping ratio self namaste_code icd11_code icd11_system
  = Py.Ok (Validation.Report r) ->
  Validation.valid r = (0.3 <? Validation.confidence r)%float /\
  Validation.equivalence r = Mapping._determine_equivalence (Validation.confidence r) /\
  Validation.recommendation r
  = (if (0.6 <? Validation.confidence r)%float then "Accept"
     else if (0.3 <? Validation.confidence r)%float then "Review" else "Reject").
Proof.
  unfold Mapping.validate_mapping.
  destruct (Namaste.get_namaste_code_details _ _ _) as [nd|]; [| discriminate].
  destruct (search_icd11_codes _ _ _ _) as [[|e rest]|err]; simpl; try discriminate.
  intros [= <-]. simpl. repeat split.
Qed.

(** X2: the parts of a validation report agree: the mapping is valid exactly
    when the recommendation is not "Reject"; "Accept" comes only with the
    equivalence equivalent or wider, and "Reject" only with related. *)
Theorem validate_mapping_verdicts_agree (ratio : string -> string -> float)
    (self : MappingService) (namaste_code icd11_code icd11_system : string)
    (r : Validation.report) :
  Mapping.validate_mapping ratio self namaste_code icd11_code icd11_system
  = Py.Ok (Validation.Report r) ->
  (Validation.recommendation r = "Accept" \/ Validation.recommendation r = "Review" \/
   Validation.recommendation r = "Reject") /\
  (Validation.valid r = true <-> Validation.recommendation r <> "Reject") /\
  (Validation.recommendation r = "Accept" ->
   Validation.equivalence r = equivalent \/ Validation.equivalence r = wider) /\
  (Validation.recommendation r = "Reject" -> Validation.equivalence r = related).
Proof.
  intros V. destruct (validate_mapping_report ratio self _ _ _ r V) as [Hv [He Hr]].
  rewrite Hv, He, Hr. clear Hv He Hr V. set (c := Validation.confidence r).
  unfold Mapping._determine_equivalence.
  destruct (0.6 <? c)%float eqn:A.
  - pose proof (ltb_leb _ _ A) as A'. rewrite A'.
    assert (B : (0.3 <? c)%float = true) by (apply (ltb_leb_trans 0.3 0.6 c); auto).
    rewrite B. split; [auto |]. split; [split; [discriminate | reflexivity] |].
    split; [| discriminate]. intros _. destruct (0.8 <=? c)%float; auto.
  - destruct (0.3 <? c)%float eqn:B.
    + split; [auto |]. split; [split; [discriminate | reflexivity] |].
      split; discriminate.
    + split; [auto |]. split; [split; [discriminate | intros K; elim K; reflexivity] |].
      split; [discriminate |]. intros _.
      assert (C : (0.4 <=? c)%float = false).
      { destruct (0.4 <=? c)%float eqn:C; [| reflexivity].
        pose proof (ltb_leb_trans 0.3 0.4 c eq_refl C). congruence. }
      assert (D : (0.6 <=? c)%float = false).
      { destruct (0.6 <=? c)%float eqn:D; [| reflexivity].
        pose proof (leb_trans 0.4 0.6 c eq_refl D). congruence. }
      assert (E : (0.8 <=? c)%float = false).
      { destruct (0.8 <=? c)%float eqn:E; [| reflexivity].
        pose proof (leb_trans 0.6 0.8 c eq_refl E). congruence. }
      rewrite C, D, E. reflexivity.
Qed.

Lemma validate_mapping_verdicts_agree_witness :
  exists r,
    Mapping.validate_mapping Fixture.full_ratio Fixture.demo_service
      "NAM006" "G44.2" "biomedicine" = Py.Ok (Validation.Report r) /\
    Validation.recommendation r = "Accept" /\
    (Validation.valid r = true <-> Validation.recommendation r <> "Reject") /\
    (Validation.equivalence r = equivalent \/ Validation.equivalence r = wider).
Proof.
  eexists. split; [vm_compute; reflexivity |].
  match goal with |- ?R = _ /\ _ =>
    match R with Validation.recommendation ?r =>
      destruct (validate_mapping_verdicts_agree Fixture.full_ratio Fixture.demo_service
                  "NAM006" "G44.2" "biomedicine" r) as [_ [V [A _]]];
      [vm_compute; reflexivity |]
    end
  end.
  split; [reflexivity |]. split; [exact V |]. apply A. reflexivity.
Defined.

(** X3: validation reports its failures instead of raising. An unknown
    NAMASTE code is rejected before the provider is asked, whatever the
    provider is; an empty search is rejected as an unknown ICD-11 code; and
    an exception of the provider becomes a rejection that carries its
    message. *)
Theorem validate_mapping_rejections (ratio : string -> string -> float)
    (self : MappingService) (namaste_code icd11_code icd11_system : string) :
  (Namaste.get_namaste_code_details (namaste_service self) namaste_code
     (create_sample_namaste_data (namaste_service self)) = None ->
   forall icd,
     Mapping.validate_mapping ratio (with_icd11_service self icd)
       namaste_code icd11_code icd11_system
     = Py.Ok (Validation.Rejected "NAMASTE code not found")) /\
  (Namaste.get_namaste_code_details (namaste_service self) namaste_code
     (create_sample_namaste_data (namaste_service self)) <> None ->
   (search_icd11_codes (icd11_service self) icd11_code icd11_system 1 = Py.Ok [] ->
    Mapping.validate_mapping ratio self namaste_code icd11_code icd11_system
    = Py.Ok (Validation.Rejected "ICD-11 code not found")) /\
   (forall e,
       search_icd11_codes (icd11_service self) icd11_code icd11_system 1 = Py.Raise e ->
       Mapping.validate_mapping ratio self namaste_code icd11_code icd11_system
       = Py.Ok (Validation.Rejected ("Validation error: " ++ e)))) /\
  exists v,
    Mapping.validate_mapping ratio self namaste_code icd11_code icd11_system = Py.Ok v.
Proof.
  unfold Mapping.validate_mapping. simpl namaste_service.
  destruct (Namaste.get_namaste_code_details _ _ _) as [nd|].
  - split; [discriminate |]. split.
    + intros _. split; [intros -> | intros e ->]; reflexivity.
    + destruct (search_icd11_codes _ _ _ _) as [[|e rest]|err]; simpl;
        eexists; reflexivity.
  - split; [reflexivity |]. split; [intros K; elim K; reflexivity |].
    eexists. reflexivity.
Qed.

Lemma validate_mapping_rejections_witness :
  Mapping.validate_mapping Fixture.exact_ratio Fixture.failing_service
    "XYZ000" "K30" "biomedicine" = Py.Ok (Validation.Rejected "NAMASTE code not found") /\
  Mapping.validate_mapping Fixture.exact_ratio Fixture.failing_service
    "NAM001" "K30" "biomedicine"
  = Py.Ok (Validation.Rejected "Validation error: ConnectionError") /\
  Mapping.validate_mapping Fixture.exact_ratio Fixture.vatham_service
    "NAM001" "K30" "biomedicine" = Py.Ok (Validation.Rejected "ICD-11 code not found").
Proof.
  split; [| split].
  - apply (proj1 (validate_mapping_rejections Fixture.exact_ratio Fixture.demo_service
                    "XYZ000" "K30" "biomedicine") eq_refl Fixture.failing).
  - apply (proj1 (proj2 (validate_mapping_rejections Fixture.exact_ratio
                           Fixture.failing_service "NAM001" "K30" "biomedicine")));
      [discriminate | reflexivity].
  - apply (proj1 (proj2 (validate_mapping_rejections Fixture.exact_ratio
                           Fixture.vatham_service "NAM001" "K30" "biomedicine")));
      [discriminate | reflexivity].
Defined.

(** ** The NAMASTE table *)

Lemma prefix_app (s t : string) : prefix s (s ++ t)%string = true.
Proof.
  induction s as [|c s IH]; simpl; [destruct t; reflexivity |].
  destruct (ascii_dec c c) as [_ | N]; [exact IH | elim N; reflexivity].
Qed.

Lemma contains_app (sub before after : string) :
  Py.contains sub (before ++ sub ++ after)%string = true.
Proof.
  induction before as [|c before IH].
  - simpl. destruct sub as [|d sub]; [destruct after; reflexivity |].
    change (String d sub ++ after)%string with (String d (sub ++ after)%string).
    unfold Py.contains; fold Py.contains. rewrite (prefix_app (String d sub) after) at 1.
    reflexivity.
  - change (String c before ++ sub ++ after)%string
      with (String c (before ++ sub ++ after)%string).
    unfold Py.contains; fold Py.contains.
    destruct (prefix sub (String c (before ++ sub ++ after)%string)); [reflexivity | exact IH].
Qed.

Lemma lstrip_suffix (s : string) : exists before, s = (before ++ Py.lstrip s)%string.
Proof.
  induction s as [|c s [before IH]]; simpl.
  - exists "". reflexivity.
  - destruct (Py.is_space c).
    + exists (String c before). simpl. f_equal. exact IH.
    + exists "". reflexivity.
Qed.

Lemma rstrip_prefix (s : string) : exists after, s = (Py.rstrip s ++ after)%string.
Proof.
  induction s as [|c s [after IH]]; simpl.
  - exists "". reflexivity.
  - destruct (Py.rstrip s) as [|d r] eqn:E.
    + destruct (Py.is_space c).
      * exists (String c s). reflexivity.
      * exists after. simpl. f_equal. exact IH.
    + exists after. simpl. f_equal. exact IH.
Qed.

(** A stripped string occurs in the string it was stripped from. *)
Lemma contains_strip (s : string) : Py.contains (Py.strip s) s = true.
Proof.
  unfold Py.strip. destruct (lstrip_suffix s) as [before B].
  destruct (rstrip_prefix (Py.lstrip s)) as [after A].
  rewrite B at 2. rewrite A at 2. apply contains_app.
Qed.

Lemma matching_rows_spec (search_term : string) (namaste_data : list Row.t) (limit : Z)
    (matching_results : list Row.t) :
  Namaste.matching_rows search_term namaste_data limit matching_results
  = matching_results
    ++ firstn (Z.to_nat (Z.max 1 (limit - Z.of_nat (length matching_results))))
         (filter (row_matches search_term) namaste_data).
Proof.
  revert matching_results.
  induction namaste_data as [|row rest IH]; intros acc; simpl.
  - rewrite firstn_nil, app_nil_r. reflexivity.
  - change (Py.contains search_term (Py.lower (Row.code row))
            || Py.contains search_term (Py.lower (Row.display row))
            || Py.contains search_term (Py.lower (Namaste.get_or (Row.definition row) "")))%bool
      with (row_matches search_term row).
    destruct (row_matches search_term row); [| apply IH].
    rewrite length_app. simpl length.
    destruct (Z.of_nat (length acc + 1) >=? limit)%Z eqn:G.
    + apply Z.geb_le in G.
      replace (Z.to_nat (Z.max 1 (limit - Z.of_nat (length acc)))) with 1%nat by lia.
      reflexivity.
    + rewrite IH, length_app. simpl length. rewrite <- app_assoc. f_equal.
      assert (L : (Z.of_nat (length acc + 1) < limit)%Z).
      { destruct (Z.geb_spec (Z.of_nat (length acc + 1)) limit); [discriminate | lia]. }
      replace (Z.to_nat (Z.max 1 (limit - Z.of_nat (length acc))))
        with (S (Z.to_nat (Z.max 1 (limit - Z.of_nat (length acc + 1))))) by lia.
      reflexivity.
Qed.

Lemma search_namaste_codes_spec (self : NAMASTEService) (search_term : string)
    (namaste_data : list Row.t) (limit : Z) :
  Namaste.search_namaste_codes self search_term namaste_data limit
  = map (search_entry self)
      (firstn (Z.to_nat (Z.max 1 limit))
         (filter (row_matches (Py.strip (Py.lower search_term))) namaste_data)).
Proof.
  unfold Namaste.search_namaste_codes. rewrite matching_rows_spec. simpl.
  rewrite Z.sub_0_r. reflexivity.
Qed.

(** X4: a search returns the first rows that contain the stripped,
    lower-cased term in their code, display or definition, in the order of
    the table, up to the limit; a limit of zero or less still returns the
    first such row. *)
Theorem search_namaste_codes_first_matches (self : NAMASTEService) (search_term : string)
    (namaste_data : list Row.t) (limit : Z) :
  Namaste.search_namaste_codes self search_term namaste_data limit
  = map (search_entry self)
      (firstn (Z.to_nat (Z.max 1 limit))
         (filter (row_matches (Py.strip (Py.lower search_term))) namaste_data)) /\
  (length (Namaste.search_namaste_codes self search_term namaste_data limit)
   <= Z.to_nat (Z.max 1 limit))%nat.
Proof.
  pose proof (search_namaste_codes_spec self search_term namaste_data limit) as E.
  split; [exact E |]. rewrite E, length_map. apply firstn_le_length.
Qed.

Lemma get_namaste_code_details_row (self : NAMASTEService) (code : string)
    (namaste_data : list Row.t) (d : Details.t) :
  Namaste.get_namaste_code_details self code namaste_data = Some d ->
  exists row,
    In row namaste_data /\ Row.code row = code /\
    d = Details.mk (Row.code row) (Row.display row)
          (Namaste.get_or (Row.definition row) (Row.display row))
          (Namaste.get_or (Row.system row) "Unknown")
          (Namaste.get_or (Row.category row) "General")
          (Namaste.get_or (Row.body_system row) "Unknown")
          (code_system_url self) (Some (code_system_version self)).
Proof.
  unfold Namaste.get_namaste_code_details.
  destruct (find _ _) as [row|] eqn:F; [| discriminate].
  intros [= <-]. apply find_some in F. destruct F as [I E]. apply String.eqb_eq in E.
  exists row. auto.
Qed.

(** X5: a code that [get_namaste_code_details] resolves is found by a search
    for that code whose limit is at least the size of the table, with the
    same text fields. *)
Theorem search_finds_resolved_code (self : NAMASTEService) (code : string)
    (namaste_data : list Row.t) (limit : Z) (d : Details.t) :
  Namaste.get_namaste_code_details self code namaste_data = Some d ->
  (Z.of_nat (length namaste_data) <= limit)%Z ->
  exists r,
    In r (Namaste.search_namaste_codes self code namaste_data limit) /\
    Details.code r = code /\
    Details.display r = Details.display d /\
    Details.definition r = Details.definition d /\
    Details.system r = Details.system d /\
    Details.version r = None.
Proof.
  intros G L. destruct (get_namaste_code_details_row self code namaste_data d G)
    as [row [I [C ->]]].
  exists (search_entry self row). split; [| simpl; auto].
  rewrite (search_namaste_codes_spec self code namaste_data limit).
  apply in_map. rewrite firstn_all2.
  - apply filter_In. split; [exact I |]. unfold row_matches. rewrite C.
    rewrite contains_strip. reflexivity.
  - pose proof (filter_length_le (row_matches (Py.strip (Py.lower code))) namaste_data). lia.
Qed.


Lemma search_finds_resolved_code_witness :
  exists r,
    In r (Namaste.search_namaste_codes Namaste.init "SID001" Namaste.sample_data 10) /\
    Details.code r = "SID001" /\
    Details.display r = "Vatham Imbalance" /\
    Details.definition r = "Vatham dosha imbalance in Siddha system" /\
    Details.system r = "Siddha" /\
    Details.version r = None.
Proof.
  refine (search_finds_resolved_code Namaste.init "SID001" Namaste.sample_data 10 _
            eq_refl _).
  simpl. lia.
Defined.

Lemma find_existsb (A : Type) (f : A -> bool) (l : list A) :
  existsb f l = true <-> exists x, find f l = Some x.
Proof.
  induction l as [|a l IH]; simpl.
  - split; [discriminate | intros [x H]; discriminate].
  - destruct (f a); simpl; [split; eauto | exact IH].
Qed.

Lemma validate_namaste_code_in (self : NAMASTEService) (code : string)
    (namaste_data : list Row.t) :
  NamasteQueries.validate_namaste_code self code namaste_data = true <->
  In code (map Row.code namaste_data).
Proof.
  unfold NamasteQueries.validate_namaste_code.
  rewrite existsb_exists, in_map_iff. split; intros [row [H1 H2]].
  - apply String.eqb_eq in H2. eauto.
  - exists row. split; [exact H2 | apply String.eqb_eq; exact H1].
Qed.

(** X6: [validate_namaste_code] accepts exactly the codes of the table, and
    these are the codes [get_namaste_code_details] resolves; the details it
    returns carry the code asked for and the URL and version of the code
    system. *)
Theorem validate_namaste_code_resolves (self : NAMASTEService) (code : string)
    (namaste_data : list Row.t) :
  (NamasteQueries.validate_namaste_code self code namaste_data = true <->
   In code (map Row.code namaste_data)) /\
  (NamasteQueries.validate_namaste_code self code namaste_data = true <->
   exists d,
     Namaste.get_namaste_code_details self code namaste_data = Some d /\
     Details.code d = code /\
     Details.codeSystem d = code_system_url self /\
     Details.version d = Some (code_system_version self)) /\
  (NamasteQueries.validate_namaste_code self code namaste_data = false <->
   Namaste.get_namaste_code_details self code namaste_data = None).
Proof.
  unfold NamasteQueries.validate_namaste_code.
  assert (R : existsb (fun item => Row.code item =? code) namaste_data = true <->
              exists d, Namaste.get_namaste_code_details self code namaste_data = Some d).
  { rewrite find_existsb. unfold Namaste.get_namaste_code_details.
    destruct (find _ _) as [row|]; split; intros [x H]; try discriminate; eauto. }
  split; [| split].
  - apply (validate_namaste_code_in self).
  - rewrite R. split; intros [d H]; [| exists d; apply H].
    exists d. split; [exact H |].
    destruct (get_namaste_code_details_row self code namaste_data d H) as [row [_ [C ->]]].
    simpl. auto.
  - rewrite <- Bool.not_true_iff_false, R. split.
    + intros H.
      destruct (Namaste.get_namaste_code_details self code namaste_data) as [d|];
        [elim H; eauto | reflexivity].
    + intros G [d H]. rewrite G in H. discriminate.
Qed.

Lemma lower_ascii_idempotent (c : ascii) : Py.lower_ascii (Py.lower_ascii c) = Py.lower_ascii c.
Proof.
  destruct c as [[] [] [] [] [] [] [] []]; reflexivity.
Qed.

Lemma lower_idempotent (s : string) : Py.lower (Py.lower s) = Py.lower s.
Proof.
  induction s as [|c s IH]; simpl; [reflexivity |].
  rewrite lower_ascii_idempotent, IH. reflexivity.
Qed.

Lemma find_nodup_code (code : string) (row : Row.t) (namaste_data : list Row.t) :
  NoDup (map Row.code namaste_data) -> In row namaste_data -> Row.code row = code ->
  find (fun item => Row.code item =? code) namaste_data = Some row.
Proof.
  induction namaste_data as [|a l IH]; intros N I C; [destruct I |].
  simpl in *. inversion N as [|? ? NI N']; subst.
  destruct I as [-> | I].
  - rewrite String.eqb_refl. reflexivity.
  - destruct (Row.code a =? Row.code row) eqn:E.
    + apply String.eqb_eq in E. elim NI. rewrite E. apply in_map. exact I.
    + apply IH; auto.
Qed.

(** X7: every entry [get_codes_by_system] lists has a code of the table; when
    the codes of the table are distinct, [get_namaste_code_details] resolves
    it to the same text fields, and its system is the one asked for up to
    case, or ['Unknown'] when the row has no system and the empty system was
    asked for. The listing does not depend on the case of the system. *)
Theorem codes_by_system_resolve (self : NAMASTEService) (system : string)
    (namaste_data : list Row.t) (e : SystemCode.t) :
  In e (NamasteQueries.get_codes_by_system self system namaste_data) ->
  NamasteQueries.validate_namaste_code self (SystemCode.code e) namaste_data = true /\
  NamasteQueries.get_codes_by_system self (Py.lower system) namaste_data
  = NamasteQueries.get_codes_by_system self system namaste_data /\
  (NoDup (map Row.code namaste_data) ->
   exists d,
     Namaste.get_namaste_code_details self (SystemCode.code e) namaste_data = Some d /\
     Details.display d = SystemCode.display e /\
     Details.definition d = SystemCode.definition e /\
     Details.category d = SystemCode.category e /\
     Details.bodySystem d = SystemCode.bodySystem e /\
     (Py.lower (Details.system d) = Py.lower system \/
      (Py.lower system = "" /\ Details.system d = "Unknown"))).
Proof.
  unfold NamasteQueries.get_codes_by_system. intros I.
  apply in_map_iff in I. destruct I as [row [<- I]].
  apply filter_In in I. destruct I as [I S]. apply String.eqb_eq in S.
  split; [| split].
  - apply (validate_namaste_code_in self). simpl SystemCode.code.
    apply (in_map Row.code). exact I.
  - rewrite lower_idempotent. reflexivity.
  - intros N. unfold Namaste.get_namaste_code_details. simpl SystemCode.code.
    rewrite (find_nodup_code (Row.code row) row namaste_data N I eq_refl).
    eexists. split; [reflexivity |]. simpl.
    repeat (split; [reflexivity |]).
    destruct (Row.system row) as [s|]; simpl in *; [left; exact S |].
    right. split; [symmetry; exact S | reflexivity].
Qed.

Lemma codes_by_system_resolve_witness :
  NamasteQueries.validate_namaste_code Namaste.init "SID002" Namaste.sample_data = true /\
  NamasteQueries.get_codes_by_system Namaste.init (Py.lower "SIDDHA") Namaste.sample_data
  = NamasteQueries.get_codes_by_system Namaste.init "SIDDHA" Namaste.sample_data /\
  (NoDup (map Row.code Namaste.sample_data) ->
   exists d,
     Namaste.get_namaste_code_details Namaste.init "SID002" Namaste.sample_data = Some d /\
     Details.display d = "Pitham Imbalance" /\
     Details.definition d = "Pitham dosha imbalance in Siddha system" /\
     Details.category d = "Constitutional Disorders" /\
     Details.bodySystem d = "Metabolic System" /\
     (Py.lower (Details.system d) = Py.lower "SIDDHA" \/
      (Py.lower "SIDDHA" = "" /\ Details.system d = "Unknown"))).
Proof.
  apply (codes_by_system_resolve Namaste.init "SIDDHA" Namaste.sample_data
           (SystemCode.mk "SID002" "Pitham Imbalance" "Pitham dosha imbalance in Siddha system"
              "Constitutional Disorders" "Metabolic System")).
  vm_compute. right. left. reflexivity.
Defined.

(** ** Reverse translation, continued *)

Lemma insert_desc_length (A : Type) (key : A -> float) (x : A) (l : list A) :
  length (Py.insert_desc key x l) = S (length l).
Proof.
  induction l as [|y l IH]; simpl; [reflexivity |].
  destruct (key x <? key y)%float; simpl; [rewrite IH |]; reflexivity.
Qed.

Lemma sorted_desc_length (A : Type) (key : A -> float) (l : list A) :
  length (Py.sorted_desc key l) = length l.
Proof.
  induction l as [|x l IH]; simpl; [reflexivity |].
  rewrite insert_desc_length, IH. reflexivity.
Qed.

(** Sorting leaves a list with one and the same key as it is. *)
Lemma sorted_desc_constant (A : Type) (key : A -> float) (k : float) (l : list A) :
  (k <? k)%float = false -> Forall (fun y => key y = k) l -> Py.sorted_desc key l = l.
Proof.
  intros K F. induction F as [|x l Hx F IH]; simpl; [reflexivity |].
  rewrite IH. destruct F as [|y l' Hy F]; simpl; [reflexivity |].
  rewrite Hx, Hy, K. reflexivity.
Qed.

Lemma reverse_predefined_spec (self : MappingService) (code system : string)
    (data : list Row.t) (c : Mapped.t Details.t) :
  In c (Mapping.reverse_predefined self code system data) <->
  exists namaste_code mappings mapping d,
    In (namaste_code, mappings) (predefined_mappings self) /\ In mapping mappings /\
    pm_system mapping = system /\ pm_code mapping = code /\
    Namaste.get_namaste_code_details (namaste_service self) namaste_code data = Some d /\
    c = Mapped.mk d (pm_equivalence mapping) predefined 0.9.
Proof.
  unfold Mapping.reverse_predefined. rewrite in_flat_map. split.
  - intros [[k ms] [I H]]. apply in_flat_map in H. destruct H as [m [Im H]].
    destruct ((pm_system m =? system) && (pm_code m =? code))%bool eqn:E; [| destruct H].
    apply andb_true_iff in E. destruct E as [E1 E2]. apply String.eqb_eq in E1, E2.
    destruct (Namaste.get_namaste_code_details _ k data) as [d|] eqn:G; [| destruct H].
    destruct H as [<- | []]. exists k, ms, m, d. auto 10.
  - intros [k [ms [m [d [I [Im [E1 [E2 [G ->]]]]]]]]].
    exists (k, ms). split; [exact I |]. apply in_flat_map. exists m. split; [exact Im |].
    rewrite E1, E2, !String.eqb_refl. simpl. rewrite G. left. reflexivity.
Qed.

Lemma reverse_found_predefined (self : MappingService) (code system : string) :
  Forall (fun c => Mapped.mappingMethod c = predefined /\
                   Mapped.confidence c = 0.9%float /\
                   from_table self c)
         (reverse_found self code system).
Proof.
  apply Forall_forall. intros c I. apply reverse_predefined_spec in I.
  destruct I as [k [ms [m [d [_ [_ [_ [_ [G ->]]]]]]]]]. simpl.
  split; [reflexivity |]. split; [reflexivity |].
  destruct (get_namaste_code_details_row _ _ _ _ G) as [row [I [C ->]]].
  exists row. simpl. auto 10.
Qed.

(** When the table names the target, the scan of the table is the answer. *)
Lemma reverse_translate_found (ratio : string -> string -> float) (self : MappingService)
    (code system : string) :
  reverse_found self code system <> [] ->
  Mapping.reverse_translate_icd11_to_namaste ratio self code system
  = Py.Ok (reverse_found self code system).
Proof.
  intros N. unfold Mapping.reverse_translate_icd11_to_namaste.
  fold (reverse_found self code system).
  destruct (reverse_found self code system) as [|c l] eqn:E; [elim N; reflexivity |].
  cbv beta iota delta [Py.bind Py.try_except]. f_equal.
  apply (sorted_desc_constant _ _ 0.9%float); [reflexivity |].
  rewrite <- E. eapply Forall_impl; [| apply reverse_found_predefined].
  intros a [_ [H _]]. exact H.
Qed.

(** X8: when the predefined table names the target code for the target
    system, reverse translation returns the sources the table gives, in the
    order of the table, each with method predefined and confidence 0.9; the
    ICD-11 provider and the scorer are not consulted. *)
Theorem reverse_predefined_first (ratio : string -> string -> float)
    (self : MappingService) (code system : string) :
  reverse_found self code system <> [] ->
  Mapping.reverse_translate_icd11_to_namaste ratio self code system
  = Py.Ok (reverse_found self code system) /\
  Forall (fun c => Mapped.mappingMethod c = predefined /\
                   Mapped.confidence c = 0.9%float)
         (reverse_found self code system) /\
  (forall ratio' icd',
      Mapping.reverse_translate_icd11_to_namaste ratio' (with_icd11_service self icd')
        code system
      = Py.Ok (reverse_found self code system)).
Proof.
  intros N. split; [apply reverse_translate_found; exact N |]. split.
  - eapply Forall_impl; [| apply reverse_found_predefined]. intros a [H1 [H2 _]]. auto.
  - intros ratio' icd'.
    apply (reverse_translate_found ratio' (with_icd11_service self icd') code system).
    exact N.
Qed.

Lemma reverse_predefined_first_witness :
  Mapping.reverse_translate_icd11_to_namaste Fixture.exact_ratio Fixture.failing_service
    "K30" "biomedicine"
  = Py.Ok (reverse_found Fixture.failing_service "K30" "biomedicine") /\
  map (fun c => Details.code (Mapped.entry c))
      (reverse_found Fixture.failing_service "K30" "biomedicine")
  = ["NAM001"; "NAM005"; "UNA002"].
Proof.
  split; [| reflexivity].
  apply (reverse_predefined_first Fixture.exact_ratio Fixture.failing_service
           "K30" "biomedicine").
  vm_compute. discriminate.
Defined.

(** X9: a curated mapping can be followed backwards: if the table maps a
    NAMASTE code of the table to a target, reverse translation of that
    target's code and system returns the NAMASTE entry with the curated
    equivalence, and only predefined candidates. *)
Theorem curated_round_trip (ratio : string -> string -> float) (self : MappingService)
    (code : string) (mappings : list PredefinedMapping) (mapping : PredefinedMapping)
    (d : Details.t) :
  Mapping.dict_get code (predefined_mappings self) = Some mappings ->
  In mapping mappings ->
  Namaste.get_namaste_code_details (namaste_service self) code
    (create_sample_namaste_data (namaste_service self)) = Some d ->
  exists l,
    Mapping.reverse_translate_icd11_to_namaste ratio self (pm_code mapping)
      (pm_system mapping) = Py.Ok l /\
    In (Mapped.mk d (pm_equivalence mapping) predefined 0.9) l /\
    Forall (fun c => Mapped.mappingMethod c = predefined) l.
Proof.
  intros T I G.
  assert (F : In (Mapped.mk d (pm_equivalence mapping) predefined 0.9)
                 (reverse_found self (pm_code mapping) (pm_system mapping))).
  { apply reverse_predefined_spec. exists code, mappings, mapping, d.
    split; [apply dict_get_in; exact T |]. auto. }
  exists (reverse_found self (pm_code mapping) (pm_system mapping)).
  split; [| split; [exact F |]].
  - apply reverse_translate_found. intros E. rewrite E in F. destruct F.
  - eapply Forall_impl; [| apply reverse_found_predefined]. intros a [H _]. exact H.
Qed.

Lemma curated_round_trip_witness :
  exists l,
    Mapping.reverse_translate_icd11_to_namaste Fixture.exact_ratio Fixture.demo_service
      "Z73.3" "biomedicine" = Py.Ok l /\
    In (Mapped.mk nam002 wider predefined 0.9) l /\
    Forall (fun c => Mapped.mappingMethod c = predefined) l.
Proof.
  apply (curated_round_trip Fixture.exact_ratio Fixture.demo_service "NAM002"
           [Mapping.pm "tm2" "TM2.01" equivalent; Mapping.pm "biomedicine" "Z73.3" wider]
           (Mapping.pm "biomedicine" "Z73.3" wider) nam002).
  - reflexivity.
  - right. left. reflexivity.
  - reflexivity.
Defined.

Lemma search_namaste_codes_bounds (self : NAMASTEService) (search_term : string)
    (namaste_data : list Row.t) (limit : Z) :
  Forall (entry_of_row self namaste_data)
         (Namaste.search_namaste_codes self search_term namaste_data limit) /\
  (length (Namaste.search_namaste_codes self search_term namaste_data limit)
   <= Z.to_nat (Z.max 1 limit))%nat.
Proof.
  rewrite search_namaste_codes_spec. split.
  - apply Forall_forall. intros m I. apply in_map_iff in I. destruct I as [row [<- I]].
    apply firstn_in in I. apply filter_In in I. exists row. simpl.
    split; [apply I | auto 10].
  - rewrite length_map. apply firstn_le_length.
Qed.

(** The inner loop of the automatic reverse mapping. *)
Lemma reverse_scores_inv (ratio : string -> string -> float) (self : MappingService)
    (icd : Icd.t) (matches : list Details.t) (results : list (Mapped.t Details.t)) :
  Forall (entry_of_row (namaste_service self)
            (create_sample_namaste_data (namaste_service self)))
         matches ->
  Forall (fun c => scored_reverse c /\ from_table self c) results ->
  let results' :=
    fold_left
      (fun results match_ =>
         let confidence := Mapping._calculate_similarity ratio match_ icd in
         if (0.3 <? confidence)%float
         then results ++
              [Mapped.mk match_ (Mapping._determine_equivalence confidence)
                 automatic_reverse confidence]
         else results)
      matches results in
  Forall (fun c => scored_reverse c /\ from_table self c) results' /\
  (length results' <= length results + length matches)%nat.
Proof.
  revert results. induction matches as [|m matches IH]; intros results M R; simpl.
  - split; [exact R | lia].
  - inversion M as [|? ? Hm M']; subst.
    destruct (0.3 <? Mapping._calculate_similarity ratio m icd)%float eqn:E.
    + destruct (IH (results ++
                    [Mapped.mk m (Mapping._determine_equivalence
                                    (Mapping._calculate_similarity ratio m icd))
                       automatic_reverse (Mapping._calculate_similarity ratio m icd)]) M')
        as [F L].
      { apply Forall_app. split; [exact R |]. constructor; [| constructor].
        split; [| exact Hm]. split; [reflexivity |]. split; [exact E | reflexivity]. }
      cbv zeta in F, L. split; [exact F |].
      rewrite length_app in L. cbn [length] in L. lia.
    + destruct (IH results M' R) as [F L]. cbv zeta in F, L. split; [exact F | lia].
Qed.

Lemma reverse_automatic_inv (ratio : string -> string -> float) (self : MappingService)
    (icd : Icd.t) :
  let results :=
    Mapping.reverse_automatic ratio self icd
      (create_sample_namaste_data (namaste_service self)) [] in
  Forall (fun c => scored_reverse c /\ from_table self c) results /\
  (length results <= 10)%nat.
Proof.
  unfold Mapping.reverse_automatic. cbn [fold_left].
  set (data := create_sample_namaste_data (namaste_service self)).
  assert (S1 : forall term results,
             Forall (fun c => scored_reverse c /\ from_table self c) results ->
             let results' :=
               if term =? "" then results
               else
                 fold_left
                   (fun results match_ =>
                      let confidence := Mapping._calculate_similarity ratio match_ icd in
                      if (0.3 <? confidence)%float
                      then results ++
                           [Mapped.mk match_ (Mapping._determine_equivalence confidence)
                              automatic_reverse confidence]
                      else results)
                   (Namaste.search_namaste_codes (namaste_service self) term data 5)
                   results in
             Forall (fun c => scored_reverse c /\ from_table self c) results' /\
             (length results' <= length results + 5)%nat).
  { intros term results R. destruct (term =? ""); [split; [exact R | lia] |].
    destruct (search_namaste_codes_bounds (namaste_service self) term data 5) as [M L].
    destruct (reverse_scores_inv ratio self icd _ results M R) as [F L'].
    split; [exact F |]. change (Z.to_nat (Z.max 1 5)) with 5%nat in L.
    exact (Nat.le_trans _ _ _ L' (Nat.add_le_mono _ _ _ _ (le_n _) L)). }
  destruct (S1 (Icd.display icd) [] (Forall_nil _)) as [F1 L1].
  destruct (S1 (Icd.definition icd) _ F1) as [F2 L2].
  split; [exact F2 |].
  exact (Nat.le_trans _ _ _ L2 (Nat.add_le_mono _ _ _ _ L1 (le_n 5))).
Qed.

(** X10: reverse translation always returns a list ordered by
    non-increasing confidence whose candidates score above 0.3 and carry
    the code and the text of a row of the NAMASTE table. Either all of them are predefined, or the
    table does not name the target and all of them are automatic reverse
    candidates classified by their confidence, at most ten in number. *)
Theorem reverse_translation_ranked (ratio : string -> string -> float)
    (self : MappingService) (code system : string) :
  exists l,
    Mapping.reverse_translate_icd11_to_namaste ratio self code system = Py.Ok l /\
    Sorted (fun a b => (Mapped.confidence b <=? Mapped.confidence a)%float = true) l /\
    Forall (fun c => (0.3 <? Mapped.confidence c)%float = true /\ from_table self c) l /\
    (Forall (fun c => Mapped.mappingMethod c = predefined) l \/
     (reverse_found self code system = [] /\
      Forall (fun c => Mapped.mappingMethod c = automatic_reverse /\
                       Mapped.equivalence c
                       = Mapping._determine_equivalence (Mapped.confidence c)) l /\
      (length l <= 10)%nat)).
Proof.
  destruct (reverse_found self code system) as [|c0 l0] eqn:E.
  - assert (A : forall results,
               Forall (fun c => scored_reverse c /\ from_table self c) results ->
               (length results <= 10)%nat ->
               let l := Py.sorted_desc (@Mapped.confidence Details.t) results in
               Sorted (fun a b => (Mapped.confidence b <=? Mapped.confidence a)%float = true) l /\
               Forall (fun c => (0.3 <? Mapped.confidence c)%float = true /\ from_table self c) l /\
               (Forall (fun c => Mapped.mappingMethod c = predefined) l \/
                ([] = @nil (Mapped.t Details.t) /\
                 Forall (fun c => Mapped.mappingMethod c = automatic_reverse /\
                                  Mapped.equivalence c
                                  = Mapping._determine_equivalence (Mapped.confidence c)) l /\
                 (length l <= 10)%nat))).
    { intros results R Len l.
      assert (R' : Forall (fun c => scored_reverse c /\ from_table self c) l).
      { apply Forall_forall. intros c I. apply sorted_desc_in in I.
        revert c I. apply Forall_forall. exact R. }
      split; [| split].
      - apply StronglySorted_Sorted. apply (sorted_desc_sorted _ (@Mapped.confidence Details.t)).
        eapply Forall_impl; [| exact R]. intros c [[_ [H _]] _].
        apply (ltb_number_r _ _ H).
      - eapply Forall_impl; [| exact R']. intros c [[_ [H _]] T]. auto.
      - right. split; [reflexivity |]. split.
        + eapply Forall_impl; [| exact R']. intros c [[H1 [_ H3]] _]. auto.
        + unfold l. rewrite sorted_desc_length. exact Len. }
    unfold Mapping.reverse_translate_icd11_to_namaste.
    fold (reverse_found self code system). rewrite E.
    destruct (get_icd11_code_details (icd11_service self) code) as [[icd|]|e];
      cbv beta iota delta [Py.bind Py.try_except].
    + eexists. split; [reflexivity |].
      destruct (reverse_automatic_inv ratio self icd) as [F L]. cbv zeta in F, L.
      apply (A _ F L).
    + eexists. split; [reflexivity |]. apply (A [] (Forall_nil _)). simpl. lia.
    + exists []. split; [reflexivity |]. split; [constructor |]. split; [constructor |].
      left. constructor.
  - assert (N : reverse_found self code system <> []) by (rewrite E; discriminate).
    rewrite (reverse_translate_found ratio self code system N).
    pose proof (reverse_found_predefined self code system) as F.
    exists (reverse_found self code system). split; [reflexivity |]. split; [| split].
    + rewrite <- (sorted_desc_constant _ (@Mapped.confidence Details.t) 0.9%float
                    (reverse_found self code system)).
      * apply StronglySorted_Sorted.
        apply (sorted_desc_sorted _ (@Mapped.confidence Details.t)).
        eapply Forall_impl; [| exact F]. intros c [_ [H _]]. rewrite H.
        apply (ltb_number_r 0.3%float). reflexivity.
      * reflexivity.
      * eapply Forall_impl; [| exact F]. intros c [_ [H _]]. exact H.
    + eapply Forall_impl; [| exact F]. intros c [_ [H T]]. rewrite H. split; [reflexivity | exact T].
    + left. eapply Forall_impl; [| exact F]. intros c [H _]. exact H.
Qed.

(** ** Forward translation, continued *)

Lemma score_matches_found (ratio : string -> string -> float) (nd : Details.t)
    (P : Mapped.t Icd.t -> Prop) (all_matches matches : list Icd.t)
    (results : list (Mapped.t Icd.t)) :
  (forall c, In (Mapped.entry c) all_matches ->
             Mapped.confidence c = Mapping._calculate_similarity ratio nd (Mapped.entry c) ->
             Mapped.equivalence c = Mapping._determine_equivalence (Mapped.confidence c) ->
             P c) ->
  incl matches all_matches ->
  Forall P results -> Forall P (Mapping.score_matches ratio nd matches results).
Proof.
  intros HP. unfold Mapping.score_matches. revert results.
  induction matches as [|m matches IH]; intros results I R; simpl; [exact R |].
  apply IH; [intros x Hx; apply I; right; exact Hx |].
  destruct (0.3 <? Mapping._calculate_similarity ratio nd m)%float; [| exact R].
  apply Forall_app. split; [exact R |]. constructor; [| constructor].
  apply HP; simpl; [apply I; left; reflexivity | reflexivity | reflexivity].
Qed.

Lemma search_loop_found (ratio : string -> string -> float) (self : MappingService)
    (nd : Details.t) (target : string) (all_terms terms : list string)
    (results l : list (Mapped.t Icd.t)) :
  incl terms all_terms ->
  Mapping.search_loop ratio self nd target terms results = Py.Ok l ->
  Forall (found_for ratio self nd target all_terms) results ->
  Forall (found_for ratio self nd target all_terms) l.
Proof.
  revert results. induction terms as [|term terms IH]; intros results I L R; simpl in L.
  - injection L as <-. exact R.
  - assert (It : In term all_terms) by (apply I; left; reflexivity).
    assert (I' : incl terms all_terms) by (intros x Hx; apply I; right; exact Hx).
    destruct ((target =? "tm2") || (target =? "both"))%bool eqn:T.
    + destruct (search_icd11_codes (icd11_service self) term "tm2" 3) as [tm2|e] eqn:S1;
        [| discriminate]. simpl in L.
      assert (R1 : Forall (found_for ratio self nd target all_terms)
                     (Mapping.score_matches ratio nd tm2 results)).
      { apply (score_matches_found ratio nd _ tm2 tm2); [| apply incl_refl | exact R].
        intros c H1 H2 H3. exists term, "tm2", tm2.
        repeat (split; [first [exact It | exact S1 | exact H1 | exact H2 | idtac] |]);
          try exact H3.
        - left. reflexivity.
        - apply orb_true_iff in T. destruct T as [T | T]; apply String.eqb_eq in T; auto. }
      destruct ((target =? "biomedicine") || (target =? "both"))%bool eqn:B.
      * destruct (search_icd11_codes (icd11_service self) term "biomedicine" 3)
          as [bio|e] eqn:S2; [| discriminate]. simpl in L.
        apply (IH _ I' L).
        apply (score_matches_found ratio nd _ bio bio); [| apply incl_refl | exact R1].
        intros c H1 H2 H3. exists term, "biomedicine", bio.
        repeat (split; [first [exact It | exact S2 | exact H1 | exact H2 | idtac] |]);
          try exact H3.
        -- right. reflexivity.
        -- apply orb_true_iff in B. destruct B as [B | B]; apply String.eqb_eq in B; auto.
      * simpl in L. apply (IH _ I' L). exact R1.
    + simpl in L.
      destruct ((target =? "biomedicine") || (target =? "both"))%bool eqn:B.
      * destruct (search_icd11_codes (icd11_service self) term "biomedicine" 3)
          as [bio|e] eqn:S2; [| discriminate]. simpl in L.
        apply (IH _ I' L).
        apply (score_matches_found ratio nd _ bio bio); [| apply incl_refl | exact R].
        intros c H1 H2 H3. exists term, "biomedicine", bio.
        repeat (split; [first [exact It | exact S2 | exact H1 | exact H2 | idtac] |]);
          try exact H3.
        -- right. reflexivity.
        -- apply orb_true_iff in B. destruct B as [B | B]; apply String.eqb_eq in B; auto.
      * simpl in L. apply (IH _ I' L). exact R.
Qed.

(** X11: without a predefined entry, every candidate forward translation
    returns is an entry the provider gave for one of the search terms of the
    source, in a sub-system the target allows; its confidence is the score
    of that entry against the source and its equivalence the class of that
    score. *)
Theorem automatic_candidates_sound (ratio : string -> string -> float)
    (list_set : list string -> list string) (self : MappingService)
    (code target : string) :
  Mapping.dict_get code (predefined_mappings self) = None ->
  exists l,
    Mapping.translate_namaste_to_icd11 ratio list_set self code target = Py.Ok l /\
    Forall (fun c =>
              exists nd,
                Namaste.get_namaste_code_details (namaste_service self) code
                  (create_sample_namaste_data (namaste_service self)) = Some nd /\
                found_for ratio self nd target
                  (Mapping._extract_search_terms list_set nd) c) l.
Proof.
  intros H. rewrite (translate_automatic ratio list_set self code target H).
  destruct (automatic_mapping_result ratio list_set self code target)
    as [-> | [nd [results [G [L ->]]]]].
  - exists []. split; [reflexivity | constructor].
  - eexists. split; [reflexivity |].
    pose proof (search_loop_found ratio self nd target _ _ [] results
                  (incl_refl _) L (Forall_nil _)) as F.
    apply Forall_forall. intros c I. exists nd. split; [exact G |].
    apply firstn_in in I. apply unique_results_in in I. destruct I as [I _].
    apply sorted_desc_in in I. revert c I. apply Forall_forall. exact F.
Qed.

Lemma automatic_candidates_sound_witness :
  exists l,
    Mapping.translate_namaste_to_icd11 Fixture.full_ratio Fixture.last_seen
      Fixture.heuristic_service "NAM006" "both" = Py.Ok l /\
    Forall (fun c =>
              exists nd,
                Namaste.get_namaste_code_details Namaste.init "NAM006" Namaste.sample_data
                = Some nd /\
                found_for Fixture.full_ratio Fixture.heuristic_service nd "both"
                  (Mapping._extract_search_terms Fixture.last_seen nd) c) l.
Proof.
  apply (automatic_candidates_sound Fixture.full_ratio Fixture.last_seen
           Fixture.heuristic_service "NAM006" "both").
  reflexivity.
Defined.

Lemma group_lengths (display category body_system : string) :
  (length (main_terms display) <= 1)%nat /\
  (length (category_terms category) <= 3)%nat /\
  (length (body_system_terms body_system) <= 2)%nat /\
  (length (display_terms display) <= 2)%nat.
Proof.
  unfold main_terms, category_terms, body_system_terms, display_terms.
  repeat split;
    repeat match goal with
           | |- context [if ?b then _ else _] => destruct b
           end; simpl; lia.
Qed.

(** X12: when [list(set(terms))] lists each term once, a source entry has at
    most eight search terms and none of them is empty, so a forward
    translation asks the provider at most sixteen questions, none with an
    empty search term. *)
Theorem extract_search_terms_bounded (list_set : list string -> list string)
    (nd : Details.t) (target : string) :
  (forall l x, In x (list_set l) <-> In x l) ->
  (forall l, NoDup (list_set l)) ->
  (length (Mapping._extract_search_terms list_set nd) <= 8)%nat /\
  ~ In "" (Mapping._extract_search_terms list_set nd) /\
  (length (flat_map (term_lookups target) (Mapping._extract_search_terms list_set nd))
   <= 16)%nat.
Proof.
  intros Hin Hnd.
  assert (B : (length (Mapping._extract_search_terms list_set nd) <= 8)%nat).
  { rewrite extract_search_terms_groups.
    eapply Nat.le_trans.
    - apply NoDup_incl_length; [apply Hnd |]. intros x Hx. exact (proj1 (Hin _ _) Hx).
    - rewrite !length_app.
      destruct (group_lengths (Py.lower (Details.display nd))
                  (Py.lower (Details.category nd)) (Py.lower (Details.bodySystem nd)))
        as [A1 [A2 [A3 A4]]]. lia. }
  split; [exact B |]. split.
  - rewrite extract_search_terms_groups. intros I. apply (proj1 (Hin _ _)) in I.
    rewrite !in_app_iff in I.
    rewrite main_terms_in, category_terms_in, body_system_terms_in, display_terms_in in I.
    simpl in I.
    repeat match goal with
           | H : _ \/ _ |- _ => destruct H
           | H : _ /\ _ |- _ => destruct H
           end; try discriminate; try contradiction.
    congruence.
  - assert (T : forall terms,
               (length (flat_map (term_lookups target) terms) <= 2 * length terms)%nat).
    { induction terms as [|t terms IH]; [simpl; lia |].
      cbn [flat_map length]. rewrite length_app.
      assert (L : (length (term_lookups target t) <= 2)%nat).
      { unfold term_lookups. rewrite length_app.
        destruct ((target =? "tm2") || (target =? "both"))%bool;
          destruct ((target =? "biomedicine") || (target =? "both"))%bool; simpl; lia. }
      lia. }
    specialize (T (Mapping._extract_search_terms list_set nd)). lia.
Qed.

Lemma extract_search_terms_bounded_witness :
  (length (Mapping._extract_search_terms Fixture.last_seen Fixture.nam006) <= 8)%nat /\
  ~ In "" (Mapping._extract_search_terms Fixture.last_seen Fixture.nam006) /\
  (length (flat_map (term_lookups "both")
             (Mapping._extract_search_terms Fixture.last_seen Fixture.nam006))
   <= 16)%nat.
Proof.
  apply (extract_search_terms_bounded Fixture.last_seen Fixture.nam006 "both").
  - exact last_seen_in.
  - exact last_seen_nodup.
Defined.

(** ** The ConceptMap, continued *)

Lemma elements_loop_spec (ratio : string -> string -> float)
    (list_set : list string -> list string) (self : MappingService)
    (data : list Row.t) (tm2 bio : list Element.t) :
  Mapping.elements_loop ratio list_set self data tm2 bio
  = Py.Ok (tm2 ++ group_elements ratio list_set self "tm2" data,
           bio ++ group_elements ratio list_set self "biomedicine" data).
Proof.
  revert tm2 bio. induction data as [|row data IH]; intros tm2 bio.
  - simpl. rewrite !app_nil_r. reflexivity.
  - cbn [Mapping.elements_loop group_elements flat_map].
    fold (group_elements ratio list_set self "tm2" data).
    fold (group_elements ratio list_set self "biomedicine" data).
    destruct (translate_total ratio list_set self (Row.code row) "tm2") as [l1 ->].
    destruct (translate_total ratio list_set self (Row.code row) "biomedicine") as [l2 ->].
    cbv beta iota delta [Py.bind]. rewrite IH.
    destruct l1, l2; rewrite <- ?app_assoc; reflexivity.
Qed.

Lemma group_elements_in (ratio : string -> string -> float)
    (list_set : list string -> list string) (self : MappingService)
    (target : string) (data : list Row.t) (e : Element.t) :
  In e (group_elements ratio list_set self target data) ->
  exists row mappings,
    In row data /\
    Mapping.translate_namaste_to_icd11 ratio list_set self (Row.code row) target
    = Py.Ok mappings /\
    mappings <> [] /\
    e = Mapping.element_of row mappings.
Proof.
  unfold group_elements. rewrite in_flat_map. intros [row [I H]].
  destruct (Mapping.translate_namaste_to_icd11 ratio list_set self (Row.code row) target)
    as [[|c l]|err] eqn:T; try destruct H as [<- | []]; try destruct H.
  exists row, (c :: l). split; [exact I |]. split; [exact T |].
  split; [discriminate | reflexivity].
Qed.

(** X13: the ConceptMap always has the TM2 group and the Biomedicine group,
    in this order. The elements of a group are the rows of the table that
    have a translation to its system, in the order of the table; an element
    carries the code and display of its row and one target for each
    candidate of the translation, so no element is without target. *)
Theorem concept_map_elements (ratio : string -> string -> float)
    (list_set : list string -> list string) (self : MappingService)
    (uuid_hex : string) (now : Z) (data : list Row.t) :
  exists m,
    Mapping.generate_concept_map ratio list_set self uuid_hex now data = Py.Ok m /\
    map Group.target (ConceptMap.group m)
    = [icd11_tm2_url (icd11_service self); icd11_biomedicine_url (icd11_service self)] /\
    map Group.element (ConceptMap.group m)
    = [group_elements ratio list_set self "tm2" data;
       group_elements ratio list_set self "biomedicine" data] /\
    forall target e,
      In e (group_elements ratio list_set self target data) ->
      exists row mappings,
        In row data /\
        Mapping.translate_namaste_to_icd11 ratio list_set self (Row.code row) target
        = Py.Ok mappings /\
        Element.code e = Row.code row /\
        Element.display e = Row.display row /\
        Element.target e = map Mapping.target_of mappings /\
        Element.target e <> [].
Proof.
  unfold Mapping.generate_concept_map. rewrite elements_loop_spec.
  cbv beta iota delta [Py.bind Py.try_except]. eexists. split; [reflexivity |].
  split; [reflexivity |]. split; [reflexivity |].
  intros target e I.
  destruct (group_elements_in ratio list_set self target data e I)
    as [row [mappings [Ir [T [N ->]]]]].
  exists row, mappings. repeat (split; [first [exact Ir | exact T | reflexivity] |]).
  simpl. destruct mappings; [elim N; reflexivity | discriminate].
Qed.

(** ** Validation, continued *)

Lemma validate_namaste_code_details (self : NAMASTEService) (code : string)
    (namaste_data : list Row.t) :
  NamasteQueries.validate_namaste_code self code namaste_data = true <->
  exists d, Namaste.get_namaste_code_details self code namaste_data = Some d.
Proof.
  unfold NamasteQueries.validate_namaste_code.
  rewrite find_existsb. unfold Namaste.get_namaste_code_details.
  destruct (find _ _) as [row|]; split; intros [x H]; try discriminate; eauto.
Qed.

(** X14: a pair of codes that both validators accept is never rejected by
    [validate_mapping] as not found: it gets a report, on the NAMASTE entry
    and on the first entry the provider returns for the ICD-11 code. A
    report is given only for a NAMASTE code that validates. *)
Theorem validated_pair_is_reported (ratio : string -> string -> float)
    (self : MappingService) (namaste_code icd11_code icd11_system : string) :
  (NamasteQueries.validate_namaste_code (namaste_service self) namaste_code
     (create_sample_namaste_data (namaste_service self)) = true ->
   ICD11Queries.validate_icd11_code (icd11_service self) icd11_code icd11_system
   = Py.Ok true ->
   exists r rest,
     Mapping.validate_mapping ratio self namaste_code icd11_code icd11_system
     = Py.Ok (Validation.Report r) /\
     Namaste.get_namaste_code_details (namaste_service self) namaste_code
       (create_sample_namaste_data (namaste_service self))
     = Some (Validation.namaste_details r) /\
     search_icd11_codes (icd11_service self) icd11_code icd11_system 1
     = Py.Ok (Validation.icd11_details r :: rest)) /\
  (forall r,
      Mapping.validate_mapping ratio self namaste_code icd11_code icd11_system
      = Py.Ok (Validation.Report r) ->
      NamasteQueries.validate_namaste_code (namaste_service self) namaste_code
        (create_sample_namaste_data (namaste_service self)) = true).
Proof.
  unfold Mapping.validate_mapping, ICD11Queries.validate_icd11_code.
  split.
  - intros V1 V2.
    apply (proj1 (validate_namaste_code_details (namaste_service self) namaste_code _))
      in V1.
    destruct V1 as [d G]. rewrite G.
    destruct (search_icd11_codes (icd11_service self) icd11_code icd11_system 1)
      as [[|icd rest]|e]; try discriminate.
    cbv beta iota delta [Py.bind Py.try_except]. eexists. exists rest.
    split; [reflexivity |]. split; reflexivity.
  - intros r H.
    apply (proj2 (validate_namaste_code_details (namaste_service self) namaste_code _)).
    destruct (Namaste.get_namaste_code_details (namaste_service self) namaste_code
                (create_sample_namaste_data (namaste_service self))) as [d|] eqn:G;
      [| discriminate].
    exists d. reflexivity.
Qed.

Lemma validated_pair_is_reported_witness :
  exists r rest,
    Mapping.validate_mapping Fixture.exact_ratio Fixture.demo_service
      "NAM002" "TM2.01" "tm2" = Py.Ok (Validation.Report r) /\
    Namaste.get_namaste_code_details Namaste.init "NAM002" Namaste.sample_data
    = Some (Validation.namaste_details r) /\
    search_icd11_codes ICD11.demo "TM2.01" "tm2" 1
    = Py.Ok (Validation.icd11_details r :: rest).
Proof.
  apply (proj1 (validated_pair_is_reported Fixture.exact_ratio Fixture.demo_service
                  "NAM002" "TM2.01" "tm2")); reflexivity.
Defined.

(** ** Demo mode *)

Lemma demo_lookup_first (self : MappingService) (mapping : PredefinedMapping) :
  icd11_service self = ICD11.demo ->
  exists e rest,
    predefined_lookup self mapping = Py.Ok (e :: rest) /\
    Icd.code e = if pm_system mapping =? "tm2" then "TM2.01" else "K59.0".
Proof.
  intros D. unfold predefined_lookup. rewrite D.
  destruct (pm_system mapping =? "tm2"); eexists; eexists; split; reflexivity.
Qed.

Lemma demo_predefined_loop (self : MappingService) (target : string)
    (mappings : list PredefinedMapping) (results : list (Mapped.t Icd.t)) :
  icd11_service self = ICD11.demo ->
  exists l,
    Mapping.predefined_loop self target mappings results = Py.Ok l /\
    map code_and_equivalence l
    = map code_and_equivalence results
      ++ map (fun mapping =>
                (if pm_system mapping =? "tm2" then "TM2.01" else "K59.0",
                 pm_equivalence mapping))
             (applicable target mappings).
Proof.
  intros D. revert results.
  induction mappings as [|m mappings IH]; intros results.
  - exists results. split; [reflexivity |]. simpl. rewrite app_nil_r. reflexivity.
  - cbn [Mapping.predefined_loop applicable filter].
    fold (applicable target mappings).
    destruct ((target =? "both") || (target =? pm_system m))%bool; [| apply IH].
    destruct (demo_lookup_first self m D) as [e [rest [L C]]].
    unfold predefined_lookup in L. rewrite L. cbv beta iota delta [Py.bind].
    destruct (IH (results ++ [Mapped.mk e (pm_equivalence m) predefined 0.9]))
      as [l [-> E]].
    exists l. split; [reflexivity |]. rewrite E, map_app, <- app_assoc.
    f_equal. simpl map. rewrite <- C. reflexivity.
Qed.

(** X15: in demo mode the provider answers every query with its mock
    entities, so a predefined translation does not return the codes the
    table names: each applicable entry of the table yields one candidate,
    with the curated equivalence and the code of the first mock entity of
    its system, TM2.01 or K59.0. *)
Theorem demo_predefined_targets (ratio : string -> string -> float)
    (list_set : list string -> list string) (self : MappingService)
    (code target : string) (mappings : list PredefinedMapping) :
  icd11_service self = ICD11.demo ->
  Mapping.dict_get code (predefined_mappings self) = Some mappings ->
  exists l,
    Mapping.translate_namaste_to_icd11 ratio list_set self code target = Py.Ok l /\
    map code_and_equivalence l
    = map (fun mapping =>
             (if pm_system mapping =? "tm2" then "TM2.01" else "K59.0",
              pm_equivalence mapping))
          (applicable target mappings).
Proof.
  intros D T. unfold Mapping.translate_namaste_to_icd11. rewrite T.
  destruct (demo_predefined_loop self target mappings [] D) as [l [-> E]].
  exists l. split; [reflexivity | exact E].
Qed.

Lemma demo_predefined_targets_witness :
  exists l,
    Mapping.translate_namaste_to_icd11 Fixture.exact_ratio Fixture.last_seen
      Fixture.demo_service "NAM001" "both" = Py.Ok l /\
    map code_and_equivalence l
    = map (fun mapping =>
             (if pm_system mapping =? "tm2" then "TM2.01" else "K59.0",
              pm_equivalence mapping))
          (applicable "both" [Mapping.pm "tm2" "TM2.02" equivalent;
                              Mapping.pm "biomedicine" "K30" wider]).
Proof.
  apply (demo_predefined_targets Fixture.exact_ratio Fixture.last_seen
           Fixture.demo_service "NAM001" "both"); reflexivity.
Defined.

(** ** The [$translate] operation *)

Lemma translation_response_shape (A : Type) `{Coded A} `{TextEntry A}
    (system code uuid_hex : string) (results : list (Mapped.t A)) :
  exists b rest,
    Endpoints.parameter (Endpoints.translation_response system code uuid_hex results)
    = Endpoints.result_param b :: rest /\
    (if b then rest <> [] /\ forallb Endpoints.is_match rest = true
     else exists message, rest = [Endpoints.message_param message]).
Proof.
  destruct results as [|c l].
  - exists false. eexists. split; [reflexivity |]. eexists. reflexivity.
  - exists true. eexists. split; [reflexivity |]. split; [discriminate |].
    apply forallb_forall. intros p I. apply in_map_iff in I. destruct I as [x [<- _]].
    reflexivity.
Qed.

(** X16: a GET request to the [$translate] operation is never answered with
    status 500: the status is 400 when the system or the code is missing or
    blank, and 200 otherwise, also when the request is refused. The first
    parameter of the response is the result flag; when it is true the other
    parameters are the matches, at least one, and when it is false there is
    one other parameter, a message. *)
Theorem translate_code_response (ratio : string -> string -> float)
    (list_set : list string -> list string) (self : Endpoints.TerminologyTranslate)
    (args : list (string * string)) (uuid_hex : string) :
  snd (Endpoints.get ratio list_set self args uuid_hex)
  = (if (Py.strip (Endpoints.args_get args "system" "") =? "")
        || (Py.strip (Endpoints.args_get args "code" "") =? "")
     then 400%Z else 200%Z) /\
  exists b rest,
    Endpoints.parameter (fst (Endpoints.get ratio list_set self args uuid_hex))
    = Endpoints.result_param b :: rest /\
    (if b then rest <> [] /\ forallb Endpoints.is_match rest = true
     else exists message, rest = [Endpoints.message_param message]).
Proof.
  unfold Endpoints.get, Endpoints._translate_code.
  set (system := Py.strip (Endpoints.args_get args "system" "")).
  set (code := Py.strip (Endpoints.args_get args "code" "")).
  set (target := Py.strip (Endpoints.args_get args "target" "both")).
  assert (E : forall message,
             exists b rest,
               Endpoints.parameter (Endpoints._create_error_response message)
               = Endpoints.result_param b :: rest /\
               (if b then rest <> [] /\ forallb Endpoints.is_match rest = true
                else exists message, rest = [Endpoints.message_param message])).
  { intros message. exists false. eexists. split; [reflexivity |]. eexists. reflexivity. }
  destruct ((system =? "") || (code =? ""))%bool.
  { split; [reflexivity |]. exists false. eexists. split; [reflexivity |].
    eexists. reflexivity. }
  destruct (Py.contains "namaste" (Py.lower system)).
  { destruct (target =? "namaste"); [split; [reflexivity | apply E] |].
    destruct (translate_total ratio list_set (Endpoints.mapping_service self) code target)
      as [l ->].
    split; [reflexivity |]. apply translation_response_shape. }
  destruct (Py.contains "icd" (Py.lower system)); [| split; [reflexivity | apply E]].
  destruct (Py.contains "tm2" (Py.lower system)).
  { destruct (reverse_translate_total ratio (Endpoints.mapping_service self) code "tm2")
      as [l ->].
    split; [reflexivity |]. apply translation_response_shape. }
  destruct (Py.contains "mms" (Py.lower system)); [| split; [reflexivity | apply E]].
  destruct (reverse_translate_total ratio (Endpoints.mapping_service self) code "biomedicine")
    as [l ->].
  split; [reflexivity |]. apply translation_response_shape.
Qed.

Lemma translate_unknown_target (ratio : string -> string -> float)
    (list_set : list string -> list string) (ns : NAMASTEService) (icd : ICD11Service)
    (code target : string) :
  target <> "tm2" -> target <> "biomedicine" -> target <> "both" ->
  Mapping.translate_namaste_to_icd11 ratio list_set (Mapping.init ns icd) code target
  = Py.Ok [].
Proof.
  intros T M B. unfold Mapping.translate_namaste_to_icd11.
  destruct (Mapping.dict_get code (predefined_mappings (Mapping.init ns icd)))
    as [mappings|] eqn:D.
  - rewrite predefined_loop_no_match; [reflexivity | exact B |].
    apply init_systems in D. apply Forall_forall. intros m Hm.
    destruct (proj1 (Forall_forall _ _) D m Hm) as [-> | ->]; congruence.
  - unfold Mapping._perform_automatic_mapping.
    destruct (Namaste.get_namaste_code_details _ _ _) as [nd|]; [| reflexivity].
    rewrite search_loop_no_target by assumption. reflexivity.
Qed.

(** X17: the [$translate] operation refuses only the target [namaste]. A GET
    request that names a NAMASTE system, a code and any other target that is
    none of tm2, biomedicine and both is answered with status 200, the
    result flag false and the message that no translation was found, which
    is the answer for a code without translation. *)
Theorem translate_code_unknown_target (ratio : string -> string -> float)
    (list_set : list string -> list string) (ns : NAMASTEService) (icd : ICD11Service)
    (args : list (string * string)) (uuid_hex : string) :
  Py.strip (Endpoints.args_get args "code" "") <> "" ->
  Py.contains "namaste" (Py.lower (Py.strip (Endpoints.args_get args "system" ""))) = true ->
  Py.strip (Endpoints.args_get args "target" "both") <> "namaste" ->
  Py.strip (Endpoints.args_get args "target" "both") <> "tm2" ->
  Py.strip (Endpoints.args_get args "target" "both") <> "biomedicine" ->
  Py.strip (Endpoints.args_get args "target" "both") <> "both" ->
  Endpoints.get ratio list_set
    {| Endpoints.mapping_service := Mapping.init ns icd |} args uuid_hex
  = ({| Endpoints.id := Some ("translate-" ++ Py.take 8 uuid_hex)%string;
        Endpoints.parameter :=
          [Endpoints.result_param false;
           Endpoints.message_param
             ("No translation found for "
              ++ Py.strip (Endpoints.args_get args "system" "") ++ "#"
              ++ Py.strip (Endpoints.args_get args "code" ""))] |},
     200%Z).
Proof.
  intros C S N T M B. unfold Endpoints.get, Endpoints._translate_code.
  cbn [Endpoints.mapping_service].
  assert (S' : (Py.strip (Endpoints.args_get args "system" "") =? "") = false).
  { destruct (Py.strip (Endpoints.args_get args "system" "")); [discriminate | reflexivity]. }
  apply String.eqb_neq in C, N. rewrite S', C, S, N.
  cbn [orb]. rewrite (translate_unknown_target ratio list_set ns icd _ _ T M B).
  reflexivity.
Qed.

Lemma translate_code_unknown_target_witness :
  Endpoints.get Fixture.exact_ratio Fixture.last_seen
    {| Endpoints.mapping_service := Mapping.init Namaste.init ICD11.demo |}
    [("system", "http://terminology.mohayush.gov.in/namaste"); ("code", "NAM001");
     ("target", "icd10")]
    "0123456789abcdef0123456789abcdef"
  = ({| Endpoints.id := Some "translate-01234567";
        Endpoints.parameter :=
          [Endpoints.result_param false;
           Endpoints.message_param
             "No translation found for http://terminology.mohayush.gov.in/namaste#NAM001"] |},
     200%Z).
Proof.
  apply (translate_code_unknown_target Fixture.exact_ratio Fixture.last_seen
           Namaste.init ICD11.demo
           [("system", "http://terminology.mohayush.gov.in/namaste"); ("code", "NAM001");
            ("target", "icd10")]
           "0123456789abcdef0123456789abcdef");
    vm_compute; first [reflexivity | discriminate].
Defined.

Lemma reverse_translate_from_table (ratio : string -> string -> float)
    (self : MappingService) (code system : string) :
  exists l,
    Mapping.reverse_translate_icd11_to_namaste ratio self code system = Py.Ok l /\
    Forall (from_table self) l.
Proof.
  destruct (reverse_found self code system) as [|c0 l0] eqn:E.
  - unfold Mapping.reverse_translate_icd11_to_namaste.
    fold (reverse_found self code system). rewrite E.
    destruct (get_icd11_code_details (icd11_service self) code) as [[icd|]|e];
      cbv beta iota delta [Py.bind Py.try_except].
    + eexists. split; [reflexivity |]. apply Forall_forall. intros c I.
      apply sorted_desc_in in I. destruct (reverse_automatic_inv ratio self icd) as [F _].
      apply (proj1 (Forall_forall _ _) F c I).
    + exists []. split; [reflexivity | constructor].
    + exists []. split; [reflexivity | constructor].
  - assert (N : reverse_found self code system <> []) by (rewrite E; discriminate).
    rewrite (reverse_translate_found ratio self code system N).
    exists (reverse_found self code system). split; [reflexivity |].
    eapply Forall_impl; [| apply reverse_found_predefined]. intros c [_ [_ T]]. exact T.
Qed.

Lemma concepts_translation_response (A : Type) `{Coded A} `{TextEntry A}
    (system code uuid_hex : string) (results : list (Mapped.t A)) :
  Endpoints.concepts (Endpoints.translation_response system code uuid_hex results)
  = map (fun result =>
           Coding.mk (system_of (Mapped.entry result)) (code_of (Mapped.entry result))
             (display_of (Mapped.entry result)))
        results.
Proof.
  unfold Endpoints.concepts, Endpoints.translation_response.
  destruct results as [|c l]; [reflexivity |].
  cbn [Endpoints.parameter app flat_map]. generalize (c :: l). intros results.
  induction results as [|r results IH]; [reflexivity |].
  cbn [map flat_map]. rewrite IH. reflexivity.
Qed.

(** X18: in the answer to a GET request that does not name a NAMASTE system,
    every concept is an entry of the NAMASTE table: its code and display are
    those of a row, and its system is the name of the AYUSH system of that
    row, or ['Unknown'] when the row has none; the URL of the NAMASTE code
    system is not used. With the table of the repository the system of a
    concept is Ayurveda, Siddha or Unani. *)
Theorem reverse_translation_concepts (ratio : string -> string -> float)
    (list_set : list string -> list string) (self : Endpoints.TerminologyTranslate)
    (args : list (string * string)) (uuid_hex : string) :
  Py.contains "namaste" (Py.lower (Py.strip (Endpoints.args_get args "system" ""))) = false ->
  Forall (fun coding =>
            exists row,
              In row (create_sample_namaste_data
                        (namaste_service (Endpoints.mapping_service self))) /\
              Coding.code coding = Row.code row /\
              Coding.display coding = Row.display row /\
              Coding.system coding = Namaste.get_or (Row.system row) "Unknown")
         (Endpoints.concepts (fst (Endpoints.get ratio list_set self args uuid_hex))) /\
  (namaste_service (Endpoints.mapping_service self) = Namaste.init ->
   Forall (fun coding => In (Coding.system coding) ["Ayurveda"; "Siddha"; "Unani"])
          (Endpoints.concepts (fst (Endpoints.get ratio list_set self args uuid_hex)))).
Proof.
  intros S.
  assert (A : Forall (fun coding =>
                        exists row,
                          In row (create_sample_namaste_data
                                    (namaste_service (Endpoints.mapping_service self))) /\
                          Coding.code coding = Row.code row /\
                          Coding.display coding = Row.display row /\
                          Coding.system coding = Namaste.get_or (Row.system row) "Unknown")
                     (Endpoints.concepts
                        (fst (Endpoints.get ratio list_set self args uuid_hex)))).
  { unfold Endpoints.get, Endpoints._translate_code. rewrite S.
    assert (R : forall system,
               Forall (fun coding =>
                         exists row,
                           In row (create_sample_namaste_data
                                     (namaste_service (Endpoints.mapping_service self))) /\
                           Coding.code coding = Row.code row /\
                           Coding.display coding = Row.display row /\
                           Coding.system coding = Namaste.get_or (Row.system row) "Unknown")
                      (Endpoints.concepts
                         (fst (match
                                  (results <-
                                     Mapping.reverse_translate_icd11_to_namaste ratio
                                       (Endpoints.mapping_service self)
                                       (Py.strip (Endpoints.args_get args "code" ""))
                                       system ;;
                                   Py.Ok (Endpoints.translation_response
                                            (Py.strip (Endpoints.args_get args "system" ""))
                                            (Py.strip (Endpoints.args_get args "code" ""))
                                            uuid_hex results, 200%Z))
                                with
                                | Py.Ok response => response
                                | Py.Raise _ =>
                                    (Endpoints._create_error_response "Internal server error",
                                     500%Z)
                                end)))).
    { intros system.
      destruct (reverse_translate_from_table ratio (Endpoints.mapping_service self)
                  (Py.strip (Endpoints.args_get args "code" "")) system) as [l [-> F]].
      cbv beta iota delta [Py.bind fst]. rewrite concepts_translation_response.
      apply Forall_forall. intros coding I. apply in_map_iff in I.
      destruct I as [c [<- I]].
      destruct (proj1 (Forall_forall _ _) F c I) as [row [Ir [H1 [H2 [_ [H4 _]]]]]].
      exists row. simpl. auto. }
    destruct ((Py.strip (Endpoints.args_get args "system" "") =? "")
              || (Py.strip (Endpoints.args_get args "code" "") =? ""))%bool;
      [constructor |].
    destruct (Py.contains "icd" _); [| constructor].
    destruct (Py.contains "tm2" _); [apply R |].
    destruct (Py.contains "mms" _); [apply R | constructor]. }
  split; [exact A |]. intros Init.
  eapply Forall_impl; [| exact A]. intros coding [row [I [_ [_ ->]]]].
  rewrite Init in I. simpl in I.
  repeat (destruct I as [<- | I]; [simpl; auto |]). destruct I.
Qed.

Lemma reverse_translation_concepts_witness :
  map Coding.system
    (Endpoints.concepts
       (fst (Endpoints.get Fixture.exact_ratio Fixture.last_seen
               {| Endpoints.mapping_service := Fixture.demo_service |}
               [("system", "http://id.who.int/icd/release/11/2023-01/mms"); ("code", "K30")]
               "0123456789abcdef0123456789abcdef")))
  = ["Ayurveda"; "Ayurveda"; "Unani"] /\
  Forall (fun coding => In (Coding.system coding) ["Ayurveda"; "Siddha"; "Unani"])
    (Endpoints.concepts
       (fst (Endpoints.get Fixture.exact_ratio Fixture.last_seen
               {| Endpoints.mapping_service := Fixture.demo_service |}
               [("system", "http://id.who.int/icd/release/11/2023-01/mms"); ("code", "K30")]
               "0123456789abcdef0123456789abcdef"))).
Proof.
  split; [reflexivity |].
  apply (proj2 (reverse_translation_concepts Fixture.exact_ratio Fixture.last_seen
                  {| Endpoints.mapping_service := Fixture.demo_service |}
                  [("system", "http://id.who.int/icd/release/11/2023-01/mms");
                   ("code", "K30")]
                  "0123456789abcdef0123456789abcdef" eq_refl)).
  reflexivity.
Defined.

(** ** The predefined path, continued *)

Lemma predefined_loop_applicable (self : MappingService) (target : string)
    (mappings : list PredefinedMapping) (results : list (Mapped.t Icd.t)) :
  Mapping.predefined_loop self target mappings results
  = Mapping.predefined_loop self "both" (applicable target mappings) results.
Proof.
  unfold applicable.
  revert results. induction mappings as [|m mappings IH]; intros results; [reflexivity |].
  simpl filter. cbn [Mapping.predefined_loop].
  destruct ((target =? "both") || (target =? pm_system m))%bool; [| apply IH].
  cbn [Mapping.predefined_loop].
  change (("both" =? "both") || ("both" =? pm_system m))%bool with true. cbv iota.
  destruct (if pm_system m =? "tm2"
            then search_icd11_codes (icd11_service self) (pm_code m) "tm2" 1
            else search_icd11_codes (icd11_service self) (pm_code m) "biomedicine" 1)
    as [[|r rest]|e]; cbv beta iota delta [Py.bind]; [apply IH | apply IH | reflexivity].
Qed.

Lemma predefined_loop_app (self : MappingService) (target : string)
    (first second : list PredefinedMapping) (results : list (Mapped.t Icd.t)) :
  Mapping.predefined_loop self target (first ++ second) results
  = (results <- Mapping.predefined_loop self target first results ;;
     Mapping.predefined_loop self target second results).
Proof.
  revert results. induction first as [|m first IH]; intros results; [reflexivity |].
  cbn [app Mapping.predefined_loop].
  destruct ((target =? "both") || (target =? pm_system m))%bool; [| apply IH].
  destruct (if pm_system m =? "tm2"
            then search_icd11_codes (icd11_service self) (pm_code m) "tm2" 1
            else search_icd11_codes (icd11_service self) (pm_code m) "biomedicine" 1)
    as [[|r rest]|e]; cbv beta iota delta [Py.bind]; [apply IH | apply IH | reflexivity].
Qed.

Lemma predefined_loop_appends (self : MappingService) (target : string)
    (mappings : list PredefinedMapping) :
  Forall (fun m => exists r, predefined_lookup self m = Py.Ok r) mappings ->
  exists l,
    (length l <= length mappings)%nat /\
    forall results,
      Mapping.predefined_loop self target mappings results = Py.Ok (results ++ l).
Proof.
  induction 1 as [|m mappings [r Hr] F [l [Len IH]]].
  - exists []. split; [simpl; lia |]. intros results. simpl. rewrite app_nil_r. reflexivity.
  - unfold predefined_lookup in Hr.
    destruct ((target =? "both") || (target =? pm_system m))%bool eqn:T.
    + destruct r as [|x rest].
      * exists l. split; [simpl; lia |]. intros results.
        cbn [Mapping.predefined_loop]. rewrite T, Hr. apply IH.
      * exists (Mapped.mk x (pm_equivalence m) predefined 0.9 :: l).
        split; [simpl; lia |]. intros results.
        cbn [Mapping.predefined_loop]. rewrite T, Hr. cbv beta iota delta [Py.bind].
        rewrite IH, <- app_assoc. reflexivity.
    + exists l. split; [simpl; lia |]. intros results.
      cbn [Mapping.predefined_loop]. rewrite T. apply IH.
Qed.

Lemma applicable_system (target : string) (mappings : list PredefinedMapping) :
  target <> "both" ->
  (Forall (fun m => pm_system m = target) mappings -> applicable target mappings = mappings) /\
  (Forall (fun m => pm_system m <> target) mappings -> applicable target mappings = []).
Proof.
  intros B. apply String.eqb_neq in B. unfold applicable. split.
  - induction 1 as [|m mappings Hm F IH]; [reflexivity |].
    simpl filter. rewrite Hm, String.eqb_refl, Bool.orb_true_r, IH. reflexivity.
  - induction 1 as [|m mappings Hm F IH]; [reflexivity |].
    simpl filter. apply not_eq_sym in Hm. apply String.eqb_neq in Hm.
    rewrite Hm, IH, B. reflexivity.
Qed.

(** X19: when the predefined mapping of a code lists its TM2 entries before
    its Biomedicine entries, as every mapping of the repository does, and
    the provider answers the lookups of these entries, the translation to
    both systems is the translation to TM2 followed by the translation to
    Biomedicine, and each has at most one candidate for each entry. *)
Theorem both_is_tm2_then_biomedicine (ratio : string -> string -> float)
    (list_set : list string -> list string) (self : MappingService) (code : string)
    (tm2_mappings bio_mappings : list PredefinedMapping) :
  Mapping.dict_get code (predefined_mappings self) = Some (tm2_mappings ++ bio_mappings) ->
  Forall (fun m => pm_system m = "tm2") tm2_mappings ->
  Forall (fun m => pm_system m = "biomedicine") bio_mappings ->
  Forall (fun m => exists r, predefined_lookup self m = Py.Ok r)
         (tm2_mappings ++ bio_mappings) ->
  exists tm2_results bio_results,
    Mapping.translate_namaste_to_icd11 ratio list_set self code "tm2"
    = Py.Ok tm2_results /\
    Mapping.translate_namaste_to_icd11 ratio list_set self code "biomedicine"
    = Py.Ok bio_results /\
    Mapping.translate_namaste_to_icd11 ratio list_set self code "both"
    = Py.Ok (tm2_results ++ bio_results) /\
    (length tm2_results <= length tm2_mappings)%nat /\
    (length bio_results <= length bio_mappings)%nat.
Proof.
  intros D T B L. apply Forall_app in L. destruct L as [L1 L2].
  destruct (predefined_loop_appends self "both" tm2_mappings L1) as [l1 [Len1 H1]].
  destruct (predefined_loop_appends self "both" bio_mappings L2) as [l2 [Len2 H2]].
  exists l1, l2. unfold Mapping.translate_namaste_to_icd11. rewrite D.
  rewrite (predefined_loop_applicable self "tm2"),
          (predefined_loop_applicable self "biomedicine").
  assert (A1 : applicable "tm2" (tm2_mappings ++ bio_mappings) = tm2_mappings).
  { unfold applicable. rewrite filter_app. fold (applicable "tm2" tm2_mappings).
    fold (applicable "tm2" bio_mappings).
    rewrite (proj1 (applicable_system "tm2" tm2_mappings ltac:(discriminate)) T).
    rewrite (proj2 (applicable_system "tm2" bio_mappings ltac:(discriminate))).
    - apply app_nil_r.
    - eapply Forall_impl; [| exact B]. intros m ->. discriminate. }
  assert (A2 : applicable "biomedicine" (tm2_mappings ++ bio_mappings) = bio_mappings).
  { unfold applicable. rewrite filter_app. fold (applicable "biomedicine" tm2_mappings).
    fold (applicable "biomedicine" bio_mappings).
    rewrite (proj1 (applicable_system "biomedicine" bio_mappings ltac:(discriminate)) B).
    rewrite (proj2 (applicable_system "biomedicine" tm2_mappings ltac:(discriminate))).
    - reflexivity.
    - eapply Forall_impl; [| exact T]. intros m ->. discriminate. }
  rewrite A1, A2, H1, H2, predefined_loop_app, H1.
  cbv beta iota delta [Py.bind Py.try_except]. rewrite H2.
  repeat split; [exact Len1 | exact Len2].
Qed.

Lemma both_is_tm2_then_biomedicine_witness :
  exists tm2_results bio_results,
    Mapping.translate_namaste_to_icd11 Fixture.exact_ratio Fixture.last_seen
      Fixture.demo_service "NAM006" "tm2" = Py.Ok tm2_results /\
    Mapping.translate_namaste_to_icd11 Fixture.exact_ratio Fixture.last_seen
      Fixture.demo_service "NAM006" "biomedicine" = Py.Ok bio_results /\
    Mapping.translate_namaste_to_icd11 Fixture.exact_ratio Fixture.last_seen
      Fixture.demo_service "NAM006" "both" = Py.Ok (tm2_results ++ bio_results) /\
    (length tm2_results <= 1)%nat /\
    (length bio_results <= 1)%nat.
Proof.
  apply (both_is_tm2_then_biomedicine Fixture.exact_ratio Fixture.last_seen
           Fixture.demo_service "NAM006"
           [Mapping.pm "tm2" "TM2.03" equivalent]
           [Mapping.pm "biomedicine" "G44.2" equivalent]).
  - reflexivity.
  - repeat constructor.
  - repeat constructor.
  - repeat constructor; eexists; reflexivity.
Defined.

(** Every mapping of the repository has one TM2 entry followed by one
    Biomedicine entry. *)
Lemma init_tm2_first (code : string) (mappings : list PredefinedMapping) :
  Mapping.dict_get code Mapping.predefined_mappings_init = Some mappings ->
  exists m1 m2,
    mappings = [m1] ++ [m2] /\ pm_system m1 = "tm2" /\ pm_system m2 = "biomedicine".
Proof.
  intros D. apply dict_get_in in D.
  assert (F : Forall (fun entry : string * list PredefinedMapping =>
                        exists m1 m2,
                          snd entry = [m1] ++ [m2] /\
                          pm_system m1 = "tm2" /\ pm_system m2 = "biomedicine")
                     Mapping.predefined_mappings_init).
  { repeat constructor; eexists; eexists; repeat split. }
  apply (proj1 (Forall_forall _ _) F _ D).
Qed.
